(** * weight-dashboard: the data module and the completeness check

    A shallow embedding of the data reconciliation and derived-metrics code of
    the dashboard ([DataManager] in the data module, [App.checkDataCompleteness]
    in the application module), with the properties its specification states.

    Numbers.  A JavaScript number is modelled by [number]: the three special
    values [NaN], [PInf], [NInf] and the finite values [Fin q], [q] being the
    rational a binary64 value stands for.  The four operations are those of
    binary64: the exact result is rounded to the nearest value of 53
    significant bits, a tie going to the even one, down to the multiples of
    2^-1074 and up to the infinities ([round64]); a decimal literal of the
    code is rounded alike ([lit]), and so is the value of a numeric string.
    The sign of zero is left out.

    Absent.  A numeric field of an entry holds a number, or null or
    undefined; the two are one [None] wherever the code treats them alike.
    Where it does not, the entry is taken as the object it is
    ([DataManager.Log]).

    Strings.  A JavaScript string is modelled by the [string] of its UTF-8
    bytes.

    Layout.  [JS] and [JSDate] hold what the code uses of the language, of
    [Date] and of dayjs; [DataManager] the data module; [Legacy] the older
    copy of its row parser; [App] the completeness check and the daily
    insights; [Spec] the notions the properties are stated with.  The
    properties follow. *)

From Stdlib Require Import ZArith QArith Qpower Qround Qabs List Bool Lia Lqa.
From Stdlib Require Import Ascii.
From Stdlib Require String DecimalString DecimalN.
From stdpp Require Import gmap strings.
Import ListNotations.

Local Open Scope Z_scope.

(* ===================================================================== *)
(** ** JavaScript values used by the code *)
(* ===================================================================== *)

Module JS.

Local Open Scope Q_scope.

(** *** Numbers *)

Inductive number : Type :=
| NaN
| PInf
| NInf
| Fin (q : Q).

Definition isNaN (x : number) : bool :=
  match x with NaN => true | _ => false end.

Definition Qltb (a b : Q) : bool :=
  match Qcompare a b with Lt => true | _ => false end.

Definition Qleb (a b : Q) : bool :=
  match Qcompare a b with Gt => false | _ => true end.

Definition Qis0 (a : Q) : bool :=
  match Qcompare a 0 with Eq => true | _ => false end.

(** **** Rounding to binary64 *)

(** 2 to the power [e]. *)
Definition pow2 (e : Z) : Q := Qpower 2 e.

(** The exponent of the binade of [q > 0]: the [e] with
    [2^e <= q < 2^(e+1)]. *)
Definition ilog2 (q : Q) : Z :=
  let e0 := (Z.log2 (Qnum q) - Z.log2 (Zpos (Qden q)))%Z in
  if Qleb (pow2 e0) q then e0 else (e0 - 1)%Z.

(** The nearest integer, a tie going to the even one. *)
Definition round_half_even (q : Q) : Z :=
  let f := Qfloor q in
  match Qcompare (q - inject_Z f) (1 # 2) with
  | Lt => f
  | Gt => (f + 1)%Z
  | Eq => if Z.even f then f else (f + 1)%Z
  end.

(** The exponent of the last place of the binade of [a > 0]: 52 below the
    exponent of the binade, and -1074 for the subnormal ones. *)
Definition last_place (a : Q) : Z := Z.max (ilog2 a - 52) (-1074).

(** [a > 0] rounded to the nearest multiple of its last place (as a reduced
    fraction). *)
Definition round64_pos (a : Q) : Q :=
  Qred (inject_Z (round_half_even (a / pow2 (last_place a))) * pow2 (last_place a)).

(** The binary64 value of the exact result [q] of an operation: round to
    nearest, ties to even; what rounds to 2^1024 or above is an infinity. *)
Definition round64 (q : Q) : number :=
  match Qcompare q 0 with
  | Eq => Fin 0
  | Gt => let r := round64_pos q in
          if Qleb (pow2 1024) r then PInf else Fin r
  | Lt => let r := round64_pos (- q) in
          if Qleb (pow2 1024) r then NInf else Fin (- r)
  end.

(** A decimal literal of the code. *)
Definition lit (q : Q) : number := round64 q.

(** The Number value of a mathematical value. *)
Definition to_double (x : number) : number :=
  match x with
  | Fin q => round64 q
  | _ => x
  end.

(** **** Arithmetic *)

Definition neg (x : number) : number :=
  match x with
  | NaN => NaN
  | PInf => NInf
  | NInf => PInf
  | Fin q => Fin (- q)
  end.

Definition add (x y : number) : number :=
  match x, y with
  | NaN, _ | _, NaN => NaN
  | PInf, NInf | NInf, PInf => NaN
  | PInf, _ | _, PInf => PInf
  | NInf, _ | _, NInf => NInf
  | Fin a, Fin b => round64 (a + b)
  end.

Definition sub (x y : number) : number := add x (neg y).

(** An infinity times a finite value: the sign of the finite value decides,
    and zero gives NaN. *)
Definition inf_times (pos : bool) (a : Q) : number :=
  match Qcompare a 0 with
  | Eq => NaN
  | Gt => if pos then PInf else NInf
  | Lt => if pos then NInf else PInf
  end.

Definition mul (x y : number) : number :=
  match x, y with
  | NaN, _ | _, NaN => NaN
  | Fin a, Fin b => round64 (a * b)
  | PInf, PInf | NInf, NInf => PInf
  | PInf, NInf | NInf, PInf => NInf
  | PInf, Fin a | Fin a, PInf => inf_times true a
  | NInf, Fin a | Fin a, NInf => inf_times false a
  end.

(** Division.  A finite value divided by zero is an infinity of its sign
    (the zero is read as +0), and 0/0 is NaN. *)
Definition div (x y : number) : number :=
  match x, y with
  | NaN, _ | _, NaN => NaN
  | Fin a, Fin b =>
      if Qis0 b
      then match Qcompare a 0 with Eq => NaN | Gt => PInf | Lt => NInf end
      else round64 (a / b)
  | Fin _, (PInf | NInf) => Fin 0
  | PInf, Fin b => if Qltb b 0 then NInf else PInf
  | NInf, Fin b => if Qltb b 0 then PInf else NInf
  | (PInf | NInf), (PInf | NInf) => NaN
  end.

(** [x < y]; false as soon as one side is NaN. *)
Definition ltb (x y : number) : bool :=
  match x, y with
  | NaN, _ | _, NaN => false
  | _, NInf => false
  | NInf, _ => true
  | PInf, _ => false
  | Fin _, PInf => true
  | Fin a, Fin b => Qltb a b
  end.

(** [x <= y]; false as soon as one side is NaN. *)
Definition leb (x y : number) : bool :=
  match x, y with
  | NaN, _ | _, NaN => false
  | NInf, _ => true
  | _, PInf => true
  | _, NInf => false
  | PInf, _ => false
  | Fin a, Fin b => Qleb a b
  end.

Definition gtb (x y : number) : bool := ltb y x.
Definition geb (x y : number) : bool := leb y x.

(** [Math.abs] *)
Definition Math_abs (x : number) : number :=
  match x with
  | NaN => NaN
  | PInf | NInf => PInf
  | Fin q => Fin (Qabs q)
  end.

(** [Math.round]: the nearest integer, a tie going up; computed on the
    value itself, with no rounding of [x + 0.5]. *)
Definition Math_round (x : number) : number :=
  match x with
  | Fin q => Fin (inject_Z (Qfloor (q + (1 # 2))))
  | _ => x
  end.

(** ToBoolean on a number: NaN and zero are falsy. *)
Definition truthy_num (x : number) : bool :=
  match x with
  | NaN => false
  | PInf | NInf => true
  | Fin q => negb (Qis0 q)
  end.

Definition of_Z (z : Z) : number := Fin (inject_Z z).
Definition of_nat (n : nat) : number := Fin (inject_Z (Z.of_nat n)).

(** Numbers that denote the same value (rationals are not kept reduced). *)
Definition num_eq (x y : number) : Prop :=
  match x, y with
  | NaN, NaN | PInf, PInf | NInf, NInf => True
  | Fin a, Fin b => Qeq a b
  | _, _ => False
  end.

(** *** Strings *)

Definition is_digit (c : ascii) : bool :=
  let n := N_of_ascii c in ((48 <=? n) && (n <=? 57))%N.

Definition digit_val (c : ascii) : N := (N_of_ascii c - 48)%N.

(** The number a string of decimal digits spells, read from the left. *)
Fixpoint N_of_digits_from (acc : N) (s : string) : N :=
  match s with
  | EmptyString => acc
  | String c r => N_of_digits_from (10 * acc + digit_val c)%N r
  end.

Definition N_of_digits (s : string) : N := N_of_digits_from 0 s.

(** The longest prefix of decimal digits, and what follows it: what a greedy
    [\d*] takes when the pattern goes on with something that is not a digit. *)
Fixpoint span_digits (s : string) : string * string :=
  match s with
  | String c r =>
      if is_digit c
      then let '(d, r') := span_digits r in (String c d, r')
      else (EmptyString, s)
  | EmptyString => (EmptyString, EmptyString)
  end.

Definition all_digits (s : string) : bool :=
  forallb is_digit (String.list_ascii_of_string s).

(** [String(n)] for a natural number (decimal digits; the engine switches to
    exponent notation from 10^21 on, the model does not). *)
Definition string_of_N (n : N) : string :=
  DecimalString.NilZero.string_of_uint (N.to_uint n).

Fixpoint repeat_char (c : ascii) (n : nat) : string :=
  match n with
  | O => EmptyString
  | S k => String c (repeat_char c k)
  end.

(** [s.padStart(n, c)] for a one-character pad string. *)
Definition padStart (n : nat) (c : ascii) (s : string) : string :=
  String.append (repeat_char c (n - String.length s)) s.

(** [s] without its prefix [p], when it has that prefix. *)
Fixpoint strip_prefix (p s : string) : option string :=
  match p, s with
  | EmptyString, _ => Some s
  | String a p', String b s' =>
      if Ascii.eqb a b then strip_prefix p' s' else None
  | String _ _, EmptyString => None
  end.

(** [s.startsWith(p)] *)
Definition startsWith (p s : string) : bool :=
  match strip_prefix p s with
  | Some _ => true
  | None => false
  end.

(** [s.split(c)] for a one-character separator. *)
Fixpoint split_on (c : ascii) (s : string) : list string :=
  match s with
  | EmptyString => [EmptyString]
  | String a r =>
      if Ascii.eqb a c then EmptyString :: split_on c r
      else match split_on c r with
           | h :: t => String a h :: t
           | [] => [String a EmptyString]
           end
  end.

(** [l.join(sep)] *)
Definition join (sep : string) (l : list string) : string :=
  String.concat sep l.

(** *** String to number ([Number(s)], [StringToNumber] of ECMAScript) *)

Definition bytes (l : list N) : string :=
  String.string_of_list_ascii (map ascii_of_N l).

(** The white space and line terminators that [Number] trims: TAB, LF, VT,
    FF, CR, SP, then U+00A0, U+1680, U+2000..U+200A, U+2028, U+2029, U+202F,
    U+205F, U+3000 and U+FEFF in UTF-8. *)
Definition white_space : list string :=
  [ bytes [9]; bytes [10]; bytes [11]; bytes [12]; bytes [13]; bytes [32];
    bytes [194; 160]; bytes [225; 154; 128];
    bytes [226; 128; 128]; bytes [226; 128; 129]; bytes [226; 128; 130];
    bytes [226; 128; 131]; bytes [226; 128; 132]; bytes [226; 128; 133];
    bytes [226; 128; 134]; bytes [226; 128; 135]; bytes [226; 128; 136];
    bytes [226; 128; 137]; bytes [226; 128; 138];
    bytes [226; 128; 168]; bytes [226; 128; 169]; bytes [226; 128; 175];
    bytes [226; 129; 159]; bytes [227; 128; 128]; bytes [239; 187; 191] ]%N.

Fixpoint strip_any (ps : list string) (s : string) : option string :=
  match ps with
  | [] => None
  | p :: r =>
      match strip_prefix p s with
      | Some t => Some t
      | None => strip_any r s
      end
  end.

Fixpoint trimStart_with (ws : list string) (fuel : nat) (s : string) : string :=
  match fuel with
  | O => s
  | S k =>
      match strip_any ws s with
      | Some t => trimStart_with ws k t
      | None => s
      end
  end.

Definition trimStart (s : string) : string :=
  trimStart_with white_space (String.length s) s.

Definition trimEnd (s : string) : string :=
  String.rev
    (trimStart_with (map String.rev white_space) (String.length s) (String.rev s)).

Definition trim (s : string) : string := trimEnd (trimStart s).

Definition is_one_of (cs : list ascii) (c : ascii) : bool :=
  existsb (Ascii.eqb c) cs.

Definition is_hex (c : ascii) : bool :=
  is_digit c || is_one_of ["a"; "b"; "c"; "d"; "e"; "f";
                           "A"; "B"; "C"; "D"; "E"; "F"]%char c.
Definition hex_val (c : ascii) : N :=
  let n := N_of_ascii c in
  (if n <=? 57 then n - 48 else if n <=? 70 then n - 55 else n - 87)%N.
Definition is_oct (c : ascii) : bool := is_one_of ["0"; "1"; "2"; "3"; "4"; "5"; "6"; "7"]%char c.
Definition is_bin (c : ascii) : bool := is_one_of ["0"; "1"]%char c.

Fixpoint N_of_radix_from (radix : N) (val : ascii -> N) (acc : N) (s : string) : N :=
  match s with
  | EmptyString => acc
  | String c r => N_of_radix_from radix val (radix * acc + val c)%N r
  end.

(** The digits of a [0x], [0o] or [0b] literal. *)
Definition radix_digits (ok : ascii -> bool) (radix : N) (val : ascii -> N)
    (s : string) : option number :=
  match s with
  | EmptyString => None
  | _ =>
      if forallb ok (String.list_ascii_of_string s)
      then Some (of_Z (Z.of_N (N_of_radix_from radix val 0 s)))
      else None
  end.

(** What follows the [e] of an exponent part: an optional sign and digits. *)
Definition exponent_part (s : string) : option Z :=
  let '(sign, r) :=
    match s with
    | String "+" r => (1%Z, r)
    | String "-" r => ((-1)%Z, r)
    | _ => (1%Z, s)
    end in
  match r with
  | EmptyString => None
  | _ => if all_digits r then Some (sign * Z.of_N (N_of_digits r))%Z else None
  end.

(** StrUnsignedDecimalLiteral: [Infinity], or digits with an optional
    fraction and an optional exponent, at least one digit before the
    exponent. *)
Definition unsigned_decimal (s : string) : option number :=
  if String.eqb s "Infinity" then Some PInf else
  let '(ip, r1) := span_digits s in
  let '(fp, r2) :=
    match r1 with
    | String "." r => span_digits r
    | _ => (EmptyString, r1)
    end in
  if String.eqb ip EmptyString && String.eqb fp EmptyString then None else
  let mant := inject_Z (Z.of_N (N_of_digits (String.append ip fp)))
              / inject_Z (10 ^ Z.of_nat (String.length fp)) in
  match r2 with
  | EmptyString => Some (Fin mant)
  | String c r =>
      if is_one_of ["e"; "E"]%char c
      then match exponent_part r with
           | Some e => Some (Fin (mant * Qpower 10 e))
           | None => None
           end
      else None
  end.

Definition StrDecimalLiteral (s : string) : option number :=
  match s with
  | String "+" r => unsigned_decimal r
  | String "-" r => option_map neg (unsigned_decimal r)
  | _ => unsigned_decimal s
  end.

Definition StrNumericLiteral (s : string) : option number :=
  match s with
  | String "0" (String c r) =>
      if is_one_of ["x"; "X"]%char c then radix_digits is_hex 16 hex_val r
      else if is_one_of ["o"; "O"]%char c then radix_digits is_oct 8 digit_val r
      else if is_one_of ["b"; "B"]%char c then radix_digits is_bin 2 digit_val r
      else StrDecimalLiteral s
  | _ => StrDecimalLiteral s
  end.

(** [Number(s)] on a string: white space is trimmed, the empty rest is 0,
    a numeric literal is the binary64 value nearest to its value, anything
    else is NaN. *)
Definition StringToNumber (s : string) : number :=
  match trim s with
  | EmptyString => Fin 0
  | t => match StrNumericLiteral t with
         | Some n => to_double n
         | None => NaN
         end
  end.

(** *** Number to string *)

(** [x.toFixed(f)]: the sign apart, the nearest multiple of 10^-f, a tie
    going up, in fixed notation, computed on the value itself.  (From 10^21
    on the engine prints in exponent notation; the model keeps fixed
    notation.) *)
Definition toFixed (f : nat) (x : number) : string :=
  match x with
  | NaN => "NaN"
  | PInf => "Infinity"
  | NInf => "-Infinity"
  | Fin q =>
      let p := (10 ^ Z.of_nat f)%Z in
      let n := Qfloor (Qabs q * inject_Z p + (1 # 2)) in
      let ip := string_of_N (Z.to_N (n / p)) in
      let body :=
        match f with
        | O => ip
        | _ => String.append ip
                 (String "." (padStart f "0" (string_of_N (Z.to_N (n mod p)))))
        end in
      if Qltb q 0 then String "-" body else body
  end.

(** *** Values *)

(** What a cell, a field or a variable of the code may hold.  A [Date]
    object carries its time value in milliseconds, [None] for an invalid
    date. *)
Inductive value : Type :=
| VUndefined
| VNull
| VNum (n : number)
| VStr (s : string)
| VDate (t : option Z).

(** ToBoolean *)
Definition ToBoolean (v : value) : bool :=
  match v with
  | VUndefined | VNull => false
  | VNum n => truthy_num n
  | VStr s => negb (String.eqb s EmptyString)
  | VDate _ => true
  end.

(** [Number(v)] *)
Definition Number (v : value) : number :=
  match v with
  | VUndefined => NaN
  | VNull => Fin 0
  | VNum n => n
  | VStr s => StringToNumber s
  | VDate (Some t) => of_Z t
  | VDate None => NaN
  end.

(** ToBoolean on a numeric field that is a number or null/undefined. *)
Definition truthy (x : option number) : bool :=
  match x with
  | Some n => truthy_num n
  | None => false
  end.

(** [x || d] on such a field. *)
Definition or_default (x : option number) (d : number) : number :=
  match x with
  | Some n => if truthy_num n then n else d
  | None => d
  end.

(** ToNumber on a field that may be undefined. *)
Definition of_undefined (x : option number) : number :=
  match x with
  | Some n => n
  | None => NaN
  end.

End JS.

Declare Scope js_scope.
Delimit Scope js_scope with js.
Bind Scope js_scope with JS.number.
Infix "+" := JS.add : js_scope.
Infix "-" := JS.sub : js_scope.
Infix "*" := JS.mul : js_scope.
Infix "/" := JS.div : js_scope.
Infix "<?" := JS.ltb : js_scope.
Infix "<=?" := JS.leb : js_scope.
Infix ">?" := JS.gtb : js_scope.
Infix ">=?" := JS.geb : js_scope.
Infix "==" := JS.num_eq (at level 70, no associativity) : js_scope.

(* ===================================================================== *)
(** ** Calendar dates: [Date] and dayjs *)
(* ===================================================================== *)

Module JSDate.

Definition msPerDay : Z := 86400000.

(** DayFromYear of ECMAScript: the day number of 1 January of year [y]. *)
Definition DayFromYear (y : Z) : Z :=
  365 * (y - 1970) + (y - 1969) / 4 - (y - 1901) / 100 + (y - 1601) / 400.

Definition leap (y : Z) : bool :=
  (y mod 4 =? 0) && (negb (y mod 100 =? 0) || (y mod 400 =? 0)).

(** Months are 1..12 here. *)
Definition days_in_month (y m : Z) : Z :=
  match m with
  | 2 => if leap y then 29 else 28
  | 4 | 6 | 9 | 11 => 30
  | _ => 31
  end.

Definition days_before_month (y m : Z) : Z :=
  let l := if leap y then 1 else 0 in
  match m with
  | 1 => 0
  | 2 => 31
  | 3 => 59 + l
  | 4 => 90 + l
  | 5 => 120 + l
  | 6 => 151 + l
  | 7 => 181 + l
  | 8 => 212 + l
  | 9 => 243 + l
  | 10 => 273 + l
  | 11 => 304 + l
  | _ => 334 + l
  end.

(** MakeDay for a month in 1..12; a day past the end of the month runs on
    into the next one. *)
Definition MakeDay (y m d : Z) : Z :=
  DayFromYear y + days_before_month y m + (d - 1).

Definition digit_at (c : ascii) : Z := Z.of_N (JS.digit_val c).

(** The date-only form [YYYY-MM-DD] of the ECMAScript date-time string
    format, month 01..12 and day 01..31. *)
Definition parse_iso_date (s : string) : option (Z * Z * Z) :=
  match s with
  | String y1 (String y2 (String y3 (String y4 (String s1
      (String m1 (String m2 (String s2 (String d1 (String d2 EmptyString))))))))) =>
      if forallb JS.is_digit [y1; y2; y3; y4; m1; m2; d1; d2]
         && Ascii.eqb s1 "-" && Ascii.eqb s2 "-"
      then
        let y := 1000 * digit_at y1 + 100 * digit_at y2
                 + 10 * digit_at y3 + digit_at y4 in
        let m := 10 * digit_at m1 + digit_at m2 in
        let d := 10 * digit_at d1 + digit_at d2 in
        if (1 <=? m) && (m <=? 12) && (1 <=? d) && (d <=? 31)
        then Some (y, m, d)
        else None
      else None
  | _ => None
  end.

(** [new Date(s).getTime()] for a string: the UTC midnight of a date-only
    string, and [None] (NaN, an invalid date) otherwise.  Whatever else an
    engine accepts beyond that form is not modelled. *)
Definition Date_parse (s : string) : option Z :=
  match parse_iso_date s with
  | Some (y, m, d) => Some (MakeDay y m d * msPerDay)
  | None => None
  end.

(** [a >= b] on two dates: their time values are compared, and an invalid
    date compares false. *)
Definition date_geb (a b : option Z) : bool :=
  match a, b with
  | Some x, Some y => y <=? x
  | _, _ => false
  end.

(** The civil date (year, month 1..12, day) of a day number. *)
Definition civil_from_days (z : Z) : Z * Z * Z :=
  let z := z + 719468 in
  let era := z / 146097 in
  let doe := z - era * 146097 in
  let yoe := (doe - doe / 1460 + doe / 36524 - doe / 146096) / 365 in
  let doy := doe - (365 * yoe + yoe / 4 - yoe / 100) in
  let mp := (5 * doy + 2) / 153 in
  let d := doy - (153 * mp + 2) / 5 + 1 in
  let m := if mp <? 10 then mp + 3 else mp - 9 in
  let y := yoe + era * 400 + (if m <=? 2 then 1 else 0) in
  (y, m, d).

(** A non-negative integer in decimal, padded with zeros to [n] digits. *)
Definition pad (n : nat) (v : Z) : string :=
  JS.padStart n "0" (JS.string_of_N (Z.to_N v)).

(** The year of [toISOString]: four digits, or a sign and six digits. *)
Definition iso_year (y : Z) : string :=
  if (0 <=? y) && (y <=? 9999) then pad 4 y
  else String (if y <? 0 then "-"%char else "+"%char) (pad 6 (Z.abs y)).

Definition iso_date (t : Z) : string :=
  let '(y, m, d) := civil_from_days (t / msPerDay) in
  String.append (iso_year y)
    (String "-" (String.append (pad 2 m) (String "-" (pad 2 d)))).

Definition iso_time (t : Z) : string :=
  let ms := t mod msPerDay in
  String.append (pad 2 (ms / 3600000))
    (String ":" (String.append (pad 2 (ms / 60000 mod 60))
       (String ":" (String.append (pad 2 (ms / 1000 mod 60))
          (String "." (String.append (pad 3 (ms mod 1000)) "Z")))))).

(** [d.toISOString()] for a valid date. *)
Definition toISOString (t : Z) : string :=
  String.append (iso_date t) (String "T" (iso_time t)).

(** *** dayjs: local calendar dates *)

Record civil : Type := mkCivil { year : Z; month : Z; day : Z }.

Definition valid_civil (c : civil) : Prop :=
  1 <= year c <= 9999 /\ 1 <= month c <= 12
  /\ 1 <= day c <= days_in_month (year c) (month c).

Definition prev_day (c : civil) : civil :=
  if 1 <? day c then mkCivil (year c) (month c) (day c - 1)
  else if 1 <? month c
       then mkCivil (year c) (month c - 1) (days_in_month (year c) (month c - 1))
       else mkCivil (year c - 1) 12 31.

(** [c.subtract(n, 'day')] *)
Fixpoint subtract_days (n : nat) (c : civil) : civil :=
  match n with
  | O => c
  | S k => subtract_days k (prev_day c)
  end.

(** [c.format('YYYY-MM-DD')] *)
Definition format_YYYY_MM_DD (c : civil) : string :=
  String.append (pad 4 (year c))
    (String "-" (String.append (pad 2 (month c)) (String "-" (pad 2 (day c))))).

Definition weekday_short (c : civil) : string :=
  match (MakeDay (year c) (month c) (day c) + 4) mod 7 with
  | 0 => "Sun" | 1 => "Mon" | 2 => "Tue" | 3 => "Wed"
  | 4 => "Thu" | 5 => "Fri" | _ => "Sat"
  end.

(** [c.format('M/D (ddd)')] *)
Definition format_M_D_ddd (c : civil) : string :=
  String.append (JS.string_of_N (Z.to_N (month c)))
    (String "/" (String.append (JS.string_of_N (Z.to_N (day c)))
       (String.append " (" (String.append (weekday_short c) ")")))).

End JSDate.


(* ===================================================================== *)
(** ** Records of the data model *)
(* ===================================================================== *)

(** A numeric field holds a number or null/undefined ([None]). *)

(** One day of the log, as [parseInputSheet] builds it. *)
Module Entry.
Record t : Type := mk {
  date : JS.value;
  weight : option JS.number;
  waist : option JS.number;
  steps : option JS.number;
  calories_intake : option JS.number;
  protein : option JS.number;
  fat : option JS.number;
  carbs : option JS.number;
  notes : JS.value
}.
End Entry.

Module Goals.
Record t : Type := mk {
  calories : option JS.number;
  calories_before_0120 : option JS.number;
  protein : option JS.number;
  fat : option JS.number;
  carbs : option JS.number;
  pfc_ratio : option string
}.
End Goals.

Module Settings.
Record t : Type := mk {
  target_weight : option JS.number;
  target_steps : option JS.number;
  start_weight : option JS.number;
  start_date : option string;
  basal_metabolism : option JS.number;
  height : option JS.number;
  age : option JS.number;
  gender : option string;
  goals : option Goals.t
}.
End Settings.

(** One food item of the meal file. *)
Module Item.
Record t : Type := mk {
  name : string;
  calories : option JS.number;
  protein : option JS.number;
  fat : option JS.number;
  carbs : option JS.number
}.
End Item.

(** The three gram counts [evaluatePFC] reads from its first argument. *)
Module Grams.
Record t : Type := mk {
  protein : option JS.number;
  fat : option JS.number;
  carbs : option JS.number
}.
End Grams.

(** The meals of one day: meal slot to items; and of all days: date string
    to the meals of that day. *)
Abbreviation DayMeals := (gmap string (list Item.t)).
Abbreviation MealsByDate := (gmap string (gmap string (list Item.t))).

(** What the engine decides and the model leaves open: how a number and a
    date are printed.  The code that builds keys or texts from them takes the
    printers as a parameter. *)
Module Host.
Record t : Type := mk {
  ToString : JS.number -> string;
  toLocaleString : JS.number -> string;
  DateToString : option Z -> string
}.
End Host.

(** The response of the sheet export: a table of labelled columns and of
    rows of cells, a cell being null or an object with a value [v] and, at
    times, a formatted text [f]. *)
Module Gviz.
Record cell : Type := mkCell { v : JS.value; f : option string }.
Record row : Type := mkRow { c : list (option cell) }.
Record col : Type := mkCol { label : option string }.
Record table : Type := mkTable { cols : list col; rows : option (list row) }.
Record response : Type := mkResponse { table_of : option table }.
End Gviz.

(** A property of a settings object: a plain value, or the goals record. *)
Inductive setting : Type :=
| SValue (v : JS.value)
| SGoals (g : Goals.t).

(** Exceptions: the only one the modelled code can raise. *)
Inductive error : Type := RangeError.

Inductive result (A : Type) : Type :=
| Ok (a : A)
| Throw (e : error).
Arguments Ok {A} a.
Arguments Throw {A} e.

Definition bind {A B : Type} (m : result A) (k : A -> result B) : result B :=
  match m with
  | Ok a => k a
  | Throw e => Throw e
  end.

(* ===================================================================== *)
(** ** The data module *)
(* ===================================================================== *)

Module DataManager.

Import JS.
Local Open Scope js_scope.

(** *** parseInputSheet *)

(** The pattern [Date\((\d+),(\d+),(\d+)\)] tried at the head of [s]. *)
Definition match_Date_at (s : string) : option (string * string * string) :=
  match strip_prefix "Date(" s with
  | None => None
  | Some r0 =>
      let '(y, r1) := span_digits r0 in
      let '(m, r3) := match strip_prefix "," r1 with
                      | Some r2 => span_digits r2
                      | None => (EmptyString, r1)
                      end in
      let '(d, r5) := match strip_prefix "," r3 with
                      | Some r4 => span_digits r4
                      | None => (EmptyString, r3)
                      end in
      match y, m, d, strip_prefix ")" r5 with
      | String _ _, String _ _, String _ _, Some _ => Some (y, m, d)
      | _, _, _, _ => None
      end
  end.

(** [s.match(/Date\((\d+),(\d+),(\d+)\)/)]: the leftmost match, with its
    three groups. *)
Fixpoint match_Date (s : string) : option (string * string * string) :=
  match match_Date_at s with
  | Some g => Some g
  | None =>
      match s with
      | String _ r => match_Date r
      | EmptyString => None
      end
  end.

(** One or two decimal digits: [\d{1,2}]. *)
Definition d12 (s : string) : bool :=
  all_digits s && (1 <=? String.length s)%nat && (String.length s <=? 2)%nat.

(** [s.match(/^\d{4}\/\d{1,2}\/\d{1,2}$/)] *)
Definition match_full_slash (s : string) : bool :=
  match split_on "/" s with
  | [y; m; d] => all_digits y && (String.length y =? 4)%nat && d12 m && d12 d
  | _ => false
  end.

(** [s.match(/^\d{1,2}\/\d{1,2}$/)] *)
Definition match_partial_slash (s : string) : bool :=
  match split_on "/" s with
  | [m; d] => d12 m && d12 d
  | _ => false
  end.

Definition dashed (y m d : string) : string :=
  String.append y (String "-" (String.append m (String "-" d))).

(** [parts[k]] of a split. *)
Definition part (k : nat) (parts : list string) : string :=
  nth k parts EmptyString.

(** The date normalization at the head of the loop body of
    [parseInputSheet]: from [let dateStr = row[0]] to the end of the
    if-chain.  [toISOString] raises RangeError on an invalid date. *)
Definition normalizeDate (dateStr : value) : result value :=
  match dateStr with
  | VStr s =>
      if startsWith "Date(" s then
        match match_Date s with
        | Some (g1, g2, g3) =>
            let year := g1 in
            let month := padStart 2 "0" (string_of_N (N_of_digits g2 + 1)) in
            let day := padStart 2 "0" g3 in
            Ok (VStr (dashed year month day))
        | None => Ok dateStr
        end
      else if match_full_slash s then
        let parts := split_on "/" s in
        let year := part 0 parts in
        let month := padStart 2 "0" (part 1 parts) in
        let day := padStart 2 "0" (part 2 parts) in
        Ok (VStr (dashed year month day))
      else if match_partial_slash s then
        let parts := split_on "/" s in
        let month := padStart 2 "0" (part 0 parts) in
        let day := padStart 2 "0" (part 1 parts) in
        Ok (VStr (dashed "2026" month day))
      else Ok dateStr
  | VDate (Some t) => Ok (VStr (hd EmptyString (split_on "T" (JSDate.toISOString t))))
  | VDate None => Throw RangeError
  | _ => Ok dateStr
  end.

(** The local function [parseNum] of [parseInputSheet]. *)
Definition parseNum (val : value) : option number :=
  match val with
  | VNull | VUndefined => None
  | VStr EmptyString => None
  | _ => let num := Number val in
         if isNaN num then None else Some num
  end.

(** [row[k]]: undefined past the end of the row. *)
Definition cell (row : list value) (k : nat) : value := nth k row VUndefined.

(** The body of the loop of [parseInputSheet]: [None] when the row is
    skipped by [continue]. *)
Definition parseRow (row : list value) : result (option Entry.t) :=
  if negb (ToBoolean (cell row 0)) then Ok None else
  bind (normalizeDate (cell row 0)) (fun dateStr =>
  Ok (Some {|
    Entry.date := dateStr;
    Entry.weight := parseNum (cell row 1);
    Entry.waist := parseNum (cell row 2);
    Entry.steps := parseNum (cell row 3);
    Entry.calories_intake := parseNum (cell row 4);
    Entry.protein := None;
    Entry.fat := None;
    Entry.carbs := None;
    Entry.notes := if ToBoolean (cell row 5) then cell row 5 else VStr EmptyString
  |})).

(** The loop over [rows[1]], [rows[2]], ...; [data] is the array being
    filled. *)
Fixpoint parseRows (rows : list (list value)) (data : list Entry.t)
  : result (list Entry.t) :=
  match rows with
  | [] => Ok data
  | row :: rest =>
      bind (parseRow row) (fun r =>
      parseRows rest (match r with
                      | Some entry => data ++ [entry]
                      | None => data
                      end))
  end.

Definition parseInputSheet (rows : list (list value)) : result (list Entry.t) :=
  if (length rows <? 2)%nat then Ok [] else parseRows (tl rows) [].

(** *** Settings *)

Definition getDefaultSettings : Settings.t := {|
  Settings.target_weight := Some (Fin 90);
  Settings.target_steps := Some (Fin 10000);
  Settings.start_weight := Some (lit 119.2);
  Settings.start_date := Some "2026-01-08";
  Settings.basal_metabolism := Some (Fin 2200);
  Settings.height := Some (Fin 184);
  Settings.age := Some (Fin 30);
  Settings.gender := Some "male";
  Settings.goals := Some {|
    Goals.calories := Some (Fin 2700);
    Goals.calories_before_0120 := Some (Fin 2600);
    Goals.protein := Some (Fin 195);
    Goals.fat := Some (Fin 58);
    Goals.carbs := Some (Fin 325);
    Goals.pfc_ratio := Some "3:2:5"
  |}
|}.

(** The empty object [{}] of [settings.goals || {}]. *)
Definition no_goals : Goals.t := {|
  Goals.calories := None;
  Goals.calories_before_0120 := None;
  Goals.protein := None;
  Goals.fat := None;
  Goals.carbs := None;
  Goals.pfc_ratio := None
|}.

Definition getCalorieTargetForDate (dateStr : string) (settings : Settings.t)
  : number :=
  let date := JSDate.Date_parse dateStr in
  let changeDate := JSDate.Date_parse "2026-01-20" in
  let goals := match Settings.goals settings with
               | Some g => g
               | None => no_goals
               end in
  if JSDate.date_geb date changeDate
  then or_default (Goals.calories goals) (Fin 2700)
  else or_default (Goals.calories_before_0120 goals) (Fin 2600).

(** *** calculateEstimatedBurn *)

Definition calculateEstimatedBurn (weight steps : option number)
    (settings : Settings.t) : option number :=
  match weight with
  | None => None
  | Some w =>
      if negb (truthy_num w) then None else
      let height := or_default (Settings.height settings) (Fin 184) in
      let age := or_default (Settings.age settings) (Fin 30) in
      let bmr := lit 88.362 + (lit 13.397 * w) + (lit 4.799 * height)
                 - (lit 5.677 * age) in
      let stepsCalories :=
        match steps with
        | Some st => if truthy_num st then st * lit 0.045 else Fin 0
        | None => Fin 0
        end in
      let totalBurn := Math_round (bmr * lit 1.2 + stepsCalories) in
      Some totalBurn
  end.

(** *** calculateMovingAverage *)

(** The field names the code indexes an entry with. *)
Inductive field : Type :=
| weight | waist | steps | calories_intake | protein | fat | carbs.

(** [d[field]] *)
Definition get (f : field) (d : Entry.t) : option number :=
  match f with
  | weight => Entry.weight d
  | waist => Entry.waist d
  | steps => Entry.steps d
  | calories_intake => Entry.calories_intake d
  | protein => Entry.protein d
  | fat => Entry.fat d
  | carbs => Entry.carbs d
  end.

(** [l.slice(a, b)] for [0 <= a]. *)
Definition slice {A : Type} (a b : nat) (l : list A) : list A :=
  firstn (b - a) (skipn a l).

(** [l.slice(-n)]: the last [n] elements. *)
Definition slice_last {A : Type} (n : nat) (l : list A) : list A :=
  skipn (length l - n) l.

(** [x !== null && x > 0] *)
Definition present_positive (x : option number) : bool :=
  match x with
  | Some n => n >? Fin 0
  | None => false
  end.

(** ToNumber on a number-or-null: null counts as 0 under [+]. *)
Definition num_of (x : option number) : number :=
  match x with
  | Some n => n
  | None => Fin 0
  end.

Definition push {A : Type} (l : list A) (x : A) : list A := l ++ [x].

(** One turn of the loop of [calculateMovingAverage], at index [i]. *)
Definition movingAverage_step (data : list Entry.t) (f : field) (days : nat)
    (result : list (option number)) (i : nat) : list (option number) :=
  let start := Nat.max 0 (i + 1 - days) in
  let slice := slice start (i + 1) data in
  let validValues :=
    map (get f) (List.filter (fun d => present_positive (get f d)) slice) in
  if (0 <? length validValues)%nat then
    let avg := fold_left (fun a b => a + num_of b) validValues (Fin 0)
               / of_nat (length validValues) in
    push result (Some (Math_round (avg * Fin 100) / Fin 100))
  else push result None.

Definition calculateMovingAverage (data : list Entry.t) (f : field) (days : nat)
  : list (option number) :=
  fold_left (movingAverage_step data f days) (seq 0 (length data)) [].

(** *** calculateWeeklyStats *)

Module Pfc.
Record t : Type := mk { protein : number; carbs : number; fat : number }.
End Pfc.

Module WeeklyStats.
Record t : Type := mk {
  avgCalories : number;
  avgWeight : number;
  pfc : Pfc.t;
  goals : Goals.t
}.
End WeeklyStats.

(** The running totals of the PFC loop. *)
Record totals : Type := mkTotals {
  totalProtein : number;
  totalFat : number;
  totalCarbs : number;
  daysWithData : nat
}.

Definition mealTypes : list string := ["breakfast"; "lunch"; "snack"; "dinner"].

(** The innermost callback: one item is added to the totals, and the flag
    [dayHasData] is raised. *)
Definition add_item (st : totals * bool) (item : Item.t) : totals * bool :=
  let '(t, _) := st in
  ({| totalProtein := totalProtein t + or_default (Item.protein item) (Fin 0);
      totalFat := totalFat t + or_default (Item.fat item) (Fin 0);
      totalCarbs := totalCarbs t + or_default (Item.carbs item) (Fin 0);
      daysWithData := daysWithData t |}, true).

Definition add_mealType (dayMeals : DayMeals) (st : totals * bool)
    (type : string) : totals * bool :=
  match dayMeals !! type with
  | Some items => fold_left add_item items st
  | None => st
  end.

(** [meals[day.date]]: the entry of the map under the date string (a date
    that is not a string finds nothing: the keys are date strings). *)
Definition meals_of (meals : MealsByDate) (date : value) : option DayMeals :=
  match date with
  | VStr s => meals !! s
  | _ => None
  end.

Definition add_day (meals : MealsByDate) (t : totals) (day : Entry.t) : totals :=
  match meals_of meals (Entry.date day) with
  | Some dayMeals =>
      let '(t', dayHasData) := fold_left (add_mealType dayMeals) mealTypes (t, false) in
      if dayHasData
      then {| totalProtein := totalProtein t'; totalFat := totalFat t';
              totalCarbs := totalCarbs t';
              daysWithData := S (daysWithData t') |}
      else t'
  | None => t
  end.

Definition default_goals : Goals.t := {|
  Goals.calories := Some (Fin 2600);
  Goals.calories_before_0120 := None;
  Goals.protein := Some (Fin 195);
  Goals.fat := Some (Fin 58);
  Goals.carbs := Some (Fin 325);
  Goals.pfc_ratio := None
|}.

Definition zero_pfc : Pfc.t :=
  {| Pfc.protein := Fin 0; Pfc.carbs := Fin 0; Pfc.fat := Fin 0 |}.

Definition sum_field (f : field) (l : list Entry.t) : number :=
  fold_left (fun sum d => sum + num_of (get f d)) l (Fin 0).

(** The PFC part of [calculateWeeklyStats]. *)
Definition weekly_pfc (last7Days : list Entry.t) (meals : option MealsByDate)
  : Pfc.t :=
  match meals with
  | None => zero_pfc
  | Some meals =>
      let t := fold_left (add_day meals) last7Days
                 {| totalProtein := Fin 0; totalFat := Fin 0;
                    totalCarbs := Fin 0; daysWithData := 0 |} in
      if (0 <? daysWithData t)%nat then
        let proteinCal := totalProtein t * Fin 4 in
        let carbsCal := totalCarbs t * Fin 4 in
        let fatCal := totalFat t * Fin 9 in
        let totalCal := proteinCal + carbsCal + fatCal in
        {| Pfc.protein := if totalCal >? Fin 0
                          then Math_round ((proteinCal / totalCal) * Fin 100)
                          else Fin 0;
           Pfc.carbs := if totalCal >? Fin 0
                        then Math_round ((carbsCal / totalCal) * Fin 100)
                        else Fin 0;
           Pfc.fat := if totalCal >? Fin 0
                      then Math_round ((fatCal / totalCal) * Fin 100)
                      else Fin 0 |}
      else zero_pfc
  end.

Definition calculateWeeklyStats (data : list Entry.t) (settings : Settings.t)
    (meals : option MealsByDate) : WeeklyStats.t :=
  let last7Days := slice_last 7 data in
  let goals := match Settings.goals settings with
               | Some g => g
               | None => default_goals
               end in
  let validCalories :=
    List.filter (fun d => present_positive (Entry.calories_intake d)) last7Days in
  let avgCalories :=
    if (0 <? length validCalories)%nat
    then Math_round (sum_field calories_intake validCalories
                     / of_nat (length validCalories))
    else Fin 0 in
  let validWeight :=
    List.filter (fun d => present_positive (Entry.weight d)) last7Days in
  let avgWeight :=
    if (0 <? length validWeight)%nat
    then sum_field weight validWeight / of_nat (length validWeight)
    else Fin 0 in
  {| WeeklyStats.avgCalories := avgCalories;
     WeeklyStats.avgWeight := Math_round (avgWeight * Fin 10) / Fin 10;
     WeeklyStats.pfc := weekly_pfc last7Days meals;
     WeeklyStats.goals := goals |}.

(** *** calculateWeightChange *)

Module WeightChange.
Record t : Type := mk {
  current : number;
  change : number;
  changePercent : value;
  toGoal : number
}.
End WeightChange.

Definition calculateWeightChange (data : list Entry.t) (settings : Settings.t)
  : WeightChange.t :=
  let validWeights := List.filter (fun d => present_positive (Entry.weight d)) data in
  (* [validWeights[validWeights.length - 1]], absent exactly when the
     length is 0 *)
  match last validWeights with
  | None =>
      {| WeightChange.current := Fin 0; WeightChange.change := Fin 0;
         WeightChange.changePercent := VNum (Fin 0);
         WeightChange.toGoal := Fin 0 |}
  | Some latest =>
      let current := num_of (Entry.weight latest) in
      let startWeight := of_undefined (Settings.start_weight settings) in
      let change := current - startWeight in
      let changePercent := toFixed 1 ((change / startWeight) * Fin 100) in
      let toGoal := current - of_undefined (Settings.target_weight settings) in
      {| WeightChange.current := current;
         WeightChange.change := Math_round (change * Fin 10) / Fin 10;
         WeightChange.changePercent := VStr changePercent;
         WeightChange.toGoal := Math_round (toGoal * Fin 10) / Fin 10 |}
  end.

(** *** evaluatePFC *)

Inductive status : Type := good | warning.

Module Verdict.
Record t : Type := mk { status : DataManager.status; text : string }.
End Verdict.

Definition P_deficit : string := "P不足".
Definition F_excess : string := "F過多".
Definition C_excess : string := "C過多".

Definition evaluatePFC (log : Grams.t) (goals : option Goals.t)
  : option Verdict.t :=
  match goals with
  | None => None
  | Some goals =>
      if negb (truthy (Grams.protein log)) || negb (truthy (Grams.fat log))
         || negb (truthy (Grams.carbs log))
      then None else
      let proteinDiff := num_of (Grams.protein log) - of_undefined (Goals.protein goals) in
      let fatDiff := num_of (Grams.fat log) - of_undefined (Goals.fat goals) in
      let carbsDiff := num_of (Grams.carbs log) - of_undefined (Goals.carbs goals) in
      let issues := [] in
      let issues := if proteinDiff <? Fin (-20) then push issues P_deficit else issues in
      let issues := if fatDiff >? Fin 20 then push issues F_excess else issues in
      let issues := if carbsDiff >? Fin 50 then push issues C_excess else issues in
      if (length issues =? 0)%nat && (Math_abs proteinDiff <=? Fin 20)
         && (Math_abs fatDiff <=? Fin 15)
      then Some {| Verdict.status := good; Verdict.text := "理想的" |}
      else if (0 <? length issues)%nat
      then Some {| Verdict.status := warning; Verdict.text := join "・" issues |}
      else None
  end.

(** *** calculateWaistChange *)

Module WaistChange.
Record t : Type := mk { current : option number; change : option number }.
End WaistChange.

Definition calculateWaistChange (data : list Entry.t) : WaistChange.t :=
  let validWaist := List.filter (fun d => present_positive (Entry.waist d)) data in
  (* [validWaist[validWaist.length - 1]] and [validWaist[0]], absent exactly
     when the length is 0 *)
  match last validWaist, head validWaist with
  | Some latest, Some earliest =>
      let current := num_of (Entry.waist latest) in
      let first := num_of (Entry.waist earliest) in
      let change := current - first in
      {| WaistChange.current := Some current;
         WaistChange.change := Some (Math_round (change * Fin 10) / Fin 10) |}
  | _, _ => {| WaistChange.current := None; WaistChange.change := None |}
  end.

(** *** getStepsData *)

Module StepsData.
Record t : Type := mk {
  current : option number;
  avgSteps : option number;
  target : number
}.
End StepsData.

(** [x !== null && x !== undefined] *)
Definition present (x : option number) : bool :=
  match x with
  | Some _ => true
  | None => false
  end.

Definition getStepsData (data : list Entry.t) (settings : Settings.t)
  : StepsData.t :=
  let validSteps := List.filter (fun d => present (Entry.steps d)) data in
  let targetSteps := or_default (Settings.target_steps settings) (Fin 10000) in
  let current :=
    match last validSteps with
    | Some latest => Entry.steps latest
    | None => None
    end in
  let last7Days := slice_last 7 data in
  let validWeekSteps := List.filter (fun d => present (Entry.steps d)) last7Days in
  let avgSteps :=
    if (0 <? length validWeekSteps)%nat
    then Some (Math_round (sum_field steps validWeekSteps
                           / of_nat (length validWeekSteps)))
    else None in
  {| StepsData.current := current;
     StepsData.avgSteps := avgSteps;
     StepsData.target := targetSteps |}.

(** *** getYesterdayCalories *)

(** An entry as the object it is: its own properties under their keys; a
    property it does not have reads undefined. *)
Module Log.
Definition t : Type := gmap string value.

Definition get (d : t) (k : string) : value := default VUndefined (d !! k).

(** A numeric field of an entry of the row parser: a number or null. *)
Definition field_value (x : option number) : value :=
  match x with
  | Some n => VNum n
  | None => VNull
  end.

(** The object the row parser builds for an entry. *)
Definition of_entry (e : Entry.t) : t :=
  {[ "date" := Entry.date e;
     "weight" := field_value (Entry.weight e);
     "waist" := field_value (Entry.waist e);
     "steps" := field_value (Entry.steps e);
     "calories_intake" := field_value (Entry.calories_intake e);
     "notes" := Entry.notes e ]}.
End Log.

(** The answer: [calories] and [diff], and [date] when the object has it. *)
Module YesterdayCalories.
Record t : Type := mk {
  calories : value;
  diff : value;
  date : option value
}.
End YesterdayCalories.

(** [v !== null] *)
Definition not_null (v : value) : bool :=
  match v with
  | VNull => false
  | _ => true
  end.

(** The filter is [d.calories_intake !== null]: it keeps an entry whose
    calories are undefined.  The difference is one of numbers: both sides
    go through ToNumber. *)
Definition getYesterdayCalories (data : list Log.t) (goals : Goals.t)
  : YesterdayCalories.t :=
  let logsWithCalories :=
    List.filter (fun d => not_null (Log.get d "calories_intake")) data in
  match last logsWithCalories with
  | None =>
      {| YesterdayCalories.calories := VNull; YesterdayCalories.diff := VNull;
         YesterdayCalories.date := None |}
  | Some latest =>
      let diff := Number (Log.get latest "calories_intake")
                  - of_undefined (Goals.calories goals) in
      {| YesterdayCalories.calories := Log.get latest "calories_intake";
         YesterdayCalories.diff := VNum diff;
         YesterdayCalories.date := Some (Log.get latest "date") |}
  end.

(** *** parseGoogleVizResponse *)

(** The callback on one cell, at index [idx] of its row. *)
Definition parseCell (idx : nat) (cell : option Gviz.cell) : value :=
  match cell with
  | None => VStr EmptyString
  | Some cell =>
      match Gviz.v cell with
      | VNull | VUndefined => VStr EmptyString
      | val =>
          if (idx =? 0)%nat then
            match Gviz.f cell with
            | Some (String a r) => VStr (String a r)
            | _ =>
                match val with
                | VStr s =>
                    if startsWith "Date(" s then
                      match match_Date s with
                      | Some (g1, g2, g3) =>
                          let year := g1 in
                          let month :=
                            padStart 2 "0" (string_of_N (N_of_digits g2 + 1)) in
                          let day := padStart 2 "0" g3 in
                          VStr (String.append year
                                  (String "/" (String.append month (String "/" day))))
                      | None => val
                      end
                    else val
                | _ => val
                end
            end
          else val
      end
  end.

(** [l.map((x, idx) => f(x, idx))] *)
Fixpoint mapi_from {A B : Type} (f : nat -> A -> B) (idx : nat) (l : list A)
  : list B :=
  match l with
  | [] => []
  | x :: r => f idx x :: mapi_from f (S idx) r
  end.

Definition parseGoogleVizResponse (data : Gviz.response) : list (list value) :=
  match Gviz.table_of data with
  | None => []
  | Some table =>
      match Gviz.rows table with
      | None => []
      | Some table_rows =>
          let cols :=
            map (fun col => VStr (match Gviz.label col with
                                  | Some (String a r) => String a r
                                  | _ => EmptyString
                                  end)) (Gviz.cols table) in
          let rows := map (fun row => mapi_from parseCell 0 (Gviz.c row)) table_rows in
          cols :: rows
      end
  end.

(** *** parseSettingsSheet *)

(** The key a value stands for when it indexes an object. *)
Definition ToPropertyKey (h : Host.t) (v : value) : string :=
  match v with
  | VStr s => s
  | VNum n => Host.ToString h n
  | VUndefined => "undefined"
  | VNull => "null"
  | VDate t => Host.DateToString h t
  end.

Definition insert_field (key : string) (x : option number)
    (o : gmap string setting) : gmap string setting :=
  match x with
  | Some n => <[key := SValue (VNum n)]> o
  | None => o
  end.

Definition insert_text (key : string) (x : option string)
    (o : gmap string setting) : gmap string setting :=
  match x with
  | Some t => <[key := SValue (VStr t)]> o
  | None => o
  end.

(** A settings record as the object it is in the code: one property for
    every field that is there. *)
Definition object_of (s : Settings.t) : gmap string setting :=
  insert_field "target_weight" (Settings.target_weight s)
  (insert_field "target_steps" (Settings.target_steps s)
  (insert_field "start_weight" (Settings.start_weight s)
  (insert_text "start_date" (Settings.start_date s)
  (insert_field "basal_metabolism" (Settings.basal_metabolism s)
  (insert_field "height" (Settings.height s)
  (insert_field "age" (Settings.age s)
  (insert_text "gender" (Settings.gender s)
  (match Settings.goals s with
   | Some g => {[ "goals" := SGoals g ]}
   | None => ∅
   end)))))))).

(** [isNaN(value) ? value : Number(value)] *)
Definition number_or_self (value : JS.value) : JS.value :=
  if isNaN (Number value) then value else VNum (Number value).

(** [value !== undefined] *)
Definition defined (v : value) : bool :=
  match v with
  | VUndefined => false
  | _ => true
  end.

(** The key whose assignment on a plain object goes to the accessor of
    [Object.prototype] and leaves no property behind. *)
Definition proto_key : string := "__proto__".

(** One turn of the loop of [parseSettingsSheet], on the row [[key, value]]. *)
Definition settings_step (h : Host.t) (settings : gmap string setting)
    (row : list value) : gmap string setting :=
  let key := cell row 0 in
  let value := cell row 1 in
  if ToBoolean key && defined value
  then if String.eqb (ToPropertyKey h key) proto_key then settings
       else <[ToPropertyKey h key := SValue (number_or_self value)]> settings
  else settings.

(** [{ ...defaults, ...settings }]: the properties of [settings], then those
    of the defaults it does not have. *)
Definition parseSettingsSheet (h : Host.t) (rows : list (list value))
  : gmap string setting :=
  if (length rows <? 2)%nat then object_of getDefaultSettings
  else fold_left (settings_step h) (tl rows) ∅ ∪ object_of getDefaultSettings.

(** *** parseDailyLogSheet and parseWeeklySheet *)

(** [Number(value) || null] *)
Definition number_or_null (value : JS.value) : JS.value :=
  if truthy_num (Number value) then VNum (Number value) else VNull.

(** [header === name] *)
Definition header_is (name : string) (header : value) : bool :=
  match header with
  | VStr s => String.eqb s name
  | _ => false
  end.

(** [entry[key] = stored] on the object literal [entry]: [plain] tells
    whether [entry] still has [Object.prototype] above it, whose accessor
    takes an assignment to [proto_key] (and, for null, takes the prototype
    away, after which the key is a property like any other). *)
Definition assign (key : string) (stored : value)
    (entry : gmap string value) (plain : bool) : gmap string value * bool :=
  if String.eqb key proto_key && plain then
    match stored with
    | VNull => (entry, false)
    | _ => (entry, plain)
    end
  else (<[key := stored]> entry, plain).

(** The callback of [headers.forEach] in both parsers; [text] tells the
    headers whose cells are kept as they are. *)
Definition named_cell (h : Host.t) (text : value -> bool) (row : list value)
    (st : gmap string value * bool * nat) (header : value)
  : gmap string value * bool * nat :=
  let '(entry, plain, index) := st in
  let value := cell row index in
  let stored :=
    match value with
    | VUndefined | VStr EmptyString =>
        if text header then VStr EmptyString else VNull
    | _ => if text header then value else number_or_null value
    end in
  (assign (ToPropertyKey h header) stored entry plain, S index).

(** The loop of both parsers over the data rows. *)
Fixpoint named_rows (h : Host.t) (text : value -> bool) (headers : list value)
    (rows : list (list value)) (data : list (gmap string value))
  : list (gmap string value) :=
  match rows with
  | [] => data
  | row :: rest =>
      if negb (ToBoolean (cell row 0)) then named_rows h text headers rest data
      else
        let entry := (fold_left (named_cell h text row) headers (∅, true, 0%nat)).1.1 in
        named_rows h text headers rest (push data entry)
  end.

Definition parseDailyLogSheet (h : Host.t) (rows : list (list value))
  : list (gmap string value) :=
  if (length rows <? 2)%nat then []
  else named_rows h (fun header => header_is "date" header || header_is "notes" header)
                  (nth 0 rows []) (tl rows) [].

Definition parseWeeklySheet (h : Host.t) (rows : list (list value))
  : list (gmap string value) :=
  if (length rows <? 2)%nat then []
  else named_rows h (header_is "date") (nth 0 rows []) (tl rows) [].

End DataManager.



(* ===================================================================== *)
(** ** The older copy of the row parser (js/data.js) *)
(* ===================================================================== *)

(** The copy of the data module under js/data.js has an earlier
    [parseInputSheet]: no branch for the full slash date, and the numeric
    cells converted by [row[k] ? Number(row[k]) : null]. *)
Module Legacy.

Import JS.

Definition normalizeDate (dateStr : value) : result value :=
  match dateStr with
  | VStr s =>
      if startsWith "Date(" s then
        match DataManager.match_Date s with
        | Some (g1, g2, g3) =>
            let year := g1 in
            let month := padStart 2 "0" (string_of_N (N_of_digits g2 + 1)) in
            let day := padStart 2 "0" g3 in
            Ok (VStr (DataManager.dashed year month day))
        | None => Ok dateStr
        end
      else if DataManager.match_partial_slash s then
        let parts := split_on "/" s in
        let month := padStart 2 "0" (DataManager.part 0 parts) in
        let day := padStart 2 "0" (DataManager.part 1 parts) in
        Ok (VStr (DataManager.dashed "2026" month day))
      else Ok dateStr
  | VDate (Some t) => Ok (VStr (hd EmptyString (split_on "T" (JSDate.toISOString t))))
  | VDate None => Throw RangeError
  | _ => Ok dateStr
  end.

(** [v ? Number(v) : null] *)
Definition number_or_null (v : value) : option number :=
  if ToBoolean v then Some (Number v) else None.

Definition parseRow (row : list value) : result (option Entry.t) :=
  if negb (ToBoolean (DataManager.cell row 0)) then Ok None else
  bind (normalizeDate (DataManager.cell row 0)) (fun dateStr =>
  Ok (Some {|
    Entry.date := dateStr;
    Entry.weight := number_or_null (DataManager.cell row 1);
    Entry.waist := number_or_null (DataManager.cell row 2);
    Entry.steps := number_or_null (DataManager.cell row 3);
    Entry.calories_intake := number_or_null (DataManager.cell row 4);
    Entry.protein := None;
    Entry.fat := None;
    Entry.carbs := None;
    Entry.notes := if ToBoolean (DataManager.cell row 5)
                   then DataManager.cell row 5 else VStr EmptyString
  |})).

Fixpoint parseRows (rows : list (list value)) (data : list Entry.t)
  : result (list Entry.t) :=
  match rows with
  | [] => Ok data
  | row :: rest =>
      bind (parseRow row) (fun r =>
      parseRows rest (match r with
                      | Some entry => data ++ [entry]
                      | None => data
                      end))
  end.

Definition parseInputSheet (rows : list (list value)) : result (list Entry.t) :=
  if (length rows <? 2)%nat then Ok [] else parseRows (tl rows) [].

End Legacy.

(* ===================================================================== *)
(** ** The application module: checkDataCompleteness *)
(* ===================================================================== *)

Module App.

Import JS.

Inductive warning_type : Type := no_data | missing_meals | missing_fields.

Module Warning.
Record t : Type := mk {
  date : string;
  dateStr : string;
  type : warning_type;
  message : string
}.
End Warning.

Definition label_weight : string := "体重".
Definition label_waist : string := "腹囲".
Definition label_calories : string := "カロリー".
Definition label_steps : string := "歩数".

Definition no_data_message : string := "スプレッドシートにデータがありません".
Definition missing_meals_message : string := "食事詳細（sample.json）が未登録".

Definition dquote : string := String (ascii_of_N 34) EmptyString.

(** The message of a missing-fields warning: the labels joined, inside a
    span of class warning-missing. *)
Definition missing_fields_message (missingFields : list string) : string :=
  String.append "<span class="
    (String.append dquote (String.append "warning-missing" (String.append dquote
      (String.append ">" (String.append (join "・" missingFields)
        "</span>が未入力"))))).

(** [l.date === dateStr] *)
Definition date_is (dateStr : string) (l : Entry.t) : bool :=
  match Entry.date l with
  | VStr s => String.eqb s dateStr
  | _ => false
  end.

(** [cond ? push : keep] on the list of missing labels. *)
Definition push_if (cond : bool) (l : list string) (x : string) : list string :=
  if cond then DataManager.push l x else l.

(** One turn of the loop, for the day [i] days before [today]. *)
Definition check_step (logs : list Entry.t) (meals : option MealsByDate)
    (today : JSDate.civil) (warnings : list Warning.t) (i : nat)
  : list Warning.t :=
  let checkDate := JSDate.subtract_days i today in
  let dateStr := JSDate.format_YYYY_MM_DD checkDate in
  let displayDate := JSDate.format_M_D_ddd checkDate in
  let log := find (date_is dateStr) logs in
  let hasMeals := match meals with
                  | Some m => bool_decide (is_Some (m !! dateStr))
                  | None => false
                  end in
  let missingFields := [] in
  match log with
  | None =>
      if (0 <? i)%nat
      then DataManager.push warnings
             (Warning.mk displayDate dateStr no_data no_data_message)
      else warnings
  | Some log =>
      let '(missingFields, warnings) :=
        if (i =? 0)%nat then
          let missingFields := push_if (negb (truthy (Entry.weight log))) missingFields label_weight in
          let missingFields := push_if (negb (truthy (Entry.waist log))) missingFields label_waist in
          (missingFields, warnings)
        else
          let missingFields := push_if (negb (truthy (Entry.weight log))) missingFields label_weight in
          let missingFields := push_if (negb (truthy (Entry.waist log))) missingFields label_waist in
          let missingFields := push_if (negb (truthy (Entry.calories_intake log))) missingFields label_calories in
          let missingFields := push_if (bool_decide (Entry.steps log = None)) missingFields label_steps in
          let warnings :=
            if truthy (Entry.calories_intake log) && negb hasMeals
            then DataManager.push warnings
                   (Warning.mk displayDate dateStr missing_meals missing_meals_message)
            else warnings in
          (missingFields, warnings) in
      if (0 <? length missingFields)%nat
      then DataManager.push warnings
             (Warning.mk displayDate dateStr missing_fields
                (missing_fields_message missingFields))
      else warnings
  end.

(** [checkDataCompleteness(logs, meals)], with the date [dayjs()] reads off
    the clock as [today]; the result is the list handed to
    [displayWarnings]. *)
Definition checkDataCompleteness (logs : list Entry.t)
    (meals : option MealsByDate) (today : JSDate.civil) : list Warning.t :=
  fold_left (check_step logs meals today) [0; 1; 2]%nat [].

(** *** generateInsights *)

Local Open Scope js_scope.

(** The status of a card of the daily insights. *)
Module Status.
Inductive t : Type := positive | negative | warning | neutral.
End Status.

Module Card.
Record t : Type := mk { status : Status.t; text : string }.
End Card.

Module Summary.
Record t : Type := mk { status : Status.t; icon : string; text : string }.
End Summary.

Module Insights.
Record t : Type := mk {
  summary : option Summary.t;
  calories : option Card.t;
  steps : option Card.t;
  pfc : option Card.t;
  weight : option Card.t;
  waist : option Card.t;
  improvements : list string;
  positives : list string
}.
End Insights.

(** The gram totals of a day that [updateDailyInsights] hands over as
    [yesterdayPfc]: three numbers. *)
Module Macros.
Record t : Type := mk { protein : number; fat : number; carbs : number }.
End Macros.

(** What one block of [generateInsights] adds: its card, and what it pushes
    on the improvements and on the positives. *)
Module Block.
Record t : Type := mk {
  card : option Card.t;
  improvements : list string;
  positives : list string
}.
End Block.

Definition no_card : Block.t := Block.mk None [] [].

Definition cat (l : list string) : string := String.concat EmptyString l.

(** [x === y] on two numbers. *)
Definition same_number (x y : number) : bool :=
  match x, y with
  | Fin a, Fin b => Qeq_bool a b
  | PInf, PInf | NInf, NInf => true
  | _, _ => false
  end.

(** [a !== b].  Two [Date] objects differ unless they are one object, which
    the values of the model do not tell: [None] then. *)
Definition strict_differ (a b : value) : option bool :=
  match a, b with
  | VDate _, VDate _ => None
  | VUndefined, VUndefined | VNull, VNull => Some false
  | VNum x, VNum y => Some (negb (same_number x y))
  | VStr s, VStr t => Some (negb (String.eqb s t))
  | _, _ => Some true
  end.

(** [l.field && l.date !== date]: the comparison is made only for an entry
    whose field is truthy. *)
Definition other_day_with (f : Entry.t -> option number) (date : value)
    (l : Entry.t) : option bool :=
  if truthy (f l) then strict_differ (Entry.date l) date else Some false.

(** [l.filter(p)] and [l.find(p)] for a callback that may leave the model. *)
Fixpoint filter_by {A : Type} (p : A -> option bool) (l : list A)
  : option (list A) :=
  match l with
  | [] => Some []
  | x :: r =>
      match p x, filter_by p r with
      | Some b, Some r' => Some (if b then x :: r' else r')
      | _, _ => None
      end
  end.

Fixpoint find_by {A : Type} (p : A -> option bool) (l : list A)
  : option (option A) :=
  match l with
  | [] => Some None
  | x :: r =>
      match p x with
      | Some true => Some (Some x)
      | Some false => find_by p r
      | None => None
      end
  end.

Definition improve_calories_over : string :=
  "今日は摂取カロリーを目標に近づける（間食や脂質を控える）".
Definition improve_calories_under : string :=
  "カロリーが不足気味。今日はしっかり食べましょう".
Definition positive_calories : string := "昨日のカロリー管理が適切でした".
Definition positive_steps : string := "昨日の歩数目標を達成しました".
Definition improve_steps_some : string :=
  "今日はもう少し歩いて活動量を増やしましょう".
Definition improve_steps_much : string :=
  "活動量が少なめ。今日は意識して歩きましょう".
Definition positive_pfc : string := "PFCバランスが良好でした".
Definition positive_weight : string := "体重が安定しています".
Definition improve_weight : string :=
  "体重が少し増加傾向。今日のカロリーと活動量を意識しましょう".
Definition positive_waist : string := "腹囲が減少しています".

(** The block on the calories of yesterday. *)
Definition calories_block (h : Host.t) (yesterdayLog : Entry.t) (goals : Goals.t)
  : Block.t :=
  match Entry.calories_intake yesterdayLog with
  | Some calories_intake =>
      if truthy_num calories_intake then
        let targetCalories := or_default (Goals.calories goals) (Fin 2700) in
        let diff := calories_intake - targetCalories in
        if diff >? Fin 200 then
          Block.mk
            (Some (Card.mk Status.negative
                     (cat [Host.toLocaleString h calories_intake; " kcal（目標+";
                           Host.ToString h diff; " kcal）"])))
            [improve_calories_over] []
        else if diff >? Fin 0 then
          Block.mk
            (Some (Card.mk Status.warning
                     (cat [Host.toLocaleString h calories_intake; " kcal（目標+";
                           Host.ToString h diff; " kcal）"])))
            [] []
        else if diff >=? Fin (-200) then
          Block.mk
            (Some (Card.mk Status.positive
                     (cat [Host.toLocaleString h calories_intake;
                           " kcal（目標達成）"])))
            [] [positive_calories]
        else
          Block.mk
            (Some (Card.mk Status.warning
                     (cat [Host.toLocaleString h calories_intake; " kcal（目標";
                           Host.ToString h diff; " kcal）"])))
            [improve_calories_under] []
      else no_card
  | None => no_card
  end.

(** The block on the steps of yesterday. *)
Definition steps_block (h : Host.t) (yesterdayLog : Entry.t) (settings : Settings.t)
  : Block.t :=
  let targetSteps := or_default (Settings.target_steps settings) (Fin 10000) in
  match Entry.steps yesterdayLog with
  | Some steps =>
      let stepsRatio := Math_round ((steps / targetSteps) * Fin 100) in
      if steps >=? targetSteps then
        Block.mk
          (Some (Card.mk Status.positive
                   (cat [Host.toLocaleString h steps; " 歩（目標達成 ";
                         Host.ToString h stepsRatio; "%）"])))
          [] [positive_steps]
      else if stepsRatio >=? Fin 70 then
        Block.mk
          (Some (Card.mk Status.warning
                   (cat [Host.toLocaleString h steps; " 歩（目標の";
                         Host.ToString h stepsRatio; "%）"])))
          [improve_steps_some] []
      else
        Block.mk
          (Some (Card.mk Status.negative
                   (cat [Host.toLocaleString h steps; " 歩（目標の";
                         Host.ToString h stepsRatio; "%）"])))
          [improve_steps_much] []
  | None => no_card
  end.

(** The block on the macros of yesterday. *)
Definition pfc_block (h : Host.t) (goals : Goals.t) (yesterdayPfc : option Macros.t)
  : Block.t :=
  match yesterdayPfc with
  | None => no_card
  | Some yesterdayPfc =>
      let pDiff := Macros.protein yesterdayPfc
                   - or_default (Goals.protein goals) (Fin 200) in
      let fDiff := Macros.fat yesterdayPfc - or_default (Goals.fat goals) (Fin 60) in
      let cDiff := Macros.carbs yesterdayPfc
                   - or_default (Goals.carbs goals) (Fin 340) in
      let issues := [] in
      let issues := if pDiff <? Fin (-20)
                    then DataManager.push issues DataManager.P_deficit else issues in
      let issues := if fDiff >? Fin 20
                    then DataManager.push issues DataManager.F_excess else issues in
      let issues := if cDiff >? Fin 50
                    then DataManager.push issues DataManager.C_excess else issues in
      let proteinCal := Macros.protein yesterdayPfc * Fin 4 in
      let fatCal := Macros.fat yesterdayPfc * Fin 9 in
      let carbsCal := Macros.carbs yesterdayPfc * Fin 4 in
      let totalCal := proteinCal + fatCal + carbsCal in
      let pRatio := Math_round ((proteinCal / totalCal) * Fin 100) in
      let fRatio := Math_round ((fatCal / totalCal) * Fin 100) in
      let cRatio := Math_round ((carbsCal / totalCal) * Fin 100) in
      let ratios := cat ["P"; Host.ToString h pRatio; "% F"; Host.ToString h fRatio;
                         "% C"; Host.ToString h cRatio; "%"] in
      if (length issues =? 0)%nat && (pDiff >=? Fin (-10)) && (fDiff <=? Fin 10) then
        Block.mk (Some (Card.mk Status.positive (cat [ratios; "（良好）"])))
                 [] [positive_pfc]
      else if (0 <? length issues)%nat then
        let improvements := [] in
        let improvements :=
          if pDiff <? Fin (-20)
          then DataManager.push improvements
                 (cat ["タンパク質を"; Host.ToString h (Math_abs (Math_round pDiff));
                       "g増やす（プロテインや鶏肉）"])
          else improvements in
        let improvements :=
          if fDiff >? Fin 20
          then DataManager.push improvements
                 (cat ["脂質を"; Host.ToString h (Math_round fDiff);
                       "g減らす（揚げ物を控える）"])
          else improvements in
        Block.mk
          (Some (Card.mk Status.warning
                   (cat [ratios; "（"; join "・" issues; "）"])))
          improvements []
      else
        Block.mk (Some (Card.mk Status.neutral ratios)) [] []
  end.

(** The block on the weight, of today when there is an entry for today and
    of yesterday otherwise, against the mean of up to 7 other entries. *)
Definition weight_block (h : Host.t) (yesterdayLog : Entry.t)
    (todayLog : option Entry.t) (allLogs : list Entry.t) : option Block.t :=
  let weightLog := default yesterdayLog todayLog in
  match Entry.weight weightLog with
  | Some weight =>
      if truthy_num weight then
        match filter_by (other_day_with Entry.weight (Entry.date weightLog)) allLogs with
        | None => None
        | Some others =>
            let last7 := DataManager.slice 0 7 others in
            let label := match todayLog with
                         | Some _ => "今朝"
                         | None => "直近"
                         end in
            if (0 <? length last7)%nat then
              let avg := DataManager.sum_field DataManager.weight last7
                         / of_nat (length last7) in
              let diff := weight - avg in
              if Math_abs diff <? lit 0.3 then
                Some (Block.mk
                        (Some (Card.mk Status.positive
                                 (cat [label; " "; Host.ToString h weight;
                                       " kg（週平均と同等）"])))
                        [] [positive_weight])
              else if diff >? Fin 0.5 then
                Some (Block.mk
                        (Some (Card.mk Status.warning
                                 (cat [label; " "; Host.ToString h weight;
                                       " kg（週平均+"; toFixed 1 diff; " kg）"])))
                        [improve_weight] [])
              else if diff >? Fin 0 then
                Some (Block.mk
                        (Some (Card.mk Status.neutral
                                 (cat [label; " "; Host.ToString h weight;
                                       " kg（週平均+"; toFixed 1 diff; " kg）"])))
                        [] [])
              else
                Some (Block.mk
                        (Some (Card.mk Status.positive
                                 (cat [label; " "; Host.ToString h weight;
                                       " kg（週平均"; toFixed 1 diff; " kg）"])))
                        [] [])
            else
              Some (Block.mk
                      (Some (Card.mk Status.neutral
                               (cat [label; " "; Host.ToString h weight; " kg"])))
                      [] [])
        end
      else Some no_card
  | None => Some no_card
  end.

(** The block on the waist of today, against the first other entry with a
    waist. *)
Definition waist_block (h : Host.t) (todayLog : option Entry.t)
    (allLogs : list Entry.t) : option Block.t :=
  match todayLog with
  | None => Some no_card
  | Some todayLog =>
      match Entry.waist todayLog with
      | Some waist =>
          if truthy_num waist then
            match find_by (other_day_with Entry.waist (Entry.date todayLog)) allLogs with
            | None => None
            | Some (Some lastWaist) =>
                let diff := waist - DataManager.num_of (Entry.waist lastWaist) in
                if Math_abs diff <? Fin 0.5 then
                  Some (Block.mk
                          (Some (Card.mk Status.neutral
                                   (cat ["今朝 "; Host.ToString h waist; " cm（維持）"])))
                          [] [])
                else if diff <? Fin 0 then
                  Some (Block.mk
                          (Some (Card.mk Status.positive
                                   (cat ["今朝 "; Host.ToString h waist; " cm（";
                                         toFixed 1 diff; " cm）"])))
                          [] [positive_waist])
                else
                  Some (Block.mk
                          (Some (Card.mk Status.warning
                                   (cat ["今朝 "; Host.ToString h waist; " cm（+";
                                         toFixed 1 diff; " cm）"])))
                          [] [])
            | Some None =>
                Some (Block.mk
                        (Some (Card.mk Status.neutral
                                 (cat ["今朝 "; Host.ToString h waist; " cm"])))
                        [] [])
            end
          else Some no_card
      | None => Some no_card
      end
  end.

(** The overall card, from the two lists as the blocks left them. *)
Definition summary_of (positives improvements : list string) : Summary.t :=
  let hasPositives := (0 <? length positives)%nat in
  let hasImprovements := (0 <? length improvements)%nat in
  if hasPositives && negb hasImprovements then
    Summary.mk Status.positive "🎉" "昨日は素晴らしい一日でした！今日もこの調子で"
  else if hasPositives && hasImprovements then
    Summary.mk Status.neutral "💪" "良い点を維持しつつ、改善点も意識しましょう"
  else if hasImprovements then
    Summary.mk Status.warning "📝" "昨日の反省を今日に活かしましょう"
  else
    Summary.mk Status.neutral "📊" "データを入力すると考察が表示されます".

(** [generateInsights(yesterdayLog, todayLog, allLogs, goals, settings,
    yesterdayPfc)], the blocks in the order of the code; [None] when a
    comparison of two [Date] objects leaves the model. *)
Definition generateInsights (h : Host.t) (yesterdayLog : Entry.t)
    (todayLog : option Entry.t) (allLogs : list Entry.t) (goals : Goals.t)
    (settings : Settings.t) (yesterdayPfc : option Macros.t)
  : option Insights.t :=
  let calories := calories_block h yesterdayLog goals in
  let steps := steps_block h yesterdayLog settings in
  let pfc := pfc_block h goals yesterdayPfc in
  match weight_block h yesterdayLog todayLog allLogs,
        waist_block h todayLog allLogs with
  | Some weight, Some waist =>
      let improvements :=
        Block.improvements calories ++ Block.improvements steps
        ++ Block.improvements pfc ++ Block.improvements weight
        ++ Block.improvements waist in
      let positives :=
        Block.positives calories ++ Block.positives steps
        ++ Block.positives pfc ++ Block.positives weight
        ++ Block.positives waist in
      Some {| Insights.summary := Some (summary_of positives improvements);
              Insights.calories := Block.card calories;
              Insights.steps := Block.card steps;
              Insights.pfc := Block.card pfc;
              Insights.weight := Block.card weight;
              Insights.waist := Block.card waist;
              Insights.improvements := improvements;
              Insights.positives := positives |}
  | _, _ => None
  end.

End App.


(* ===================================================================== *)
(** ** Notions of the specification *)
(* ===================================================================== *)

Module Spec.

Import JS.
Local Open Scope js_scope.

(** A string without a single decimal digit: surely not a numeric string. *)
Definition no_digit (s : string) : bool :=
  negb (existsb is_digit (String.list_ascii_of_string s)).

(** The trailing up-to-[window] elements ending at index [i]: those at the
    indices [i - window + 1], ..., [i] that exist. *)
Definition trailing {A : Type} (window i : nat) (l : list A) : list A :=
  flat_map (fun j => option_list (l !! j))
           (seq (i + 1 - window) (Nat.min window (i + 1))).

(** The values of field [f] that are present and above 0. *)
Definition survivors (f : DataManager.field) (l : list Entry.t) : list number :=
  flat_map (fun d => match DataManager.get f d with
                     | Some x => if x >? Fin 0 then [x] else []
                     | None => []
                     end) l.

(** The values of field [f] that are present. *)
Definition values (f : DataManager.field) (l : list Entry.t) : list number :=
  omap (DataManager.get f) l.

Definition sum (l : list number) : number := fold_left add l (Fin 0).

Definition mean (l : list number) : number := sum l / of_nat (length l).

(** Rounded to 2 decimals. *)
Definition round2 (x : number) : number := Math_round (x * Fin 100) / Fin 100.

(** Rounded to 1 decimal. *)
Definition round1 (x : number) : number := Math_round (x * Fin 10) / Fin 10.

(** The moving average at index [i]: the rounded mean of the survivors of
    the trailing window, Absent when there is none. *)
Definition movingAverage_at (data : list Entry.t) (f : DataManager.field)
    (window i : nat) : option number :=
  match survivors f (trailing window i data) with
  | [] => None
  | vals => Some (round2 (mean vals))
  end.

(** The items of the four meal slots of the day of [day], when the meal
    file has that date. *)
Definition day_items (meals : MealsByDate) (day : Entry.t) : list Item.t :=
  match DataManager.meals_of meals (Entry.date day) with
  | Some dayMeals =>
      flat_map (fun type => default [] (dayMeals !! type)) DataManager.mealTypes
  | None => []
  end.

(** The 7-entry window: of [n] entries, those at the indices [n - 7], ...,
    [n - 1] that exist. *)
Definition last_week (data : list Entry.t) : list Entry.t :=
  trailing 7 (length data - 1) data.

(** The items of the 7-entry window. *)
Definition window_items (meals : MealsByDate) (data : list Entry.t) : list Item.t :=
  flat_map (day_items meals) (last_week data).

(** The grams of one macro ([g] picks it) of [items], added to [acc]; an
    item without the macro counts for 0. *)
Definition add_grams (g : Item.t -> option number) (acc : number)
    (items : list Item.t) : number :=
  fold_left (fun a item => a + or_default (g item) (Fin 0)) items acc.

Definition grams (g : Item.t -> option number) (items : list Item.t) : number :=
  add_grams g (Fin 0) items.

(** A multiple of 2^-1074, as every finite value of binary64 is. *)
Definition on_grid (q : Q) : Prop :=
  exists k : Z, (q == inject_Z k * pow2 (-1074))%Q.

(** A number that is not negative: a finite value of binary64, or infinity. *)
Definition amount (x : number) : Prop :=
  match x with
  | PInf => True
  | Fin q => (0 <= q)%Q /\ on_grid q
  | _ => False
  end.

(** Two finite numbers in their order, both of magnitude at most [2^k]. *)
Definition within (k : Z) (x y : number) : Prop :=
  exists a b : Q,
    x = Fin a /\ y = Fin b /\ (a <= b)%Q
    /\ (- pow2 k <= a)%Q /\ (b <= pow2 k)%Q.

(** A magnitude of at most 2^1000: far from the overflow of binary64. *)
Definition moderate (q : Q) : Prop := (- pow2 1000 <= q /\ q <= pow2 1000)%Q.

(** A setting that is absent, or a number of moderate magnitude. *)
Definition moderate_setting (x : option number) : Prop :=
  match x with
  | None => True
  | Some (Fin q) => moderate q
  | Some _ => False
  end.

(** A gram count of the meal file: absent, or finite and not negative. *)
Definition nonneg (x : option number) : Prop :=
  match x with
  | None => True
  | Some (Fin q) => (0 <= q)%Q
  | Some _ => False
  end.

Definition item_nonneg (item : Item.t) : Prop :=
  nonneg (Item.protein item) /\ nonneg (Item.fat item) /\ nonneg (Item.carbs item).

(** The civil date [y]-[m]-[d] is strictly before 20 January 2026. *)
Definition before_change (y m d : Z) : bool :=
  ((y <? 2026) || ((y =? 2026) && ((m <? 1) || ((m =? 1) && (d <? 20)))))%Z.

(** The burn estimate: the basal rate of the fixed linear formula, times
    the activity factor 1.2, plus the calories of the steps, rounded. *)
Definition burn (weight height age stepsCalories : number) : number :=
  Math_round ((lit 88.362 + lit 13.397 * weight + lit 4.799 * height
               - lit 5.677 * age) * lit 1.2 + stepsCalories).

(** The settings [s] with the gender field replaced. *)
Definition with_gender (g : option string) (s : Settings.t) : Settings.t :=
  {| Settings.target_weight := Settings.target_weight s;
     Settings.target_steps := Settings.target_steps s;
     Settings.start_weight := Settings.start_weight s;
     Settings.start_date := Settings.start_date s;
     Settings.basal_metabolism := Settings.basal_metabolism s;
     Settings.height := Settings.height s;
     Settings.age := Settings.age s;
     Settings.gender := g;
     Settings.goals := Settings.goals s |}.

(** The settings [s] with the goals replaced. *)
Definition with_goals (g : Goals.t) (s : Settings.t) : Settings.t :=
  {| Settings.target_weight := Settings.target_weight s;
     Settings.target_steps := Settings.target_steps s;
     Settings.start_weight := Settings.start_weight s;
     Settings.start_date := Settings.start_date s;
     Settings.basal_metabolism := Settings.basal_metabolism s;
     Settings.height := Settings.height s;
     Settings.age := Settings.age s;
     Settings.gender := Settings.gender s;
     Settings.goals := Some g |}.

(** The default goals with a calorie goal of 0. *)
Definition zero_calorie_goals : Goals.t :=
  {| Goals.calories := Some (Fin 0);
     Goals.calories_before_0120 := Some (Fin 2600);
     Goals.protein := Some (Fin 195);
     Goals.fat := Some (Fin 58);
     Goals.carbs := Some (Fin 325);
     Goals.pfc_ratio := Some "3:2:5" |}.

(** The verdict on three gram counts against three goals: the three flags
    from the signed differences, "ideal" without a flag when protein is
    within 20 and fat within 15 of the goal, "warning" with the labels of the
    raised flags in the order protein, fat, carbs, and Absent in between. *)
Definition verdict (p f c gp gf gc : number) : option DataManager.Verdict.t :=
  let proteinDeficit := p - gp <? Fin (-20) in
  let fatExcess := f - gf >? Fin 20 in
  let carbsExcess := c - gc >? Fin 50 in
  let labels := (if proteinDeficit then [DataManager.P_deficit] else [])
                ++ (if fatExcess then [DataManager.F_excess] else [])
                ++ (if carbsExcess then [DataManager.C_excess] else []) in
  if negb (proteinDeficit || fatExcess || carbsExcess)
     && (Math_abs (p - gp) <=? Fin 20) && (Math_abs (f - gf) <=? Fin 15)
  then Some (DataManager.Verdict.mk DataManager.good "理想的")
  else if proteinDeficit || fatExcess || carbsExcess
  then Some (DataManager.Verdict.mk DataManager.warning (join "・" labels))
  else None.

(** A gram count that is present and zero. *)
Definition present_zero (x : option number) : Prop :=
  exists q : Q, x = Some (Fin q) /\ (q == 0)%Q.

(** The characters of a canonical date: digits, and the dash (the plus too,
    for the six-digit years of [toISOString]). *)
Definition date_char (c : ascii) : bool :=
  is_digit c || is_one_of ["-"; "+"]%char c.

Definition date_chars (s : string) : bool :=
  forallb date_char (String.list_ascii_of_string s).

(** The numbers between the dashes of a string. *)
Definition read_dashed (s : string) : list N :=
  map N_of_digits (split_on "-" s).

(** The civil date [a] is before the civil date [b]. *)
Definition earlier (a b : JSDate.civil) : Prop :=
  (JSDate.year a < JSDate.year b
   \/ (JSDate.year a = JSDate.year b
       /\ (JSDate.month a < JSDate.month b
           \/ (JSDate.month a = JSDate.month b /\ JSDate.day a < JSDate.day b))))%Z.

(** The value the loop of [calculateMovingAverage] pushes at index [i]. *)
Definition pushed_at (data : list Entry.t) (f : DataManager.field) (days i : nat)
  : option number :=
  let validValues :=
    map (DataManager.get f)
        (List.filter (fun d => DataManager.present_positive (DataManager.get f d))
                     (DataManager.slice (Nat.max 0 (i + 1 - days)) (i + 1) data)) in
  if (0 <? length validValues)%nat then
    Some (Math_round
            (fold_left (fun a b => a + DataManager.num_of b) validValues (Fin 0)
             / of_nat (length validValues) * Fin 100) / Fin 100)
  else None.

(** The totals [t] with the grams of [items] added, and [days] days with
    data. *)
Definition totals_plus (t : DataManager.totals) (items : list Item.t) (days : nat)
  : DataManager.totals :=
  DataManager.mkTotals
    (add_grams Item.protein (DataManager.totalProtein t) items)
    (add_grams Item.fat (DataManager.totalFat t) items)
    (add_grams Item.carbs (DataManager.totalCarbs t) items)
    days.

(** What holds of every entry of the row parser: a date that is there, no
    NaN in a numeric field, no macro, and notes that are a text. *)
Definition entry_ok (entry : Entry.t) : Prop :=
  ToBoolean (Entry.date entry) = true
  /\ Entry.weight entry <> Some NaN /\ Entry.waist entry <> Some NaN
  /\ Entry.steps entry <> Some NaN /\ Entry.calories_intake entry <> Some NaN
  /\ Entry.protein entry = None /\ Entry.fat entry = None
  /\ Entry.carbs entry = None
  /\ (Entry.notes entry = VStr EmptyString \/ ToBoolean (Entry.notes entry) = true).

(** An entry without a waist above 0, without steps. *)
Definition no_waist (d : Entry.t) : Prop :=
  DataManager.present_positive (Entry.waist d) = false.

Definition no_steps (d : Entry.t) : Prop := Entry.steps d = None.

(** An entry, as an object, whose calories are null. *)
Definition null_calories (d : DataManager.Log.t) : Prop :=
  DataManager.Log.get d "calories_intake" = VNull.

(** A cell as [JSON.parse] gives it: its value is no [Date] object. *)
Definition json_cell (cell : option Gviz.cell) : Prop :=
  match cell with
  | Some cell => match Gviz.v cell with VDate _ => False | _ => True end
  | None => True
  end.

(** The rows of cells of a response, none when the table or its rows are
    missing. *)
Definition table_rows (data : Gviz.response) : list Gviz.row :=
  match Gviz.table_of data with
  | Some table => default [] (Gviz.rows table)
  | None => []
  end.

Definition json_response (data : Gviz.response) : Prop :=
  Forall (fun row => Forall json_cell (Gviz.c row)) (table_rows data).

(** A cell without a formatted text (none, or an empty one). *)
Definition unformatted (cell : Gviz.cell) : Prop :=
  match Gviz.f cell with
  | Some (String _ _) => False
  | _ => True
  end.

(** A value that is there: neither null nor undefined. *)
Definition filled (v : value) : Prop := v <> VNull /\ v <> VUndefined.

Definition slashed (y m d : string) : string :=
  String.append y (String "/" (String.append m (String "/" d))).

(** The row [row] of the settings sheet writes the property [k]. *)
Definition writes (h : Host.t) (k : string) (row : list value) : bool :=
  ToBoolean (DataManager.cell row 0) && DataManager.defined (DataManager.cell row 1)
  && String.eqb (DataManager.ToPropertyKey h (DataManager.cell row 0)) k.

(** Null, or a number that is neither 0 nor NaN. *)
Definition null_or_nonzero (v : value) : Prop :=
  v = VNull \/ exists n, v = VNum n /\ truthy_num n = true.

(** The cells the two copies of the row parser read differently: the number
    0, and a truthy cell that is no number. *)
Definition read_differently (v : value) : Prop :=
  (exists q, v = VNum (Fin q) /\ (q == 0)%Q)
  \/ (ToBoolean v = true /\ Number v = NaN).

(** The first cells the two copies read differently: a date with slashes and
    a year of four digits. *)
Definition dated_differently (v : value) : Prop :=
  exists s, v = VStr s /\ startsWith "Date(" s = false
            /\ DataManager.match_full_slash s = true.

(** The four fields the completeness check looks at, and their labels. *)
Inductive checked : Type := Weight | Waist | Calories | Steps.

Definition label_of (f : checked) : string :=
  match f with
  | Weight => "体重"
  | Waist => "腹囲"
  | Calories => "カロリー"
  | Steps => "歩数"
  end.

(** The fields that are flagged for the log entry [log] of the day [i] days
    before the reference date: a missing weight and a missing waist on every
    day, missing calories and missing steps on the days before the reference
    date only. *)
Definition missing_of (i : nat) (log : Entry.t) : list checked :=
  (if truthy (Entry.weight log) then [] else [Weight])
  ++ (if truthy (Entry.waist log) then [] else [Waist])
  ++ match i with
     | O => []
     | S _ => (if truthy (Entry.calories_intake log) then [] else [Calories])
              ++ match Entry.steps log with
                 | None => [Steps]
                 | Some _ => []
                 end
     end.

(** The text of a missing-fields warning: the labels of the fields, with a
    dot between two of them, in a span of class warning-missing, then the
    words for "not entered". *)
Definition missing_text (fields : list checked) : string :=
  String.append "<span class="
    (String (ascii_of_N 34)
       (String.append "warning-missing"
          (String (ascii_of_N 34)
             (String.append ">"
                (String.append (join "・" (map label_of fields))
                               "</span>が未入力"))))).

(** The log entry of the day [i] days before [today], as the completeness
    check finds it, and whether the meal file has that day. *)
Definition log_of (logs : list Entry.t) (today : JSDate.civil) (i : nat)
  : option Entry.t :=
  find (App.date_is (JSDate.format_YYYY_MM_DD (JSDate.subtract_days i today))) logs.

Definition has_meals (meals : option MealsByDate) (today : JSDate.civil) (i : nat)
  : Prop :=
  exists m, meals = Some m
            /\ is_Some (m !! JSDate.format_YYYY_MM_DD (JSDate.subtract_days i today)).

(** What the check wants of the reference date: no entry yet, or weight and
    waist; and of a day before: an entry with weight, waist, calories (none
    of them 0) and steps. *)
Definition morning_done (log : option Entry.t) : Prop :=
  match log with
  | None => True
  | Some l => truthy (Entry.weight l) = true /\ truthy (Entry.waist l) = true
  end.

Definition day_done (log : option Entry.t) : Prop :=
  match log with
  | None => False
  | Some l => truthy (Entry.weight l) = true /\ truthy (Entry.waist l) = true
              /\ truthy (Entry.calories_intake l) = true /\ Entry.steps l <> None
  end.

(** A row the two copies of the row parser read alike. *)
Definition read_alike (row : list value) : Prop :=
  ~ dated_differently (DataManager.cell row 0)
  /\ ~ read_differently (DataManager.cell row 1)
  /\ ~ read_differently (DataManager.cell row 2)
  /\ ~ read_differently (DataManager.cell row 3)
  /\ ~ read_differently (DataManager.cell row 4).

(** The five cards of the insights, those that are there. *)
Definition cards (ins : App.Insights.t) : list App.Card.t :=
  omap id [App.Insights.calories ins; App.Insights.steps ins; App.Insights.pfc ins;
           App.Insights.weight ins; App.Insights.waist ins].

(** A block that pushes at most [n] improvements and one positive, and an
    improvement whenever its card is negative. *)
Definition block_within (n : nat) (b : App.Block.t) : Prop :=
  (forall card, App.Block.card b = Some card ->
     App.Card.status card = App.Status.negative -> App.Block.improvements b <> [])
  /\ (length (App.Block.improvements b) <= n)%nat
  /\ (length (App.Block.positives b) <= 1)%nat.

(** The share of [cal] in [total] as a rounded percentage. *)
Definition percent (cal total : number) : number :=
  Math_round (cal / total * Fin 100).

End Spec.

(* ===================================================================== *)
(** ** Properties *)
(* ===================================================================== *)

Import JS.

(** *** Rounding to binary64 *)

Section Rounding.

Local Open Scope Q_scope.

Lemma pow2_pos (e : Z) : 0 < pow2 e.
Proof. apply Qpower_0_lt. reflexivity. Qed.

Lemma pow2_add (a b : Z) : pow2 (a + b) == pow2 a * pow2 b.
Proof. apply Qpower_plus. discriminate. Qed.

Lemma pow2_le (a b : Z) : (a <= b)%Z -> pow2 a <= pow2 b.
Proof. intros H. apply Qpower_le_compat_l; [exact H|discriminate]. Qed.

Lemma pow2_lt (a b : Z) : (a < b)%Z -> pow2 a < pow2 b.
Proof. intros H. apply Qpower_lt_compat_l; [exact H|reflexivity]. Qed.

Lemma pow2_lt_inv (a b : Z) : pow2 a < pow2 b -> (a < b)%Z.
Proof. intros H. eapply Qpower_lt_compat_l_inv; [exact H|reflexivity]. Qed.

Lemma pow2_succ (e : Z) : pow2 (e + 1) == 2 * pow2 e.
Proof. rewrite pow2_add. change (pow2 1) with 2. ring. Qed.

Lemma pow2_Z (k : Z) : (0 <= k)%Z -> pow2 k == inject_Z (2 ^ k).
Proof. intros H. unfold pow2. rewrite Zpower_Qpower by exact H. reflexivity. Qed.

(** The binade of a positive rational. *)
Lemma ilog2_spec (q : Q) :
  0 < q -> pow2 (ilog2 q) <= q /\ q < pow2 (ilog2 q + 1).
Proof.
  intros Hq. destruct q as [n d]. unfold ilog2. cbn [Qnum Qden]. cbv zeta.
  assert (Hn : (0 < n)%Z).
  { unfold Qlt in Hq. cbn in Hq. lia. }
  set (ln := Z.log2 n). set (ld := Z.log2 (Z.pos d)).
  assert (Hln : (0 <= ln)%Z) by apply Z.log2_nonneg.
  assert (Hld : (0 <= ld)%Z) by apply Z.log2_nonneg.
  destruct (Z.log2_spec n Hn) as [Hn1 Hn2]. fold ln in Hn1, Hn2.
  destruct (Z.log2_spec (Z.pos d) eq_refl) as [Hd1 Hd2]. fold ld in Hd1, Hd2.
  assert (En : n # d == inject_Z n / inject_Z (Z.pos d)) by apply Qmake_Qdiv.
  assert (HA1 : pow2 ln <= inject_Z n).
  { rewrite pow2_Z by exact Hln. rewrite <- Zle_Qle. exact Hn1. }
  assert (HA2 : inject_Z n < 2 * pow2 ln).
  { rewrite <- pow2_succ, pow2_Z by lia. rewrite <- Zlt_Qlt.
    replace (ln + 1)%Z with (Z.succ ln) by lia. exact Hn2. }
  assert (HB1 : pow2 ld <= inject_Z (Z.pos d)).
  { rewrite pow2_Z by exact Hld. rewrite <- Zle_Qle. exact Hd1. }
  assert (HB2 : inject_Z (Z.pos d) < 2 * pow2 ld).
  { rewrite <- pow2_succ, pow2_Z by lia. rewrite <- Zlt_Qlt.
    replace (ld + 1)%Z with (Z.succ ld) by lia. exact Hd2. }
  pose proof (pow2_pos ln) as PA. pose proof (pow2_pos ld) as PB.
  assert (E0 : pow2 (ln - ld) * pow2 ld == pow2 ln).
  { rewrite <- pow2_add. replace (ln - ld + ld)%Z with ln by lia. reflexivity. }
  pose proof (pow2_pos (ln - ld)) as P0.
  set (N := inject_Z n) in *. set (D := inject_Z (Z.pos d)) in *.
  assert (HD : 0 < D) by lra.
  assert (Eq : (n # d) * D == N).
  { rewrite En. field. lra. }
  set (q := n # d) in *.
  set (A := pow2 ln) in *. set (B := pow2 ld) in *. set (P := pow2 (ln - ld)) in *.
  (* P * B = A, A <= N < 2A, B <= D < 2B, q * D = N *)
  assert (Hlo : P * (1 # 2) < q).
  { apply Qnot_le_lt. intros Hc.
    assert (H1 : q * D <= P * (1 # 2) * D) by (apply Qmult_le_compat_r; lra).
    assert (H2 : P * (1 # 2) * D < P * (1 # 2) * (2 * B)).
    { apply Qmult_lt_l; lra. }
    assert (H3 : P * (1 # 2) * (2 * B) == P * B) by ring.
    lra. }
  assert (Hhi : q < 2 * P).
  { apply Qnot_le_lt. intros Hc.
    assert (H1 : 2 * P * D <= q * D) by (apply Qmult_le_compat_r; lra).
    assert (H2 : 2 * P * B <= 2 * P * D).
    { apply Qmult_le_l; lra. }
    assert (H3 : 2 * P * B == 2 * (P * B)) by ring.
    lra. }
  destruct (Qleb P q) eqn:E.
  - split.
    + fold P. unfold Qleb in E. destruct (Qcompare_spec P q); [lra|lra|discriminate].
    + fold P. rewrite pow2_succ. fold P. exact Hhi.
  - assert (HP : q < P).
    { unfold Qleb in E. destruct (Qcompare_spec P q); [discriminate|discriminate|lra]. }
    replace (ln - ld - 1 + 1)%Z with (ln - ld)%Z by lia. fold P.
    split; [|exact HP].
    assert (E1 : pow2 (ln - ld - 1) * 2 == P).
    { unfold P. replace (ln - ld)%Z with (ln - ld - 1 + 1)%Z at 2 by lia.
      rewrite pow2_succ. ring. }
    lra.
Qed.

Lemma ilog2_le (q : Q) (k : Z) : 0 < q -> q < pow2 (k + 1) -> (ilog2 q <= k)%Z.
Proof.
  intros Hq H. destruct (ilog2_spec q Hq) as [H1 _].
  assert (Hlt : pow2 (ilog2 q) < pow2 (k + 1)) by lra.
  apply pow2_lt_inv in Hlt. lia.
Qed.

Lemma ilog2_ge (q : Q) (k : Z) : pow2 k <= q -> (k <= ilog2 q)%Z.
Proof.
  intros H. pose proof (pow2_pos k).
  destruct (ilog2_spec q ltac:(lra)) as [_ H2].
  assert (Hlt : pow2 k < pow2 (ilog2 q + 1)) by lra.
  apply pow2_lt_inv in Hlt. lia.
Qed.

Lemma ilog2_mono (a b : Q) : 0 < a -> a <= b -> (ilog2 a <= ilog2 b)%Z.
Proof.
  intros Ha Hab. apply ilog2_ge. destruct (ilog2_spec a Ha). lra.
Qed.

(** The nearest integer. *)
Lemma round_half_even_near (q : Q) :
  q - (1 # 2) <= inject_Z (round_half_even q) <= q + (1 # 2).
Proof.
  unfold round_half_even.
  pose proof (Qfloor_le q) as Hle. pose proof (Qlt_floor q) as Hlt.
  rewrite inject_Z_plus in Hlt. change (inject_Z 1) with 1 in Hlt.
  destruct (Qcompare_spec (q - inject_Z (Qfloor q)) (1 # 2)) as [E|E|E].
  - destruct (Z.even (Qfloor q)).
    + lra.
    + rewrite inject_Z_plus. change (inject_Z 1) with 1. lra.
  - lra.
  - rewrite inject_Z_plus. change (inject_Z 1) with 1. lra.
Qed.

Lemma round_half_even_comp (q q' : Q) : q == q' -> round_half_even q = round_half_even q'.
Proof.
  intros E. unfold round_half_even.
  rewrite (Qfloor_comp _ _ E).
  assert (E' : q - inject_Z (Qfloor q') == q' - inject_Z (Qfloor q')) by (rewrite E; reflexivity).
  rewrite (Qcompare_comp _ _ E' (1 # 2) (1 # 2) (Qeq_refl _)). reflexivity.
Qed.

Lemma round_half_even_Z (k : Z) (q : Q) : q == inject_Z k -> round_half_even q = k.
Proof.
  intros E. rewrite (round_half_even_comp _ _ E). unfold round_half_even.
  rewrite Qfloor_Z.
  destruct (Qcompare_spec (inject_Z k - inject_Z k) (1 # 2)) as [C|C|C]; [lra|reflexivity|lra].
Qed.

Lemma round_half_even_mono (a b : Q) :
  a <= b -> (round_half_even a <= round_half_even b)%Z.
Proof.
  intros Hab. pose proof (Qfloor_resp_le _ _ Hab) as Hf.
  unfold round_half_even.
  pose proof (Qfloor_le a) as Ha1. pose proof (Qlt_floor a) as Ha2.
  pose proof (Qfloor_le b) as Hb1. pose proof (Qlt_floor b) as Hb2.
  destruct (Z.eq_dec (Qfloor a) (Qfloor b)) as [E|E].
  - rewrite E in *.
    destruct (Qcompare_spec (a - inject_Z (Qfloor b)) (1 # 2)) as [C|C|C];
      destruct (Qcompare_spec (b - inject_Z (Qfloor b)) (1 # 2)) as [C'|C'|C'];
      try destruct (Z.even (Qfloor b)); try lia; lra.
  - assert (Qfloor a + 1 <= Qfloor b)%Z by lia.
    destruct (Qcompare_spec (a - inject_Z (Qfloor a)) (1 # 2)) as [C|C|C];
      destruct (Qcompare_spec (b - inject_Z (Qfloor b)) (1 # 2)) as [C'|C'|C'];
      try destruct (Z.even (Qfloor a)); try destruct (Z.even (Qfloor b)); lia.
Qed.

Lemma last_place_ge (a : Q) : (-1074 <= last_place a)%Z.
Proof. unfold last_place. lia. Qed.

Lemma last_place_mono (a b : Q) :
  0 < a -> a <= b -> (last_place a <= last_place b)%Z.
Proof. intros Ha Hab. pose proof (ilog2_mono a b Ha Hab). unfold last_place. lia. Qed.

(** A power of two is a multiple of every smaller one. *)
Lemma pow2_multiple (k e : Z) :
  (e <= k)%Z -> pow2 k == inject_Z (2 ^ (k - e)) * pow2 e.
Proof.
  intros H. rewrite <- pow2_Z by lia. rewrite <- pow2_add.
  replace (k - e + e)%Z with k by lia. reflexivity.
Qed.

Lemma scaled_back (a : Q) (e : Z) : a / pow2 e * pow2 e == a.
Proof. pose proof (pow2_pos e). field. lra. Qed.

(** The rounded value is within half a last place. *)
Lemma round64_pos_near (a : Q) :
  a - pow2 (last_place a) * (1 # 2) <= round64_pos a
  /\ round64_pos a <= a + pow2 (last_place a) * (1 # 2).
Proof.
  unfold round64_pos. rewrite Qred_correct. set (e := last_place a).
  pose proof (pow2_pos e) as Hp.
  pose proof (round_half_even_near (a / pow2 e)) as [H1 H2].
  pose proof (scaled_back a e) as E.
  set (m := inject_Z (round_half_even (a / pow2 e))) in *.
  set (z := a / pow2 e) in *. set (p := pow2 e) in *.
  assert (L : (z - (1 # 2)) * p <= m * p) by (apply Qmult_le_compat_r; lra).
  assert (U : m * p <= (z + (1 # 2)) * p) by (apply Qmult_le_compat_r; lra).
  assert (EL : (z - (1 # 2)) * p == z * p - p * (1 # 2)) by ring.
  assert (EU : (z + (1 # 2)) * p == z * p + p * (1 # 2)) by ring.
  split; lra.
Qed.

(** Rounding never crosses a multiple of the last place. *)
Lemma round64_pos_le_grid (a g : Q) (k : Z) :
  a <= g -> g == inject_Z k * pow2 (last_place a) -> round64_pos a <= g.
Proof.
  intros Hag Eg. unfold round64_pos. rewrite Qred_correct. set (e := last_place a) in *.
  pose proof (pow2_pos e) as Hp.
  assert (Hz : a / pow2 e <= g / pow2 e).
  { unfold Qdiv. apply Qmult_le_compat_r; [exact Hag|].
    apply Qlt_le_weak, Qinv_lt_0_compat, Hp. }
  assert (Ek : g / pow2 e == inject_Z k).
  { rewrite Eg. field. lra. }
  pose proof (round_half_even_mono _ _ Hz) as Hm.
  rewrite (round_half_even_Z k _ Ek) in Hm.
  rewrite Eg. apply Qmult_le_compat_r; [|lra].
  rewrite <- Zle_Qle. exact Hm.
Qed.

Lemma round64_pos_ge_grid (a g : Q) (k : Z) :
  g <= a -> g == inject_Z k * pow2 (last_place a) -> g <= round64_pos a.
Proof.
  intros Hag Eg. unfold round64_pos. rewrite Qred_correct. set (e := last_place a) in *.
  pose proof (pow2_pos e) as Hp.
  assert (Hz : g / pow2 e <= a / pow2 e).
  { unfold Qdiv. apply Qmult_le_compat_r; [exact Hag|].
    apply Qlt_le_weak, Qinv_lt_0_compat, Hp. }
  assert (Ek : g / pow2 e == inject_Z k).
  { rewrite Eg. field. lra. }
  pose proof (round_half_even_mono _ _ Hz) as Hm.
  rewrite (round_half_even_Z k _ Ek) in Hm.
  rewrite Eg. apply Qmult_le_compat_r; [|lra].
  rewrite <- Zle_Qle. exact Hm.
Qed.

Lemma round64_pos_nonneg (a : Q) : 0 <= a -> 0 <= round64_pos a.
Proof.
  intros Ha. apply (round64_pos_ge_grid a 0 0); [exact Ha|].
  change (inject_Z 0) with 0. ring.
Qed.

(** A multiple of the last place is kept. *)
Lemma round64_pos_exact (a : Q) (k : Z) :
  a == inject_Z k * pow2 (last_place a) -> round64_pos a == a.
Proof.
  intros E. apply Qle_antisym.
  - apply (round64_pos_le_grid a a k); [lra|exact E].
  - apply (round64_pos_ge_grid a a k); [lra|exact E].
Qed.

Lemma round64_pos_le_pow2 (a : Q) (k : Z) :
  (-1074 <= k)%Z -> 0 < a -> a <= pow2 k -> round64_pos a <= pow2 k.
Proof.
  intros Hk Ha Hak.
  apply (round64_pos_le_grid a (pow2 k) (2 ^ (k - last_place a))); [exact Hak|].
  apply pow2_multiple. unfold last_place.
  assert (ilog2 a <= k)%Z.
  { apply ilog2_le; [exact Ha|]. pose proof (pow2_lt k (k + 1) ltac:(lia)). lra. }
  lia.
Qed.

Lemma round64_pos_ge_pow2 (a : Q) (k : Z) :
  (-1074 <= k)%Z -> pow2 k <= a -> pow2 k <= round64_pos a.
Proof.
  intros Hk Hka. pose proof (pow2_pos k) as Hp.
  pose proof (ilog2_ge a k Hka) as Hi.
  destruct (ilog2_spec a ltac:(lra)) as [Hlo _].
  apply Qle_trans with (pow2 (ilog2 a)); [apply pow2_le; exact Hi|].
  apply (round64_pos_ge_grid a _ (2 ^ (ilog2 a - last_place a))); [exact Hlo|].
  apply pow2_multiple. unfold last_place. lia.
Qed.

(** Rounding keeps the order. *)
Lemma round64_pos_mono (a b : Q) :
  0 < a -> a <= b -> round64_pos a <= round64_pos b.
Proof.
  intros Ha Hab.
  pose proof (last_place_mono a b Ha Hab) as He.
  pose proof (ilog2_mono a b Ha Hab) as Hi.
  destruct (Z.eq_dec (last_place a) (last_place b)) as [E|E].
  - unfold round64_pos. rewrite !Qred_correct, E. set (e := last_place b).
    pose proof (pow2_pos e) as Hp.
    apply Qmult_le_compat_r; [|lra]. rewrite <- Zle_Qle.
    apply round_half_even_mono. unfold Qdiv.
    apply Qmult_le_compat_r; [exact Hab|].
    apply Qlt_le_weak, Qinv_lt_0_compat, Hp.
  - assert (Hlt : (last_place a < last_place b)%Z) by lia.
    assert (Hib : (ilog2 a < ilog2 b)%Z) by (unfold last_place in *; lia).
    destruct (ilog2_spec a Ha) as [_ Ha2].
    destruct (ilog2_spec b ltac:(lra)) as [Hb1 _].
    assert (Hmid : pow2 (ilog2 a + 1) <= pow2 (ilog2 b)) by (apply pow2_le; lia).
    apply Qle_trans with (pow2 (ilog2 b)).
    + apply (round64_pos_le_grid a _ (2 ^ (ilog2 b - last_place a))); [lra|].
      apply pow2_multiple. unfold last_place in *. lia.
    + apply (round64_pos_ge_grid b _ (2 ^ (ilog2 b - last_place b))); [lra|].
      apply pow2_multiple. unfold last_place in *. lia.
Qed.

(** The error of a value below [2^(k+1)] is at most [2^(k-53)]. *)
Lemma round64_pos_abs (a : Q) (k : Z) :
  (-1022 <= k)%Z -> 0 < a -> a < pow2 (k + 1) ->
  a - pow2 (k - 53) <= round64_pos a /\ round64_pos a <= a + pow2 (k - 53).
Proof.
  intros Hk Ha Hak. pose proof (round64_pos_near a) as [H1 H2].
  pose proof (ilog2_le a k Ha Hak) as Hi.
  assert (Hl : (last_place a <= k - 52)%Z) by (unfold last_place; lia).
  pose proof (pow2_le _ _ Hl) as Hp.
  assert (E : pow2 (k - 52) == 2 * pow2 (k - 53)).
  { rewrite <- pow2_succ. replace (k - 53 + 1)%Z with (k - 52)%Z by lia. reflexivity. }
  pose proof (pow2_pos (last_place a)).
  split; lra.
Qed.

(** The values of binary64 are multiples of 2^-1074. *)
Lemma on_grid_0 : Spec.on_grid 0.
Proof. exists 0%Z. change (inject_Z 0) with 0. ring. Qed.

Lemma on_grid_comp (a b : Q) : a == b -> Spec.on_grid a -> Spec.on_grid b.
Proof. intros E [k Hk]. exists k. rewrite <- E. exact Hk. Qed.

Lemma on_grid_add (a b : Q) : Spec.on_grid a -> Spec.on_grid b -> Spec.on_grid (a + b).
Proof.
  intros [k Hk] [j Hj]. exists (k + j)%Z. rewrite inject_Z_plus, Hk, Hj. ring.
Qed.

Lemma on_grid_times (a : Q) (n : Z) : Spec.on_grid a -> Spec.on_grid (a * inject_Z n).
Proof. intros [k Hk]. exists (k * n)%Z. rewrite inject_Z_mult, Hk. ring. Qed.

Lemma round64_pos_on_grid (a : Q) : Spec.on_grid (round64_pos a).
Proof.
  unfold round64_pos. set (m := round_half_even _).
  apply (on_grid_comp _ _ (Qeq_sym _ _ (Qred_correct _))).
  pose proof (last_place_ge a) as He.
  exists (m * 2 ^ (last_place a + 1074))%Z.
  rewrite inject_Z_mult, <- pow2_Z by lia.
  rewrite <- Qmult_assoc, <- pow2_add.
  replace (last_place a + 1074 + -1074)%Z with (last_place a) by lia. reflexivity.
Qed.

(** The relative error of rounding a positive multiple of 2^-1074 is at most
    2^-53. *)
Lemma round64_pos_rel (a : Q) :
  0 < a -> Spec.on_grid a ->
  a * (1 - pow2 (-53)) <= round64_pos a /\ round64_pos a <= a * (1 + pow2 (-53)).
Proof.
  intros Ha [k Hk]. pose proof (pow2_pos (-53)) as Hu.
  destruct (Z_le_gt_dec (-1074) (ilog2 a - 52)) as [Hn|Hs].
  - pose proof (round64_pos_near a) as [H1 H2].
    assert (El : last_place a = (ilog2 a - 52)%Z) by (unfold last_place; lia).
    rewrite El in H1, H2.
    destruct (ilog2_spec a Ha) as [Hlo _].
    assert (E : pow2 (ilog2 a - 52) * (1 # 2) == pow2 (ilog2 a) * pow2 (-53)).
    { replace (ilog2 a - 52)%Z with (ilog2 a + -53 + 1)%Z by lia.
      rewrite pow2_succ, pow2_add. ring. }
    assert (Hle : pow2 (ilog2 a) * pow2 (-53) <= a * pow2 (-53))
      by (apply Qmult_le_compat_r; lra).
    assert (E1 : a * (1 - pow2 (-53)) == a - a * pow2 (-53)) by ring.
    assert (E2 : a * (1 + pow2 (-53)) == a + a * pow2 (-53)) by ring.
    split; lra.
  - assert (El : last_place a = (-1074)%Z) by (unfold last_place; lia).
    assert (E : round64_pos a == a).
    { apply (round64_pos_exact a k). rewrite El. exact Hk. }
    assert (Hle : 0 <= a * pow2 (-53)) by (apply Qmult_le_0_compat; lra).
    assert (E1 : a * (1 - pow2 (-53)) == a - a * pow2 (-53)) by ring.
    assert (E2 : a * (1 + pow2 (-53)) == a + a * pow2 (-53)) by ring.
    split; lra.
Qed.

(** [round64] on what is not negative. *)
Lemma round64_zero (q : Q) : q == 0 -> round64 q = Fin 0.
Proof.
  intros E. unfold round64.
  destruct (Qcompare_spec q 0) as [H|H|H]; [reflexivity|lra|lra].
Qed.

Lemma round64_positive (q : Q) :
  0 < q ->
  round64 q = if Qleb (pow2 1024) (round64_pos q) then PInf else Fin (round64_pos q).
Proof.
  intros Hq. unfold round64.
  destruct (Qcompare_spec q 0) as [H|H|H]; [lra|lra|reflexivity].
Qed.

Lemma round64_negative (q : Q) :
  q < 0 ->
  round64 q = if Qleb (pow2 1024) (round64_pos (- q)) then NInf
              else Fin (- round64_pos (- q)).
Proof.
  intros Hq. unfold round64.
  destruct (Qcompare_spec q 0) as [H|H|H]; [lra|reflexivity|lra].
Qed.

Lemma round64_amount (q : Q) : 0 <= q -> Spec.amount (round64 q).
Proof.
  intros Hq. destruct (Qlt_le_dec 0 q) as [Hp|Hz].
  - rewrite (round64_positive q Hp). destruct (Qleb _ _); [exact I|].
    split; [apply round64_pos_nonneg; lra|apply round64_pos_on_grid].
  - rewrite round64_zero by lra. split; [lra|apply on_grid_0].
Qed.

(** A finite result of rounding a multiple of 2^-1074 that is not negative. *)
Lemma round64_rel (q r : Q) :
  0 <= q -> Spec.on_grid q -> round64 q = Fin r ->
  q * (1 - pow2 (-53)) <= r /\ r <= q * (1 + pow2 (-53)).
Proof.
  intros Hq Hg E. destruct (Qlt_le_dec 0 q) as [Hp|Hz].
  - rewrite (round64_positive q Hp) in E.
    destruct (Qleb _ _); [discriminate|]. injection E as <-.
    apply round64_pos_rel; assumption.
  - rewrite round64_zero in E by lra. injection E as <-.
    assert (E0 : q == 0) by lra. rewrite E0. split; lra.
Qed.

(** Rounding what is below [2^(k+1)] and not negative: a finite value, with
    an error of at most [2^(k-53)]. *)
Lemma round64_below (q : Q) (k : Z) :
  (-1022 <= k <= 1022)%Z -> 0 <= q -> q < pow2 (k + 1) ->
  exists r : Q, round64 q = Fin r
    /\ 0 <= r /\ r <= pow2 (k + 1)
    /\ q - pow2 (k - 53) <= r /\ r <= q + pow2 (k - 53).
Proof.
  intros Hk Hq Hlt. pose proof (pow2_pos (k - 53)) as Hu.
  pose proof (pow2_pos (k + 1)) as Hv.
  destruct (Qlt_le_dec 0 q) as [Hp|Hz].
  - rewrite (round64_positive q Hp).
    pose proof (round64_pos_le_pow2 q (k + 1) ltac:(lia) Hp ltac:(lra)) as Hle.
    pose proof (pow2_lt (k + 1) 1024 ltac:(lia)) as Hbig.
    assert (Hfin : Qleb (pow2 1024) (round64_pos q) = false).
    { unfold Qleb. destruct (Qcompare_spec (pow2 1024) (round64_pos q)); [lra|lra|reflexivity]. }
    rewrite Hfin. eexists. split; [reflexivity|].
    pose proof (round64_pos_abs q k ltac:(lia) Hp Hlt) as [H1 H2].
    pose proof (round64_pos_nonneg q ltac:(lra)).
    repeat split; lra.
  - rewrite round64_zero by lra. exists 0. split; [reflexivity|].
    repeat split; lra.
Qed.

(** A share, as a rounded percentage, is within a half and 2^-45 of the
    hundredfold of the exact quotient. *)
Lemma percent_near (a t : Q) :
  0 <= a -> 0 < t -> a < 2 * t ->
  exists z : Z,
    Spec.percent (Fin a) (Fin t) = of_Z z
    /\ 100 * (a / t) - (1 # 2) - pow2 (-45) <= inject_Z z
    /\ inject_Z z <= 100 * (a / t) + (1 # 2) + pow2 (-45).
Proof.
  intros Ha Ht Hat. unfold Spec.percent. cbn [div].
  assert (Z0 : Qis0 t = false).
  { unfold Qis0. destruct (Qcompare_spec t 0); [lra|lra|reflexivity]. }
  rewrite Z0. set (d := a / t).
  assert (Hd0 : 0 <= d).
  { unfold d. apply Qle_shift_div_l; [exact Ht|lra]. }
  assert (Hd2 : d < pow2 (0 + 1)).
  { unfold d. apply Qlt_shift_div_r; [exact Ht|]. change (pow2 (0 + 1)) with 2. lra. }
  destruct (round64_below d 0 ltac:(lia) Hd0 Hd2) as (r & -> & Hr0 & Hr2 & Hr3 & Hr4).
  cbn [mul].
  change (pow2 (0 + 1)) with 2 in Hr2.
  assert (E53 : pow2 (0 - 53) == 1 # 9007199254740992) by reflexivity.
  assert (Hx2 : r * 100 < pow2 (7 + 1)) by (change (pow2 (7 + 1)) with 256; lra).
  destruct (round64_below (r * 100) 7 ltac:(lia) ltac:(lra) Hx2)
    as (x & -> & Hx0 & _ & Hx3 & Hx4).
  assert (E46 : pow2 (7 - 53) == 1 # 70368744177664) by reflexivity.
  assert (E45 : pow2 (-45) == 1 # 35184372088832) by reflexivity.
  cbn [Math_round]. exists (Qfloor (x + (1 # 2))). split; [reflexivity|].
  pose proof (Qfloor_le (x + (1 # 2))) as Hle.
  pose proof (Qlt_floor (x + (1 # 2))) as Hlt.
  rewrite inject_Z_plus in Hlt. change (inject_Z 1) with 1 in Hlt.
  split; lra.
Qed.

(** Three shares of a total that is the rounded sum of the three parts add
    up to 99, 100 or 101 when rounded. *)
Lemma rounded_shares (a1 a2 a3 s t : Q) :
  0 <= a1 -> 0 <= a2 -> 0 <= a3 ->
  Spec.on_grid a1 -> Spec.on_grid a2 -> Spec.on_grid a3 ->
  0 < a1 + a2 + a3 ->
  round64 (a1 + a2) = Fin s -> round64 (s + a3) = Fin t ->
  0 < t
  /\ exists p c f : Z,
       Spec.percent (Fin a1) (Fin t) = of_Z p
       /\ Spec.percent (Fin a2) (Fin t) = of_Z c
       /\ Spec.percent (Fin a3) (Fin t) = of_Z f
       /\ (99 <= p + c + f <= 101)%Z.
Proof.
  intros H1 H2 H3 G1 G2 G3 Hpos Es Et.
  assert (E53 : pow2 (-53) == 1 # 9007199254740992) by reflexivity.
  assert (Gs : Spec.on_grid s).
  { pose proof (round64_amount (a1 + a2) ltac:(lra)) as Hs. rewrite Es in Hs. apply Hs. }
  destruct (round64_rel (a1 + a2) s ltac:(lra) (on_grid_add _ _ G1 G2) Es) as [Hs1 Hs2].
  assert (Hs0 : 0 <= s).
  { pose proof (round64_amount (a1 + a2) ltac:(lra)) as Hs. rewrite Es in Hs. apply Hs. }
  destruct (round64_rel (s + a3) t ltac:(lra) (on_grid_add _ _ Gs G3) Et) as [Ht1 Ht2].
  rewrite E53 in Hs1, Hs2, Ht1, Ht2.
  assert (Ht : 0 < t) by lra.
  split; [exact Ht|].
  destruct (percent_near a1 t H1 Ht ltac:(lra)) as (p & Ep & Hp1 & Hp2).
  destruct (percent_near a2 t H2 Ht ltac:(lra)) as (c & Ec & Hc1 & Hc2).
  destruct (percent_near a3 t H3 Ht ltac:(lra)) as (f & Ef & Hf1 & Hf2).
  exists p, c, f. repeat (split; [assumption|]).
  assert (E45 : pow2 (-45) == 1 # 35184372088832) by reflexivity.
  rewrite E45 in *.
  set (D := (a1 + a2 + a3) / t).
  assert (ED : a1 / t + a2 / t + a3 / t == D) by (unfold D; field; lra).
  assert (EDt : D * t == a1 + a2 + a3) by (unfold D; field; lra).
  assert (HD1 : D <= 1 + (4 # 9007199254740992)).
  { apply (Qmult_le_r _ _ t Ht). rewrite EDt. lra. }
  assert (HD2 : 1 - (4 # 9007199254740992) <= D).
  { apply (Qmult_le_r _ _ t Ht). rewrite EDt. lra. }
  assert (L : inject_Z 98 < inject_Z (p + c + f)).
  { rewrite !inject_Z_plus. change (inject_Z 98) with 98. lra. }
  assert (U : inject_Z (p + c + f) < inject_Z 102).
  { rewrite !inject_Z_plus. change (inject_Z 102) with 102. lra. }
  rewrite <- Zlt_Qlt in L, U. lia.
Qed.

(** Rounding keeps the order of any two finite results. *)
Lemma round64_mono (a b ra rb : Q) :
  a <= b -> round64 a = Fin ra -> round64 b = Fin rb -> ra <= rb.
Proof.
  intros Hab Ea Eb.
  destruct (Qlt_le_dec 0 a) as [Ha|Ha].
  - rewrite (round64_positive a Ha) in Ea.
    rewrite (round64_positive b ltac:(lra)) in Eb.
    destruct (Qleb _ _); [discriminate|]. destruct (Qleb _ _); [discriminate|].
    injection Ea as <-. injection Eb as <-. apply round64_pos_mono; assumption.
  - assert (Hra : ra <= 0).
    { destruct (Qlt_le_dec a 0) as [Hn|Hz].
      - rewrite (round64_negative a Hn) in Ea. destruct (Qleb _ _); [discriminate|].
        injection Ea as <-. pose proof (round64_pos_nonneg (- a) ltac:(lra)). lra.
      - rewrite round64_zero in Ea by lra. injection Ea as <-. lra. }
    destruct (Qlt_le_dec b 0) as [Hb|Hb].
    + rewrite (round64_negative a ltac:(lra)) in Ea.
      rewrite (round64_negative b Hb) in Eb.
      destruct (Qleb _ _); [discriminate|]. destruct (Qleb _ _); [discriminate|].
      injection Ea as <-. injection Eb as <-.
      pose proof (round64_pos_mono (- b) (- a) ltac:(lra) ltac:(lra)). lra.
    + pose proof (round64_amount b Hb) as Hrb. rewrite Eb in Hrb.
      destruct Hrb as [Hrb _]. lra.
Qed.

(** Rounding keeps what is at most [2^k] in magnitude finite, and so. *)
Lemma round64_bounded (q : Q) (k : Z) :
  (-1074 <= k <= 1023)%Z -> - pow2 k <= q -> q <= pow2 k ->
  exists r : Q, round64 q = Fin r /\ - pow2 k <= r /\ r <= pow2 k.
Proof.
  intros Hk Hlo Hhi. pose proof (pow2_pos k) as Hp.
  pose proof (pow2_lt k 1024 ltac:(lia)) as Hbig.
  destruct (Qlt_le_dec 0 q) as [Hq|Hq].
  - rewrite (round64_positive q Hq).
    pose proof (round64_pos_le_pow2 q k ltac:(lia) Hq Hhi) as Hle.
    pose proof (round64_pos_nonneg q ltac:(lra)) as H0.
    assert (Hfin : Qleb (pow2 1024) (round64_pos q) = false).
    { unfold Qleb. destruct (Qcompare_spec (pow2 1024) (round64_pos q)); [lra|lra|reflexivity]. }
    rewrite Hfin. eexists. split; [reflexivity|]. split; lra.
  - destruct (Qlt_le_dec q 0) as [Hn|Hz].
    + rewrite (round64_negative q Hn).
      pose proof (round64_pos_le_pow2 (- q) k ltac:(lia) ltac:(lra) ltac:(lra)) as Hle.
      pose proof (round64_pos_nonneg (- q) ltac:(lra)) as H0.
      assert (Hfin : Qleb (pow2 1024) (round64_pos (- q)) = false).
      { unfold Qleb. destruct (Qcompare_spec (pow2 1024) (round64_pos (- q))); [lra|lra|reflexivity]. }
      rewrite Hfin. eexists. split; [reflexivity|]. split; lra.
    + rewrite round64_zero by lra. exists 0. split; [reflexivity|]. split; lra.
Qed.

Lemma within_round64 (k : Z) (a b : Q) :
  (-1074 <= k <= 1023)%Z -> a <= b -> - pow2 k <= a -> b <= pow2 k ->
  Spec.within k (round64 a) (round64 b).
Proof.
  intros Hk Hab Ha Hb.
  destruct (round64_bounded a k Hk Ha ltac:(lra)) as (ra & Ea & Ha1 & Ha2).
  destruct (round64_bounded b k Hk ltac:(lra) Hb) as (rb & Eb & Hb1 & Hb2).
  exists ra, rb. rewrite Ea, Eb. repeat split; try assumption.
  exact (round64_mono a b ra rb Hab Ea Eb).
Qed.

Lemma within_weaken (k k' : Z) (x y : number) :
  (k <= k')%Z -> Spec.within k x y -> Spec.within k' x y.
Proof.
  intros Hk (a & b & -> & -> & Hab & Ha & Hb). pose proof (pow2_le k k' Hk).
  exists a, b. repeat split; trivial; lra.
Qed.

Lemma within_add (k : Z) (x y x' y' : number) :
  (-1074 <= k < 1023)%Z ->
  Spec.within k x y -> Spec.within k x' y' ->
  Spec.within (k + 1) (add x x') (add y y').
Proof.
  intros Hk (a & b & -> & -> & Hab & Ha & Hb) (a' & b' & -> & -> & Hab' & Ha' & Hb').
  cbn [add]. pose proof (pow2_succ k) as E.
  apply within_round64; [lia|lra|lra|lra].
Qed.

Lemma within_neg (k : Z) (x : number) :
  Spec.within k x x -> Spec.within k (neg x) (neg x).
Proof.
  intros (a & b & -> & E & Hab & Ha & Hb). injection E as <-.
  exists (- a), (- a). repeat split; lra.
Qed.

Lemma within_sub (k : Z) (x y z : number) :
  (-1074 <= k < 1023)%Z ->
  Spec.within k x y -> Spec.within k z z ->
  Spec.within (k + 1) (sub x z) (sub y z).
Proof.
  intros Hk H Hz. unfold sub. apply within_add; [exact Hk|exact H|].
  apply within_neg, Hz.
Qed.

Lemma times_le (c a b : Q) : 0 <= c -> a <= b -> c * a <= c * b.
Proof.
  intros Hc Hab. rewrite (Qmult_comm c a), (Qmult_comm c b).
  apply Qmult_le_compat_r; assumption.
Qed.

(** The product with a constant that is not negative. *)
Lemma within_scale (j k : Z) (c : Q) (x y : number) :
  (-1074 <= j + k <= 1023)%Z -> 0 <= c -> c <= pow2 j ->
  Spec.within k x y ->
  Spec.within (j + k) (mul (Fin c) x) (mul (Fin c) y)
  /\ Spec.within (j + k) (mul x (Fin c)) (mul y (Fin c)).
Proof.
  intros Hk Hc0 Hc (a & b & -> & -> & Hab & Ha & Hb). cbn [mul].
  pose proof (pow2_add j k) as E. pose proof (pow2_pos j). pose proof (pow2_pos k).
  assert (H1 : c * a <= c * b) by (apply times_le; assumption).
  assert (H2 : c * b <= pow2 j * pow2 k).
  { apply Qle_trans with (c * pow2 k).
    - apply times_le; assumption.
    - apply Qmult_le_compat_r; lra. }
  assert (H3 : - (pow2 j * pow2 k) <= c * a).
  { apply Qle_trans with (c * - pow2 k).
    - assert (c * pow2 k <= pow2 j * pow2 k) by (apply Qmult_le_compat_r; lra).
      assert (c * - pow2 k == - (c * pow2 k)) by ring. lra.
    - apply times_le; assumption. }
  split.
  - apply within_round64; [lia|lra|lra|lra].
  - assert (Ea : a * c == c * a) by ring. assert (Eb : b * c == c * b) by ring.
    apply within_round64; [lia|lra|lra|lra].
Qed.

Lemma within_plus (n : Z) (x y x' y' : number) :
  (-1073 <= n <= 1023)%Z ->
  Spec.within (n - 1) x y -> Spec.within (n - 1) x' y' ->
  Spec.within n (add x x') (add y y').
Proof.
  intros Hn H H'. replace n with (n - 1 + 1)%Z at 1 by lia.
  apply within_add; [lia|exact H|exact H'].
Qed.

Lemma within_minus (n : Z) (x y z : number) :
  (-1073 <= n <= 1023)%Z ->
  Spec.within (n - 1) x y -> Spec.within (n - 1) z z ->
  Spec.within n (sub x z) (sub y z).
Proof.
  intros Hn H H'. replace n with (n - 1 + 1)%Z at 1 by lia.
  apply within_sub; [lia|exact H|exact H'].
Qed.

Lemma within_times_l (j n : Z) (c : Q) (x y : number) :
  (-1074 <= n <= 1023)%Z -> 0 <= c -> c <= pow2 j ->
  Spec.within (n - j) x y ->
  Spec.within n (mul (Fin c) x) (mul (Fin c) y).
Proof.
  intros Hn H0 Hc H. replace n with (j + (n - j))%Z at 1 by lia.
  apply within_scale; [lia|exact H0|exact Hc|exact H].
Qed.

Lemma within_times_r (j n : Z) (c : Q) (x y : number) :
  (-1074 <= n <= 1023)%Z -> 0 <= c -> c <= pow2 j ->
  Spec.within (n - j) x y ->
  Spec.within n (mul x (Fin c)) (mul y (Fin c)).
Proof.
  intros Hn H0 Hc H. replace n with (j + (n - j))%Z at 1 by lia.
  apply within_scale; [lia|exact H0|exact Hc|exact H].
Qed.

Lemma within_same (k : Z) (q : Q) :
  - pow2 k <= q -> q <= pow2 k -> Spec.within k (Fin q) (Fin q).
Proof. intros H1 H2. exists q, q. repeat split; trivial; lra. Qed.

(** A positive literal of the code: a finite value of its size. *)
Lemma lit_range (q : Q) (j : Z) :
  (-1074 <= j <= 1023)%Z -> 0 <= q -> q <= pow2 j ->
  exists c : Q, lit q = Fin c /\ 0 <= c /\ c <= pow2 j.
Proof.
  intros Hj H0 H1. pose proof (pow2_pos j).
  destruct (round64_bounded q j Hj ltac:(lra) H1) as (c & E & _ & Hc).
  exists c. split; [exact E|]. split; [|exact Hc].
  pose proof (round64_amount q H0) as Ha. unfold lit in E. rewrite E in Ha. apply Ha.
Qed.

End Rounding.

(** *** parseNum *)

Lemma neg_not_NaN (n : number) : n <> NaN -> neg n <> NaN.
Proof. destruct n; simpl; congruence. Qed.

Lemma radix_digits_not_NaN ok radix val s n :
  radix_digits ok radix val s = Some n -> n <> NaN.
Proof.
  unfold radix_digits, of_Z. destruct s; [discriminate|].
  destruct (forallb _ _); intros H; inversion H; discriminate.
Qed.

Lemma unsigned_decimal_not_NaN s n : unsigned_decimal s = Some n -> n <> NaN.
Proof.
  unfold unsigned_decimal.
  destruct (String.eqb s "Infinity"); [intros H; inversion H; discriminate|].
  destruct (span_digits s) as [ip r1].
  destruct (match r1 with String "."%char r => span_digits r | _ => (EmptyString, r1) end)
    as [fp r2].
  destruct (_ && _); [discriminate|].
  destruct r2 as [|c r]; [intros H; inversion H; discriminate|].
  destruct (is_one_of _ c); [|discriminate].
  destruct (exponent_part r); intros H; inversion H; discriminate.
Qed.

Lemma StrDecimalLiteral_not_NaN s n : StrDecimalLiteral s = Some n -> n <> NaN.
Proof.
  unfold StrDecimalLiteral.
  assert (Hn : forall r, option_map neg (unsigned_decimal r) = Some n -> n <> NaN).
  { intros r. destruct (unsigned_decimal r) as [m|] eqn:E; simpl; [|discriminate].
    intros H; inversion H. apply neg_not_NaN. eapply unsigned_decimal_not_NaN; eauto. }
  destruct s as [|c r]; [apply unsigned_decimal_not_NaN|].
  destruct (Ascii.eqb c "+") eqn:Ep.
  { apply Ascii.eqb_eq in Ep; subst c. apply unsigned_decimal_not_NaN. }
  destruct (Ascii.eqb c "-") eqn:Em.
  { apply Ascii.eqb_eq in Em; subst c. apply Hn. }
  assert (E : match String c r with
              | String "+"%char r0 => unsigned_decimal r0
              | String "-"%char r0 => option_map neg (unsigned_decimal r0)
              | _ => unsigned_decimal (String c r)
              end = unsigned_decimal (String c r)).
  { destruct c as [[] [] [] [] [] [] [] []]; try reflexivity; discriminate. }
  rewrite E. apply unsigned_decimal_not_NaN.
Qed.

Lemma StrNumericLiteral_not_NaN s n : StrNumericLiteral s = Some n -> n <> NaN.
Proof.
  unfold StrNumericLiteral.
  destruct s as [|c0 r0]; [apply StrDecimalLiteral_not_NaN|].
  destruct (Ascii.eqb c0 "0") eqn:E0.
  - apply Ascii.eqb_eq in E0; subst c0.
    destruct r0 as [|c r]; [apply StrDecimalLiteral_not_NaN|].
    repeat (match goal with |- context [if ?b then _ else _] => destruct b end);
      eauto using radix_digits_not_NaN, StrDecimalLiteral_not_NaN.
  - assert (E : forall (X : option number),
                match String c0 r0 with
                | String "0"%char (String c1 r1) =>
                    if is_one_of ["x"; "X"]%char c1 then radix_digits is_hex 16 hex_val r1
                    else if is_one_of ["o"; "O"]%char c1 then radix_digits is_oct 8 digit_val r1
                    else if is_one_of ["b"; "B"]%char c1 then radix_digits is_bin 2 digit_val r1
                    else X
                | _ => X
                end = X).
    { intros X. destruct c0 as [[] [] [] [] [] [] [] []]; try reflexivity;
        try discriminate. }
    rewrite E. apply StrDecimalLiteral_not_NaN.
Qed.

Lemma parseNum_string (s : string) :
  s <> EmptyString ->
  DataManager.parseNum (VStr s) =
    let num := StringToNumber s in if isNaN num then None else Some num.
Proof. destruct s; [congruence|reflexivity]. Qed.

Lemma round64_not_NaN (q : Q) : round64 q <> NaN.
Proof.
  unfold round64. destruct (q ?= 0)%Q; [discriminate|..];
    cbv zeta; destruct (Qleb _ _); discriminate.
Qed.

Lemma to_double_not_NaN (n : number) : n <> NaN -> to_double n <> NaN.
Proof. destruct n; cbn; try congruence. intros _. apply round64_not_NaN. Qed.

Lemma StringToNumber_trimmed (s : string) :
  trim s <> EmptyString ->
  StringToNumber s = match StrNumericLiteral (trim s) with
                     | Some n => to_double n
                     | None => NaN
                     end.
Proof. unfold StringToNumber. destruct (trim s); [congruence|reflexivity]. Qed.

Lemma parseNum_never_NaN (v : value) : DataManager.parseNum v <> Some NaN.
Proof.
  assert (H : forall w, (let num := Number w in
                         if isNaN num then None else Some num) <> Some NaN).
  { intros w. cbv zeta. destruct (Number w); cbn; congruence. }
  destruct v as [| | n | s | t]; try (cbn; congruence).
  - apply (H (VNum n)).
  - destruct s; [cbn; congruence|apply (H (VStr (String a s)))].
  - apply (H (VDate t)).
Qed.

(** What [parseNum] does, case by case: null, undefined and the empty
    string are Absent; a string that is not empty but holds white space only
    is the present value 0; a string that, white space trimmed, is not a
    numeric literal is Absent; a string that, white space trimmed, is a
    numeric literal is the binary64 value of the literal; the number NaN is
    Absent and any other number itself.  The result is never NaN, and both
    the number 0 and the string 0 give the present value 0. *)
Lemma parseNum_by_cases :
  (DataManager.parseNum VNull = None
   /\ DataManager.parseNum VUndefined = None
   /\ DataManager.parseNum (VStr EmptyString) = None)
  /\ (forall s : string, s <> EmptyString -> trim s = EmptyString ->
        DataManager.parseNum (VStr s) = Some (Fin 0))
  /\ (forall s : string, trim s <> EmptyString ->
        StrNumericLiteral (trim s) = None ->
        DataManager.parseNum (VStr s) = None)
  /\ (forall (s : string) (n : number), StrNumericLiteral (trim s) = Some n ->
        DataManager.parseNum (VStr s) = Some (to_double n))
  /\ (forall n : number, n <> NaN -> DataManager.parseNum (VNum n) = Some n)
  /\ DataManager.parseNum (VNum NaN) = None
  /\ (forall v : value, DataManager.parseNum v <> Some NaN)
  /\ DataManager.parseNum (VNum (Fin 0)) = Some (Fin 0)
  /\ DataManager.parseNum (VStr "0") = Some (Fin 0).
Proof.
  repeat split; try reflexivity.
  - intros s Hs Ht. rewrite parseNum_string by assumption.
    unfold StringToNumber. rewrite Ht. reflexivity.
  - intros s Ht Hl. assert (Hs : s <> EmptyString) by (intros ->; apply Ht; reflexivity).
    rewrite parseNum_string by assumption.
    rewrite StringToNumber_trimmed by assumption. rewrite Hl. reflexivity.
  - intros s n Hl.
    assert (Ht : trim s <> EmptyString) by (intros E; rewrite E in Hl; discriminate).
    assert (Hs : s <> EmptyString) by (intros ->; apply Ht; reflexivity).
    rewrite parseNum_string by assumption.
    rewrite StringToNumber_trimmed by assumption. rewrite Hl. cbv zeta.
    apply StrNumericLiteral_not_NaN, to_double_not_NaN in Hl.
    destruct (to_double n); cbn; congruence.
  - intros n Hn. destruct n; cbn; congruence.
  - apply parseNum_never_NaN.
Qed.

(** C1.  The claim holds of every cell but one kind, where the code misses
    it: a cell holding one space has no digit in it and is no numeric string,
    yet [parseNum] gives the present value 0 for it, not Absent.  The guard
    [val === ''] is there to keep [Number('')], which is 0, out; it lets the
    strings of white space through, for which [Number] is 0 as well.  The
    sibling conversions of the named-column parsers, [Number(value) || null],
    give null for the same cell. *)
Theorem parseNum_blank :
  Spec.no_digit " " = true
  /\ DataManager.parseNum (VStr EmptyString) = None
  /\ DataManager.parseNum (VStr " ") = Some (Fin 0)
  /\ DataManager.parseNum (VStr " ") <> None
  /\ DataManager.number_or_null (VStr " ") = VNull.
Proof. repeat split; discriminate. Qed.

(** Numeric strings become the binary64 value of their literal: 0.1 the
    value next to a tenth, and 1e400 infinity. *)
Example parseNum_binary64 :
  DataManager.parseNum (VStr "0.1") = Some (Fin (3602879701896397 # 36028797018963968))
  /\ DataManager.parseNum (VStr " 1e400 ") = Some PInf
  /\ DataManager.parseNum (VStr "1e-400") = Some (Fin 0).
Proof. repeat split; vm_compute; reflexivity. Qed.

(** The older copy of the parser converts a numeric cell by
    [v ? Number(v) : null]: there the number 0 is Absent and a word is NaN. *)
Lemma legacy_number_or_null_examples :
  Legacy.number_or_null (VNum (Fin 0)) = None
  /\ Legacy.number_or_null (VStr "abc") = Some NaN
  /\ Legacy.number_or_null (VStr EmptyString) = None.
Proof. repeat split. Qed.

(** *** calculateMovingAverage *)

Lemma sum_map_num_of (l : list (option number)) (a : number) :
  fold_left add (map DataManager.num_of l) a
  = fold_left (fun a b => a + DataManager.num_of b)%js l a.
Proof. revert a. induction l as [|x l IH]; intros a; simpl; [reflexivity|apply IH]. Qed.

Lemma lookup_map_seq {A : Type} (g : nat -> A) (n a i : nat) :
  (i < n)%nat -> map g (seq a n) !! i = Some (g (a + i)%nat).
Proof.
  revert a i. induction n as [|n IH]; intros a i Hi; [lia|].
  destruct i as [|i]; simpl.
  - now rewrite Nat.add_0_r.
  - rewrite IH by lia. f_equal. f_equal. lia.
Qed.

Section MovingAverage.

Variables (data : list Entry.t) (f : DataManager.field) (days : nat).

Lemma movingAverage_step_push (result : list (option number)) (i : nat) :
  DataManager.movingAverage_step data f days result i = result ++ [Spec.pushed_at data f days i].
Proof.
  unfold DataManager.movingAverage_step, Spec.pushed_at, DataManager.push.
  destruct (0 <? length _)%nat; reflexivity.
Qed.

Lemma movingAverage_loop (l : list nat) (init : list (option number)) :
  fold_left (DataManager.movingAverage_step data f days) l init
  = init ++ map (Spec.pushed_at data f days) l.
Proof.
  revert init. induction l as [|i l IH]; intros init; simpl.
  - now rewrite app_nil_r.
  - rewrite IH, movingAverage_step_push, <- app_assoc. reflexivity.
Qed.

Lemma calculateMovingAverage_map :
  DataManager.calculateMovingAverage data f days
  = map (Spec.pushed_at data f days) (seq 0 (length data)).
Proof. unfold DataManager.calculateMovingAverage. now rewrite movingAverage_loop. Qed.

Lemma trailing_slice (i : nat) :
  (i < length data)%nat ->
  DataManager.slice (Nat.max 0 (i + 1 - days)) (i + 1) data
  = Spec.trailing days i data.
Proof.
  intros Hi. unfold DataManager.slice, Spec.trailing.
  replace (Nat.max 0 (i + 1 - days)) with (i + 1 - days)%nat by lia.
  replace (i + 1 - (i + 1 - days))%nat with (Nat.min days (i + 1)) by lia.
  generalize (Nat.min days (i + 1)) as n. generalize (i + 1 - days)%nat as a.
  intros a n. revert a. induction n as [|n IH]; intros a; simpl.
  - reflexivity.
  - rewrite <- IH. destruct (data !! a) as [x|] eqn:E.
    + rewrite (drop_S _ _ _ E). reflexivity.
    + apply lookup_ge_None in E. rewrite !drop_ge by lia.
      rewrite !take_nil. reflexivity.
Qed.

Lemma survivors_filter (l : list Entry.t) :
  map DataManager.num_of
      (map (DataManager.get f)
           (List.filter (fun d => DataManager.present_positive (DataManager.get f d)) l))
  = Spec.survivors f l.
Proof.
  induction l as [|d l IH]; [reflexivity|].
  unfold Spec.survivors in *. cbn [flat_map List.filter]. rewrite <- IH.
  unfold DataManager.present_positive at 1.
  destruct (DataManager.get f d) as [x|] eqn:E; [|reflexivity].
  destruct (x >? Fin 0)%js; [|reflexivity].
  cbn. rewrite E. reflexivity.
Qed.

Lemma pushed_spec (i : nat) :
  (i < length data)%nat ->
  Spec.pushed_at data f days i = Spec.movingAverage_at data f days i.
Proof.
  intros Hi. unfold Spec.pushed_at, Spec.movingAverage_at.
  rewrite trailing_slice by assumption.
  rewrite <- survivors_filter.
  set (vv := map (DataManager.get f) _).
  destruct vv as [|v vv']; [reflexivity|].
  cbn [map]. cbv iota.
  change (DataManager.num_of v :: map DataManager.num_of vv')
    with (map DataManager.num_of (v :: vv')).
  unfold Spec.round2, Spec.mean, Spec.sum.
  rewrite length_map, sum_map_num_of. reflexivity.
Qed.

Lemma calculateMovingAverage_length :
  length (DataManager.calculateMovingAverage data f days) = length data.
Proof. now rewrite calculateMovingAverage_map, length_map, length_seq. Qed.

Lemma calculateMovingAverage_lookup (i : nat) :
  (i < length data)%nat ->
  DataManager.calculateMovingAverage data f days !! i
  = Some (Spec.movingAverage_at data f days i).
Proof.
  intros Hi. rewrite calculateMovingAverage_map, lookup_map_seq by assumption.
  simpl Nat.add. f_equal. now apply pushed_spec.
Qed.

End MovingAverage.

Lemma survivors_all_present (f : DataManager.field) (l : list Entry.t) :
  Forall (fun d => DataManager.present_positive (DataManager.get f d) = true) l ->
  Spec.survivors f l = Spec.values f l.
Proof.
  induction 1 as [|d l Hd _ IH]; [reflexivity|].
  unfold Spec.survivors, Spec.values in *. cbn [flat_map omap list_omap].
  rewrite IH. unfold DataManager.present_positive in Hd.
  destruct (DataManager.get f d) as [x|]; [|discriminate].
  rewrite Hd. reflexivity.
Qed.

Lemma trailing_whole {A : Type} (l : list A) (window : nat) :
  (0 < length l <= window)%nat -> Spec.trailing window (length l - 1) l = l.
Proof.
  intros H. unfold Spec.trailing.
  replace (length l - 1 + 1 - window)%nat with 0%nat by lia.
  replace (Nat.min window (length l - 1 + 1)) with (length l) by lia.
  clear H. induction l as [|x l IH]; [reflexivity|].
  cbn [length seq flat_map]. rewrite <- seq_shift, flat_map_concat_map, map_map.
  rewrite <- flat_map_concat_map. cbn. f_equal. exact IH.
Qed.

(** C2.  With the window of 7, the output of [calculateMovingAverage] is as
    long as its input; its value at index [i] is the mean, rounded to 2
    decimals, of the values of the field that are present and above 0 among
    the entries at indices [i-6 .. i], and Absent when there is none; and on
    an input of at most 7 entries whose values are all present and above 0,
    the last output is the mean of all the values rounded to 2 decimals. *)
Theorem calculateMovingAverage_window7 (data : list Entry.t) (f : DataManager.field) :
  length (DataManager.calculateMovingAverage data f 7) = length data
  /\ (forall i : nat, (i < length data)%nat ->
        DataManager.calculateMovingAverage data f 7 !! i
        = Some (Spec.movingAverage_at data f 7 i))
  /\ ((0 < length data <= 7)%nat ->
      Forall (fun d => DataManager.present_positive (DataManager.get f d) = true) data ->
      last (DataManager.calculateMovingAverage data f 7)
      = Some (Some (Spec.round2 (Spec.mean (Spec.values f data))))).
Proof.
  split; [apply calculateMovingAverage_length|].
  split; [apply calculateMovingAverage_lookup|].
  intros Hn Hall. rewrite last_lookup, calculateMovingAverage_length.
  replace (Init.Nat.pred (length data)) with (length data - 1)%nat by lia.
  rewrite calculateMovingAverage_lookup by lia. f_equal.
  unfold Spec.movingAverage_at. rewrite trailing_whole by assumption.
  rewrite survivors_all_present by assumption.
  destruct data as [|d rest]; [simpl in Hn; lia|].
  inversion Hall as [|? ? Hd _]; subst.
  unfold Spec.values. cbn [omap list_omap].
  unfold DataManager.present_positive in Hd.
  destruct (DataManager.get f d); [reflexivity|discriminate].
Qed.

(** Witness for C2: three days of weights, all present and above 0. *)
Lemma calculateMovingAverage_window7_witness :
  let day w := Entry.mk (VStr "2026-01-08") (Some (Fin w)) None None None
                        None None None (VStr EmptyString) in
  let data := [day 100%Q; day 95%Q; day 96.5%Q] in
  DataManager.calculateMovingAverage data DataManager.weight 7 !! 1%nat
  = Some (Spec.movingAverage_at data DataManager.weight 7 1)
  /\ last (DataManager.calculateMovingAverage data DataManager.weight 7)
     = Some (Some (Spec.round2 (Spec.mean (Spec.values DataManager.weight data)))).
Proof.
  intros day data.
  destruct (calculateMovingAverage_window7 data DataManager.weight) as (_ & Hat & Hlast).
  split.
  - apply Hat. simpl. lia.
  - apply Hlast.
    + simpl. lia.
    + repeat constructor.
Defined.

(** The moving average on concrete data: a zero and an absent weight are
    skipped, and the mean is rounded to 2 decimals. *)
Example calculateMovingAverage_example :
  let day w := Entry.mk (VStr "2026-01-08") w None None None
                        None None None (VStr EmptyString) in
  map (option_map (toFixed 2))
      (DataManager.calculateMovingAverage
         [day None; day (Some (Fin 100)); day (Some (Fin 0)); day (Some (Fin (95.5)));
          day (Some (lit 96.123))] DataManager.weight 7)
  = [None; Some "100.00"; Some "100.00"; Some "97.75"; Some "97.21"].
Proof. vm_compute. reflexivity. Qed.

(** Nine days of weights 1 to 9: from the eighth day on the window has left
    the first days behind. *)
Example calculateMovingAverage_nine_days :
  let day w := Entry.mk (VStr "2026-01-08") (Some (of_Z w)) None None None
                        None None None (VStr EmptyString) in
  map (option_map (toFixed 2))
      (DataManager.calculateMovingAverage
         (map day [1; 2; 3; 4; 5; 6; 7; 8; 9]) DataManager.weight 7)
  = [Some "1.00"; Some "1.50"; Some "2.00"; Some "2.50"; Some "3.00";
     Some "3.50"; Some "4.00"; Some "5.00"; Some "6.00"].
Proof. vm_compute. reflexivity. Qed.

(** A mean that binary64 puts below the half the exact mean reaches: the
    weights 60.4, 61.8, 61.5 and 61.2 add up to 244.89999999999998, a
    quarter of which is 61.224999999999994, and the average is 61.22. *)
Example calculateMovingAverage_binary64 :
  let day w := Entry.mk (VStr "2026-01-08") (Some (lit w)) None None None
                        None None None (VStr EmptyString) in
  last (DataManager.calculateMovingAverage
          [day 60.4%Q; day 61.8%Q; day 61.5%Q; day 61.2%Q] DataManager.weight 7)
  = Some (Some (lit 61.22)).
Proof. vm_compute. reflexivity. Qed.

(** *** calculateWeeklyStats: the PFC percentages *)

Lemma Qis0_false (a : Q) : ~ (a == 0)%Q -> Qis0 a = false.
Proof. unfold Qis0. destruct (Qcompare_spec a 0); [contradiction|reflexivity..]. Qed.

Lemma Qis0_true (a : Q) : (a == 0)%Q -> Qis0 a = true.
Proof.
  unfold Qis0. intros H. destruct (Qcompare_spec a 0) as [E|E|E];
    [reflexivity|rewrite H in E; exfalso; lra..].
Qed.

Lemma Qltb_true (a b : Q) : (a < b)%Q -> Qltb a b = true.
Proof. unfold Qltb. intros H. destruct (Qcompare_spec a b); [lra|reflexivity|lra]. Qed.

Lemma Qltb_false (a b : Q) : (b <= a)%Q -> Qltb a b = false.
Proof. unfold Qltb. intros H. destruct (Qcompare_spec a b); [reflexivity|lra|reflexivity]. Qed.

Lemma Qltb_lt (a b : Q) : Qltb a b = true -> (a < b)%Q.
Proof. unfold Qltb. destruct (Qcompare_spec a b); [discriminate|trivial|discriminate]. Qed.

Lemma Qltb_ge (a b : Q) : Qltb a b = false -> (b <= a)%Q.
Proof. unfold Qltb. destruct (Qcompare_spec a b); [lra|discriminate|lra]. Qed.

Lemma Qleb_le (a b : Q) : Qleb a b = true -> (a <= b)%Q.
Proof. unfold Qleb. destruct (Qcompare_spec a b); [lra|lra|discriminate]. Qed.

Lemma Qleb_gt (a b : Q) : Qleb a b = false -> (b < a)%Q.
Proof. unfold Qleb. destruct (Qcompare_spec a b); [discriminate|discriminate|lra]. Qed.

Ltac totals_proj :=
  cbn [DataManager.totalProtein DataManager.totalFat DataManager.totalCarbs
       DataManager.daysWithData].

Section WeeklyPfc.

Variable meals : MealsByDate.

Lemma add_grams_app g acc l1 l2 :
  Spec.add_grams g acc (l1 ++ l2) = Spec.add_grams g (Spec.add_grams g acc l1) l2.
Proof. apply fold_left_app. Qed.

Lemma fold_add_item (items : list Item.t) (t : DataManager.totals) (b : bool) :
  fold_left DataManager.add_item items (t, b)
  = (Spec.totals_plus t items (DataManager.daysWithData t),
     b || negb (bool_decide (items = []))).
Proof.
  revert t b. induction items as [|item items IH]; intros t b.
  - destruct t. simpl. now rewrite orb_false_r.
  - cbn [fold_left]. unfold DataManager.add_item at 2. rewrite IH.
    unfold Spec.totals_plus. simpl. now rewrite orb_true_r.
Qed.

Lemma fold_add_mealType (dayMeals : DayMeals) (types : list string)
    (t : DataManager.totals) (b : bool) :
  let items := flat_map (fun type => default [] (dayMeals !! type)) types in
  fold_left (DataManager.add_mealType dayMeals) types (t, b)
  = (Spec.totals_plus t items (DataManager.daysWithData t),
     b || negb (bool_decide (items = []))).
Proof.
  revert t b. induction types as [|type types IH]; intros t b; cbn zeta.
  - destruct t. simpl. now rewrite orb_false_r.
  - cbn [fold_left flat_map]. unfold DataManager.add_mealType at 2.
    destruct (dayMeals !! type) as [its|] eqn:E; cbn [default].
    + rewrite fold_add_item, IH. unfold Spec.totals_plus. totals_proj.
      rewrite !add_grams_app. f_equal.
      destruct its; simpl; [now rewrite orb_false_r|now rewrite orb_true_r].
    + rewrite IH. reflexivity.
Qed.

Lemma add_day_items (t : DataManager.totals) (day : Entry.t) :
  DataManager.add_day meals t day
  = Spec.totals_plus t (Spec.day_items meals day)
      (DataManager.daysWithData t
       + if bool_decide (Spec.day_items meals day = []) then 0 else 1)%nat.
Proof.
  unfold DataManager.add_day, Spec.day_items.
  destruct (DataManager.meals_of meals (Entry.date day)) as [dayMeals|].
  - rewrite fold_add_mealType. cbn zeta. cbn [orb].
    destruct (bool_decide _); cbn [negb]; unfold Spec.totals_plus; totals_proj.
    + now rewrite Nat.add_0_r.
    + f_equal. lia.
  - destruct t. unfold Spec.totals_plus. simpl. now rewrite Nat.add_0_r.
Qed.

Lemma fold_add_day (days : list Entry.t) (t : DataManager.totals) :
  let items := flat_map (Spec.day_items meals) days in
  exists n : nat,
    fold_left (DataManager.add_day meals) days t
    = Spec.totals_plus t items (DataManager.daysWithData t + n)%nat
    /\ (n = 0%nat <-> items = []).
Proof.
  revert t. induction days as [|day days IH]; intros t; cbn zeta.
  - exists 0%nat. destruct t. unfold Spec.totals_plus. simpl.
    rewrite Nat.add_0_r. tauto.
  - cbn [fold_left flat_map]. rewrite add_day_items.
    destruct (IH (Spec.totals_plus t (Spec.day_items meals day)
                    (DataManager.daysWithData t
                     + if bool_decide (Spec.day_items meals day = []) then 0 else 1)%nat))
      as (n & -> & Hn).
    exists ((if bool_decide (Spec.day_items meals day = []) then 0 else 1) + n)%nat.
    split.
    + unfold Spec.totals_plus. totals_proj. rewrite !add_grams_app. f_equal. lia.
    + destruct (bool_decide (Spec.day_items meals day = [])) eqn:E.
      * apply bool_decide_eq_true in E. rewrite E. simpl. exact Hn.
      * apply bool_decide_eq_false in E. split; [lia|].
        intros H. apply app_eq_nil in H. tauto.
Qed.

End WeeklyPfc.

Lemma last_week_slice (data : list Entry.t) :
  DataManager.slice_last 7 data = Spec.last_week data.
Proof.
  unfold Spec.last_week. destruct data as [|d data']; [reflexivity|].
  set (l := d :: data').
  assert (Hl : (0 < length l)%nat) by (simpl; lia).
  rewrite <- (trailing_slice l 7 (length l - 1)) by lia.
  unfold DataManager.slice, DataManager.slice_last.
  replace (Nat.max 0 (length l - 1 + 1 - 7)) with (length l - 7)%nat by lia.
  rewrite firstn_all2; [reflexivity|]. rewrite length_skipn. lia.
Qed.

Lemma or_default_nonneg (x : option number) :
  Spec.nonneg x -> exists q : Q, or_default x (Fin 0) = Fin q /\ (0 <= q)%Q.
Proof.
  destruct x as [[| | |q]|]; simpl; try contradiction.
  - intros Hq. destruct (negb (Qis0 q)); [exists q|exists 0%Q]; split; trivial; lra.
  - intros _. exists 0%Q. split; [reflexivity|lra].
Qed.

Lemma amount_plus (x y : number) :
  Spec.amount x -> Spec.amount y ->
  Spec.amount (x + y)
  /\ forall t : Q, (x + y)%js = Fin t ->
       exists a b : Q, x = Fin a /\ y = Fin b /\ round64 (a + b) = Fin t.
Proof.
  destruct x as [| | |a], y as [| | |b]; cbn [Spec.amount add]; try contradiction;
    intros Hx Hy; (split; [try exact I|]); try discriminate.
  - apply round64_amount. destruct Hx, Hy. lra.
  - intros t E. exists a, b. repeat split; trivial.
Qed.

Lemma amount_times (x : number) (n : Z) :
  0 < n -> Spec.amount x ->
  Spec.amount (x * of_Z n)
  /\ forall a : Q, (x * of_Z n)%js = Fin a ->
       exists q : Q, x = Fin q /\ (0 <= q)%Q /\ Spec.on_grid (q * inject_Z n)
                     /\ round64 (q * inject_Z n) = Fin a.
Proof.
  intros Hn. assert (Hq : (0 < inject_Z n)%Q).
  { change 0%Q with (inject_Z 0). rewrite <- Zlt_Qlt. exact Hn. }
  destruct x as [| | |q]; cbn [Spec.amount]; try contradiction.
  - intros _. unfold of_Z. cbn [mul]. unfold inf_times.
    destruct (Qcompare_spec (inject_Z n) 0); [lra|lra|].
    split; [exact I|discriminate].
  - intros [H0 Hg]. unfold of_Z. cbn [mul]. split.
    + apply round64_amount. apply Qmult_le_0_compat; lra.
    + intros a E. exists q. repeat split; trivial. apply on_grid_times, Hg.
Qed.

Lemma add_grams_amount (g : Item.t -> option number) (items : list Item.t)
    (acc : number) :
  Forall (fun item => Spec.nonneg (g item)) items ->
  Spec.amount acc -> Spec.amount (Spec.add_grams g acc items).
Proof.
  intros H. revert acc. induction H as [|item items Hi _ IH]; intros acc Hacc.
  - exact Hacc.
  - unfold Spec.add_grams. cbn [fold_left]. apply IH.
    destruct (or_default_nonneg _ Hi) as (x & -> & Hx).
    destruct acc as [| | |a]; cbn [Spec.amount add] in *; try contradiction.
    + exact I.
    + apply round64_amount. destruct Hacc. lra.
Qed.

Lemma grams_amount (g : Item.t -> option number) (items : list Item.t) :
  Forall (fun item => Spec.nonneg (g item)) items -> Spec.amount (Spec.grams g items).
Proof.
  intros H. apply add_grams_amount; [exact H|]. split; [lra|apply on_grid_0].
Qed.

(** A calorie count that is finite comes from a finite gram count, and is
    above 0 when the gram count is. *)
Lemma calories_of_grams (x : number) (n : Z) (a : Q) :
  0 < n -> Spec.amount x -> (x * of_Z n)%js = Fin a ->
  (0 <= a)%Q /\ Spec.on_grid a /\ (truthy_num x = true -> (0 < a)%Q).
Proof.
  intros Hn Hx E. destruct (amount_times x n Hn Hx) as [Ha Hinv].
  rewrite E in Ha. destruct Ha as [Ha0 Hag]. split; [exact Ha0|]. split; [exact Hag|].
  destruct (Hinv a E) as (q & -> & Hq0 & Hg & Er). cbn [truthy_num].
  intros Hnz.
  assert (Hq : (0 < q)%Q).
  { destruct (Qlt_le_dec 0 q) as [Hp|Hz]; [exact Hp|].
    rewrite (Qis0_true q) in Hnz by lra. discriminate. }
  assert (Hqn : (0 < inject_Z n)%Q).
  { change 0%Q with (inject_Z 0). rewrite <- Zlt_Qlt. exact Hn. }
  assert (Hpos : (0 < q * inject_Z n)%Q) by (apply Qmult_lt_0_compat; assumption).
  destruct (round64_rel (q * inject_Z n) a ltac:(lra) Hg Er) as [Hlo _].
  assert (E53 : (pow2 (-53) == 1 # 9007199254740992)%Q) by reflexivity.
  rewrite E53 in Hlo. lra.
Qed.

(** The shares of three calorie counts in their total, from gram counts that
    are not negative and not all zero, when the total does not overflow. *)
Lemma shares_of_amounts (P F C : number) :
  Spec.amount P -> Spec.amount F -> Spec.amount C ->
  truthy_num P || truthy_num F || truthy_num C = true ->
  let proteinCal := (P * Fin 4)%js in
  let carbsCal := (C * Fin 4)%js in
  let fatCal := (F * Fin 9)%js in
  let totalCal := (proteinCal + carbsCal + fatCal)%js in
  totalCal <> PInf ->
  (totalCal >? Fin 0)%js = true
  /\ exists p c f : Z,
       Spec.percent proteinCal totalCal = of_Z p
       /\ Spec.percent carbsCal totalCal = of_Z c
       /\ Spec.percent fatCal totalCal = of_Z f
       /\ 99 <= p + c + f <= 101.
Proof.
  intros HP HF HC Hnz. cbv zeta.
  change (Fin 4) with (of_Z 4). change (Fin 9) with (of_Z 9).
  destruct (amount_times P 4 eq_refl HP) as [HpA _].
  destruct (amount_times C 4 eq_refl HC) as [HcA _].
  destruct (amount_times F 9 eq_refl HF) as [HfA _].
  set (proteinCal := (P * of_Z 4)%js) in *.
  set (carbsCal := (C * of_Z 4)%js) in *.
  set (fatCal := (F * of_Z 9)%js) in *.
  destruct (amount_plus _ _ HpA HcA) as [HsA Hs].
  destruct (amount_plus _ _ HsA HfA) as [HtA Ht].
  destruct (proteinCal + carbsCal + fatCal)%js as [| | |t] eqn:Et;
    cbn [Spec.amount] in HtA; try contradiction; intros _.
  destruct (Ht t eq_refl) as (s & a3 & Es & E3 & Rt).
  destruct (Hs s Es) as (a1 & a2 & E1 & E2 & Rs).
  destruct (calories_of_grams P 4 a1 eq_refl HP E1) as (H1 & G1 & N1).
  destruct (calories_of_grams C 4 a2 eq_refl HC E2) as (H2 & G2 & N2).
  destruct (calories_of_grams F 9 a3 eq_refl HF E3) as (H3 & G3 & N3).
  assert (Hpos : (0 < a1 + a2 + a3)%Q).
  { apply orb_true_iff in Hnz as [Hnz|Hnz]; [apply orb_true_iff in Hnz as [Hnz|Hnz]|].
    - specialize (N1 Hnz). lra.
    - specialize (N3 Hnz). lra.
    - specialize (N2 Hnz). lra. }
  destruct (rounded_shares a1 a2 a3 s t H1 H2 H3 G1 G2 G3 Hpos Rs Rt)
    as (Htpos & p & c & f & Ep & Ec & Ef & Hsum).
  split.
  - unfold gtb. cbn [ltb]. apply Qltb_true, Htpos.
  - exists p, c, f. unfold proteinCal, carbsCal, fatCal in E1, E2, E3 |- *.
    rewrite E1, E2, E3. repeat split; trivial; apply Hsum.
Qed.

(** C3, as amended.  Without a meal file, or when no date of the 7-entry
    window has an item in one of the four meal slots, the PFC percentages
    are exactly {0, 0, 0}.  When the gram counts of the meal file are not
    negative, the grams summed over the window are not all zero and the
    calorie total does not overflow, each percentage is the rounded share
    of that macro's calories (protein x 4, carbs x 4, fat x 9) in their
    total, a whole number, and the three add up to 99, 100 or 101. *)
Theorem weekly_pfc_sum (data : list Entry.t) (settings : Settings.t) :
  DataManager.WeeklyStats.pfc (DataManager.calculateWeeklyStats data settings None)
  = DataManager.zero_pfc
  /\ forall meals : MealsByDate,
       let items := Spec.window_items meals data in
       let pfc := DataManager.WeeklyStats.pfc
                    (DataManager.calculateWeeklyStats data settings (Some meals)) in
       (items = [] -> pfc = DataManager.zero_pfc)
       /\ (Forall Spec.item_nonneg items ->
           truthy_num (Spec.grams Item.protein items)
           || truthy_num (Spec.grams Item.fat items)
           || truthy_num (Spec.grams Item.carbs items) = true ->
           let proteinCal := (Spec.grams Item.protein items * Fin 4)%js in
           let carbsCal := (Spec.grams Item.carbs items * Fin 4)%js in
           let fatCal := (Spec.grams Item.fat items * Fin 9)%js in
           let totalCal := (proteinCal + carbsCal + fatCal)%js in
           totalCal <> PInf ->
           pfc = {| DataManager.Pfc.protein := Spec.percent proteinCal totalCal;
                    DataManager.Pfc.carbs := Spec.percent carbsCal totalCal;
                    DataManager.Pfc.fat := Spec.percent fatCal totalCal |}
           /\ exists p c f : Z,
                DataManager.Pfc.protein pfc = of_Z p
                /\ DataManager.Pfc.carbs pfc = of_Z c
                /\ DataManager.Pfc.fat pfc = of_Z f
                /\ 99 <= p + c + f <= 101).
Proof.
  split; [reflexivity|]. intros meals items pfc.
  unfold pfc, DataManager.calculateWeeklyStats. cbn [DataManager.WeeklyStats.pfc].
  unfold DataManager.weekly_pfc. rewrite last_week_slice.
  destruct (fold_add_day meals (Spec.last_week data)
              (DataManager.mkTotals (Fin 0) (Fin 0) (Fin 0) 0)) as (n & -> & Hn).
  cbn zeta in Hn. fold (Spec.window_items meals data) in Hn |- *. fold items in Hn |- *.
  unfold Spec.totals_plus. totals_proj. cbn [Nat.add].
  fold (Spec.grams Item.protein items) (Spec.grams Item.fat items)
       (Spec.grams Item.carbs items).
  split.
  - intros E. apply Hn in E. subst n. reflexivity.
  - intros Hok Hnz. cbv zeta. intros Hfin.
    assert (HP : Forall (fun item => Spec.nonneg (Item.protein item)) items)
      by (eapply Forall_impl; [exact Hok|]; intros ? (? & ? & ?); assumption).
    assert (HF : Forall (fun item => Spec.nonneg (Item.fat item)) items)
      by (eapply Forall_impl; [exact Hok|]; intros ? (? & ? & ?); assumption).
    assert (HC : Forall (fun item => Spec.nonneg (Item.carbs item)) items)
      by (eapply Forall_impl; [exact Hok|]; intros ? (? & ? & ?); assumption).
    assert (Hitems : n <> 0%nat).
    { intros E. apply Hn in E. revert Hnz. rewrite E. discriminate. }
    assert (Hn0 : (0 <? n)%nat = true) by (apply Nat.ltb_lt; lia).
    rewrite Hn0.
    destruct (shares_of_amounts _ _ _ (grams_amount _ _ HP) (grams_amount _ _ HF)
                (grams_amount _ _ HC) Hnz Hfin) as (Hgt & p & c & f & Ep & Ec & Ef & Hsum).
    cbv zeta in Hgt, Ep, Ec, Ef. rewrite Hgt. split; [reflexivity|].
    exists p, c, f.
    cbn [DataManager.Pfc.protein DataManager.Pfc.carbs DataManager.Pfc.fat].
    repeat split; trivial; apply Hsum.
Qed.

(** Witness for C3: one day with 9 g protein, 9 g carbs and 4 g fat, that is
    36 kcal each: three shares of a third, rounded to 33, 33 and 33. *)
Lemma weekly_pfc_sum_witness :
  let day := Entry.mk (VStr "2026-01-08") (Some (Fin 100)) None None None
                      None None None (VStr EmptyString) in
  let egg := Item.mk "egg" (Some (Fin 108)) (Some (Fin 9)) (Some (Fin 4))
                     (Some (Fin 9)) in
  let meals : MealsByDate := {[ "2026-01-08" := {[ "breakfast" := [egg] ]} ]} in
  exists p c f : Z,
    DataManager.WeeklyStats.pfc
      (DataManager.calculateWeeklyStats [day] DataManager.getDefaultSettings (Some meals))
    = {| DataManager.Pfc.protein := of_Z p; DataManager.Pfc.carbs := of_Z c;
         DataManager.Pfc.fat := of_Z f |}
    /\ 99 <= p + c + f <= 101.
Proof.
  intros day egg meals.
  destruct (weekly_pfc_sum [day] DataManager.getDefaultSettings) as [_ H].
  destruct (H meals) as [_ Hsum].
  destruct Hsum as (_ & p & c & f & Hp & Hc & Hf & Hrange).
  - repeat constructor; vm_compute; discriminate.
  - vm_compute. reflexivity.
  - vm_compute. discriminate.
  - exists p, c, f. split; [|exact Hrange].
    rewrite <- Hp, <- Hc, <- Hf.
    destruct (DataManager.WeeklyStats.pfc _). reflexivity.
Defined.

(** C3, as stated, fails.  A gram count below 0 (here -5 g of protein, and
    nothing else): the summed grams are not zero, the calorie total is not
    above 0, and the percentages are {0, 0, 0}.  And a gram count so large
    that the calories overflow (here 2^1023 g of protein): the total and the
    protein calories are both infinite, and their share is NaN. *)
Lemma weekly_pfc_counterexample :
  let day := Entry.mk (VStr "2026-01-08") (Some (Fin 100)) None None None
                      None None None (VStr EmptyString) in
  let item (protein : Q) :=
    Item.mk "x" (Some (Fin 0)) (Some (Fin protein)) (Some (Fin 0)) (Some (Fin 0)) in
  let meals (protein : Q) : MealsByDate :=
    {[ "2026-01-08" := {[ "breakfast" := [item protein] ]} ]} in
  let pfc (protein : Q) :=
    DataManager.WeeklyStats.pfc
      (DataManager.calculateWeeklyStats [day] DataManager.getDefaultSettings
         (Some (meals protein))) in
  (Spec.grams Item.protein (Spec.window_items (meals (-5)%Q) [day]) = Fin (-5)
   /\ pfc (-5)%Q = DataManager.zero_pfc)
  /\ (truthy_num (Spec.grams Item.protein (Spec.window_items (meals (pow2 1023)) [day]))
      = true
      /\ DataManager.Pfc.protein (pfc (pow2 1023)) = NaN).
Proof. vm_compute. repeat split; reflexivity. Qed.

(** The same day evaluated: 33 + 33 + 33 = 99. *)
Example weekly_pfc_thirds :
  let day := Entry.mk (VStr "2026-01-08") (Some (Fin 100)) None None None
                      None None None (VStr EmptyString) in
  let egg := Item.mk "egg" (Some (Fin 108)) (Some (Fin 9)) (Some (Fin 4))
                     (Some (Fin 9)) in
  let meals : MealsByDate := {[ "2026-01-08" := {[ "breakfast" := [egg] ]} ]} in
  DataManager.WeeklyStats.pfc
    (DataManager.calculateWeeklyStats [day] DataManager.getDefaultSettings (Some meals))
  = {| DataManager.Pfc.protein := Fin 33; DataManager.Pfc.carbs := Fin 33;
       DataManager.Pfc.fat := Fin 33 |}.
Proof. vm_compute. reflexivity. Qed.

(** A share that binary64 puts just below a half: with 7 g protein, 12 g fat
    and 46 g carbs the carbs are 184 of 320 kcal, 57.5 percent exactly, and
    the quotient 0.575 rounded to binary64, times 100, is just below 57.5:
    the percentages are 9, 57 and 34. *)
Example weekly_pfc_binary64 :
  let day := Entry.mk (VStr "2026-01-08") (Some (Fin 100)) None None None
                      None None None (VStr EmptyString) in
  let dish := Item.mk "dish" (Some (Fin 320)) (Some (Fin 7)) (Some (Fin 12))
                      (Some (Fin 46)) in
  let meals : MealsByDate := {[ "2026-01-08" := {[ "lunch" := [dish] ]} ]} in
  DataManager.WeeklyStats.pfc
    (DataManager.calculateWeeklyStats [day] DataManager.getDefaultSettings (Some meals))
  = {| DataManager.Pfc.protein := Fin 9; DataManager.Pfc.carbs := Fin 57;
       DataManager.Pfc.fat := Fin 34 |}.
Proof. vm_compute. reflexivity. Qed.

(** *** calculateWeightChange *)

Lemma filter_none {A : Type} (p : A -> bool) (l : list A) :
  Forall (fun x => p x = false) l -> List.filter p l = [].
Proof.
  induction 1 as [|x l Hx _ IH]; [reflexivity|]. simpl. now rewrite Hx.
Qed.




(** Two changes as binary64 has them: 80.6 against a start weight of 80 is
    a change of 0.5999999999999943, 0.7499999999999929 percent, printed as
    0.7; and 95.25 against the default start weight 119.2 is a change of
    -23.950000000000003, rounded to -24. *)
Example calculateWeightChange_binary64 :
  let day w := Entry.mk (VStr "2026-01-08") (Some w) None None None
                        None None None (VStr EmptyString) in
  let settings := Settings.mk (Some (Fin 75)) (Some (Fin 10000)) (Some (Fin 80))
                    None None (Some (Fin 184)) (Some (Fin 30)) None None in
  DataManager.calculateWeightChange [day (lit 80.6)] settings
  = {| DataManager.WeightChange.current := lit 80.6;
       DataManager.WeightChange.change := lit 0.6;
       DataManager.WeightChange.changePercent := VStr "0.7";
       DataManager.WeightChange.toGoal := lit 5.6 |}
  /\ DataManager.WeightChange.change
       (DataManager.calculateWeightChange [day (Fin 95.25)]
          DataManager.getDefaultSettings)
     = Fin (-24).
Proof. split; vm_compute; reflexivity. Qed.

(** *** getCalorieTargetForDate *)

Lemma digit_at_range (c : ascii) : is_digit c = true -> 0 <= JSDate.digit_at c <= 9.
Proof.
  unfold is_digit, JSDate.digit_at, digit_val. intros H.
  apply andb_true_iff in H as [H1 H2].
  apply N.leb_le in H1, H2. lia.
Qed.

Lemma parse_iso_date_range (s : string) (y m d : Z) :
  JSDate.parse_iso_date s = Some (y, m, d) ->
  0 <= y <= 9999 /\ 1 <= m <= 12 /\ 1 <= d <= 31.
Proof.
  unfold JSDate.parse_iso_date.
  do 10 (let c := fresh "c" in destruct s as [|c s]; [discriminate|]).
  destruct s; [|discriminate].
  destruct (forallb is_digit _ && _ && _) eqn:Hd; [|discriminate].
  apply andb_true_iff in Hd as [Hd _]. apply andb_true_iff in Hd as [Hd _].
  cbn [forallb] in Hd. repeat (apply andb_true_iff in Hd as [?%digit_at_range Hd]).
  destruct (_ && _) eqn:Hr; [|discriminate].
  intros [= <- <- <-].
  repeat match goal with H : (_ && _) = true |- _ => apply andb_true_iff in H as [? ?] end.
  repeat match goal with H : (_ <=? _) = true |- _ => apply Z.leb_le in H end.
  lia.
Qed.

Lemma DayFromYear_mono (y : Z) :
  (y <= 2025 -> JSDate.DayFromYear y <= 20089)
  /\ (2027 <= y -> 20819 <= JSDate.DayFromYear y).
Proof. unfold JSDate.DayFromYear. split; intros H; Z.to_euclidean_division_equations; lia. Qed.

Lemma days_before_month_range (y m : Z) : 0 <= JSDate.days_before_month y m <= 335.
Proof.
  unfold JSDate.days_before_month. destruct (JSDate.leap y);
    repeat case_match; lia.
Qed.

(** A date-only string is on or after the change date exactly when its
    civil date is not before 20 January 2026. *)
Lemma date_geb_change (s : string) (y m d : Z) :
  JSDate.parse_iso_date s = Some (y, m, d) ->
  JSDate.date_geb (JSDate.Date_parse s) (JSDate.Date_parse "2026-01-20")
  = negb (Spec.before_change y m d).
Proof.
  intros Hp. pose proof (parse_iso_date_range s y m d Hp) as (Hy & Hm & Hd).
  unfold JSDate.Date_parse at 1. rewrite Hp.
  change (JSDate.Date_parse "2026-01-20") with (Some (20473 * JSDate.msPerDay)).
  unfold JSDate.date_geb, JSDate.MakeDay, JSDate.msPerDay, Spec.before_change.
  pose proof (DayFromYear_mono y) as [Hlo Hhi].
  pose proof (days_before_month_range y m) as Hb.
  destruct (Z.ltb_spec y 2026) as [Hlt|Hge]; cbn [orb negb].
  - apply Z.leb_gt. specialize (Hlo ltac:(lia)). lia.
  - destruct (Z.eqb_spec y 2026) as [->|Hne]; cbn [andb orb].
    + change (JSDate.DayFromYear 2026) with 20454.
      destruct (Z.ltb_spec m 1) as [?|_]; [lia|]. cbn [orb].
      destruct (Z.eqb_spec m 1) as [->|Hm1]; cbn [andb].
      * change (JSDate.days_before_month 2026 1) with 0.
        destruct (Z.ltb_spec d 20); cbn [negb]; [apply Z.leb_gt|apply Z.leb_le]; lia.
      * cbn [negb]. apply Z.leb_le.
        assert (31 <= JSDate.days_before_month 2026 m).
        { unfold JSDate.days_before_month. change (JSDate.leap 2026) with false.
          repeat case_match; lia. }
        lia.
    + cbn [negb]. apply Z.leb_le. specialize (Hhi ltac:(lia)). lia.
Qed.

(** C5, as amended.  For a date string [YYYY-MM-DD]: when the date is
    strictly before 20 January 2026 the result is [goals.calories_before_0120]
    if that field is present and not zero, and 2600 otherwise; for the change
    date and every later date it is [goals.calories] if that field is present
    and not zero, and 2700 otherwise.  Settings without a goals record count
    as goals without fields. *)
Theorem getCalorieTargetForDate_spec (dateStr : string) (y m d : Z)
    (settings : Settings.t) :
  JSDate.parse_iso_date dateStr = Some (y, m, d) ->
  let goals := default DataManager.no_goals (Settings.goals settings) in
  DataManager.getCalorieTargetForDate dateStr settings
  = if Spec.before_change y m d
    then or_default (Goals.calories_before_0120 goals) (Fin 2600)
    else or_default (Goals.calories goals) (Fin 2700).
Proof.
  intros Hp goals. unfold DataManager.getCalorieTargetForDate.
  rewrite (date_geb_change dateStr y m d Hp).
  fold (default DataManager.no_goals (Settings.goals settings)). fold goals.
  destruct (Spec.before_change y m d); reflexivity.
Qed.

(** Witness for C5: the day before the change date, the change date and a
    later date, under the default settings. *)
Lemma getCalorieTargetForDate_spec_witness :
  DataManager.getCalorieTargetForDate "2026-01-19" DataManager.getDefaultSettings = Fin 2600
  /\ DataManager.getCalorieTargetForDate "2026-01-20" DataManager.getDefaultSettings = Fin 2700
  /\ DataManager.getCalorieTargetForDate "2026-11-02" DataManager.getDefaultSettings = Fin 2700.
Proof.
  split; [|split].
  - apply (getCalorieTargetForDate_spec "2026-01-19" 2026 1 19). reflexivity.
  - apply (getCalorieTargetForDate_spec "2026-01-20" 2026 1 20). reflexivity.
  - apply (getCalorieTargetForDate_spec "2026-11-02" 2026 11 2). reflexivity.
Defined.

(** C5, as stated, fails.  With goals that have no [calories_before_0120]
    (the goals [calculateWeeklyStats] falls back on have none), a date before
    the change date gives 2600 although the field is absent; and with a
    calorie goal of 0, a date after the change date gives 2700, not 0. *)
Lemma getCalorieTargetForDate_counterexample :
  Goals.calories_before_0120 DataManager.default_goals = None
  /\ DataManager.getCalorieTargetForDate "2026-01-19"
       (Spec.with_goals DataManager.default_goals DataManager.getDefaultSettings)
     = Fin 2600
  /\ Goals.calories Spec.zero_calorie_goals = Some (Fin 0)
  /\ DataManager.getCalorieTargetForDate "2026-01-21"
       (Spec.with_goals Spec.zero_calorie_goals DataManager.getDefaultSettings)
     = Fin 2700.
Proof. repeat split. Qed.

(** *** calculateEstimatedBurn *)

(** C6, as amended.  [calculateEstimatedBurn] returns Absent when the weight
    is Absent, zero or NaN.  For any other weight it returns
    round((88.362 + 13.397 x weight + 4.799 x height - 5.677 x age) x 1.2
          + steps x 0.045),
    where height and age are those of the settings, 184 and 30 standing in
    for a field that is absent or zero, and where the step term is 0 when the
    steps are Absent or zero.  For weight 90, steps 10000, height 184 and
    age 30 the result is 2858, and the result never depends on the gender
    field. *)
Theorem calculateEstimatedBurn_spec (settings : Settings.t) :
  let height := or_default (Settings.height settings) (Fin 184) in
  let age := or_default (Settings.age settings) (Fin 30) in
  (forall steps, DataManager.calculateEstimatedBurn None steps settings = None)
  /\ (forall w steps, truthy_num w = false ->
        DataManager.calculateEstimatedBurn (Some w) steps settings = None)
  /\ (forall w st, truthy_num w = true -> truthy_num st = true ->
        DataManager.calculateEstimatedBurn (Some w) (Some st) settings
        = Some (Spec.burn w height age (st * lit 0.045)))
  /\ (forall w steps, truthy_num w = true -> truthy steps = false ->
        DataManager.calculateEstimatedBurn (Some w) steps settings
        = Some (Spec.burn w height age (Fin 0)))
  /\ (Settings.height settings = Some (Fin 184) ->
      Settings.age settings = Some (Fin 30) ->
      DataManager.calculateEstimatedBurn (Some (Fin 90)) (Some (Fin 10000)) settings
      = Some (Fin 2858))
  /\ (forall weight steps g,
        DataManager.calculateEstimatedBurn weight steps (Spec.with_gender g settings)
        = DataManager.calculateEstimatedBurn weight steps settings).
Proof.
  intros height age. unfold DataManager.calculateEstimatedBurn.
  split; [reflexivity|].
  split; [intros w steps ->; reflexivity|].
  split; [intros w st -> ->; reflexivity|].
  split.
  { intros w [st|] -> Hs; simpl in Hs; [rewrite Hs|]; reflexivity. }
  split; [intros -> ->; vm_compute; reflexivity|].
  reflexivity.
Qed.

(** Witness for C6: the default settings, at weight 90 and 10000 steps, and
    at weight 90 without steps. *)
Lemma calculateEstimatedBurn_spec_witness :
  DataManager.calculateEstimatedBurn (Some (Fin 90)) (Some (Fin 10000))
    DataManager.getDefaultSettings = Some (Fin 2858)
  /\ DataManager.calculateEstimatedBurn (Some (Fin 90)) None
       DataManager.getDefaultSettings
     = Some (Spec.burn (Fin 90) (Fin 184) (Fin 30) (Fin 0))
  /\ DataManager.calculateEstimatedBurn (Some (Fin 0)) (Some (Fin 10000))
       DataManager.getDefaultSettings = None.
Proof.
  destruct (calculateEstimatedBurn_spec DataManager.getDefaultSettings)
    as (_ & Hzero & _ & Hnosteps & Hex & _).
  split; [apply Hex; reflexivity|].
  split; [apply Hnosteps; reflexivity|].
  apply Hzero; reflexivity.
Defined.

(** C6, as stated, fails: a weight of 0 is present, the formula gives 1411
    for it at 10000 steps, and [calculateEstimatedBurn] returns Absent. *)
Lemma calculateEstimatedBurn_counterexample :
  DataManager.calculateEstimatedBurn (Some (Fin 0)) (Some (Fin 10000))
    DataManager.getDefaultSettings = None
  /\ Spec.burn (Fin 0) (Fin 184) (Fin 30) (Fin 10000 * lit 0.045) = Fin 1411.
Proof. split; vm_compute; reflexivity. Qed.

(** Two estimates that binary64 puts below the half the exact formula
    reaches: 2350 at 77.5 kg, 6173 steps, 150 cm and 21 years, and 1465 at
    31 kg and 130 steps with the default height and age. *)
Example calculateEstimatedBurn_binary64 :
  let settings := Settings.mk (Some (Fin 90)) (Some (Fin 10000)) (Some (Fin 100))
                    None None (Some (Fin 150)) (Some (Fin 21)) None None in
  DataManager.calculateEstimatedBurn (Some (Fin 77.5)) (Some (Fin 6173)) settings
  = Some (Fin 2350)
  /\ DataManager.calculateEstimatedBurn (Some (Fin 31)) (Some (Fin 130))
       DataManager.getDefaultSettings
     = Some (Fin 1465).
Proof. split; vm_compute; reflexivity. Qed.

(** *** evaluatePFC *)

(** C7, as amended.  For gram counts that are present and not zero (nor
    NaN) and goals whose three fields are present: [evaluatePFC] flags a
    protein deficit when protein - goal < -20, a fat excess when
    fat - goal > 20, a carbs excess when carbs - goal > 50; it returns
    "ideal" when no flag is raised, |protein delta| <= 20 and
    |fat delta| <= 15; "warning" with the labels of the raised flags joined
    in that order when a flag is raised; and Absent otherwise.  On the grams
    {150, 90, 300} against the goals {195, 58, 325} it returns "warning"
    with the protein-deficit and the fat-excess labels, in that order. *)
Theorem evaluatePFC_verdict (p f c gp gf gc : number) (goals : Goals.t) :
  truthy_num p = true -> truthy_num f = true -> truthy_num c = true ->
  Goals.protein goals = Some gp -> Goals.fat goals = Some gf ->
  Goals.carbs goals = Some gc ->
  DataManager.evaluatePFC (Grams.mk (Some p) (Some f) (Some c)) (Some goals)
  = Spec.verdict p f c gp gf gc
  /\ (p = Fin 150 -> f = Fin 90 -> c = Fin 300 ->
      gp = Fin 195 -> gf = Fin 58 -> gc = Fin 325 ->
      DataManager.evaluatePFC (Grams.mk (Some p) (Some f) (Some c)) (Some goals)
      = Some (DataManager.Verdict.mk DataManager.warning
                (join "・" [DataManager.P_deficit; DataManager.F_excess]))).
Proof.
  intros Hp Hf Hc Hgp Hgf Hgc.
  assert (E : DataManager.evaluatePFC (Grams.mk (Some p) (Some f) (Some c)) (Some goals)
              = Spec.verdict p f c gp gf gc).
  { unfold DataManager.evaluatePFC, Spec.verdict.
    cbn [Grams.protein Grams.fat Grams.carbs truthy DataManager.num_of].
    rewrite Hp, Hf, Hc, Hgp, Hgf, Hgc. cbn [negb orb of_undefined].
    destruct (p - gp <? Fin (-20))%js, (f - gf >? Fin 20)%js, (c - gc >? Fin 50)%js;
      reflexivity. }
  split; [exact E|].
  intros -> -> -> -> -> ->. rewrite E. vm_compute. reflexivity.
Qed.

(** Witness for C7: the grams and goals of the claim. *)
Lemma evaluatePFC_verdict_witness :
  DataManager.evaluatePFC
    (Grams.mk (Some (Fin 150)) (Some (Fin 90)) (Some (Fin 300)))
    (Settings.goals DataManager.getDefaultSettings)
  = Some (DataManager.Verdict.mk DataManager.warning "P不足・F過多").
Proof.
  refine (proj2 (evaluatePFC_verdict (Fin 150) (Fin 90) (Fin 300)
                   (Fin 195) (Fin 58) (Fin 325) _ _ _ _ _ _ _) _ _ _ _ _ _);
    reflexivity.
Defined.

(** C7, as stated, fails: zero grams of protein are present, the protein
    delta -195 raises the protein-deficit flag, and [evaluatePFC] returns
    Absent instead of a warning. *)
Lemma evaluatePFC_zero_counterexample :
  DataManager.evaluatePFC
    (Grams.mk (Some (Fin 0)) (Some (Fin 58)) (Some (Fin 325)))
    (Settings.goals DataManager.getDefaultSettings) = None
  /\ Spec.verdict (Fin 0) (Fin 58) (Fin 325) (Fin 195) (Fin 58) (Fin 325)
     = Some (DataManager.Verdict.mk DataManager.warning DataManager.P_deficit).
Proof. split; vm_compute; reflexivity. Qed.

(** A difference as binary64 has it: 70.4 g of fat against a goal of 50.4 g
    is 20.000000000000007 above it, and the fat excess is flagged. *)
Example evaluatePFC_binary64 :
  let goals := {| Goals.calories := Some (Fin 2600); Goals.calories_before_0120 := None;
                  Goals.protein := Some (Fin 195); Goals.fat := Some (lit 50.4);
                  Goals.carbs := Some (Fin 325); Goals.pfc_ratio := None |} in
  DataManager.evaluatePFC
    (Grams.mk (Some (Fin 195)) (Some (lit 70.4)) (Some (Fin 325))) (Some goals)
  = Some (DataManager.Verdict.mk DataManager.warning DataManager.F_excess).
Proof. vm_compute. reflexivity. Qed.

Lemma present_zero_falsy (x : option number) : Spec.present_zero x -> truthy x = false.
Proof. intros (q & -> & Hq). simpl. now rewrite (Qis0_true q Hq). Qed.

(** C10.  When one of the protein, fat and carbs fields of the log is
    missing or is the present value 0, or when the goals are absent,
    [evaluatePFC] returns Absent. *)
Theorem evaluatePFC_zero_is_absent (log : Grams.t) (goals : option Goals.t) :
  (Spec.present_zero (Grams.protein log) \/ Spec.present_zero (Grams.fat log)
   \/ Spec.present_zero (Grams.carbs log)
   \/ Grams.protein log = None \/ Grams.fat log = None \/ Grams.carbs log = None
   \/ goals = None) ->
  DataManager.evaluatePFC log goals = None.
Proof.
  intros H. unfold DataManager.evaluatePFC.
  destruct goals as [g|]; [|reflexivity].
  assert (E : negb (truthy (Grams.protein log)) || negb (truthy (Grams.fat log))
              || negb (truthy (Grams.carbs log)) = true).
  { destruct H as [H|[H|[H|[H|[H|[H|H]]]]]];
      try (apply present_zero_falsy in H; rewrite H);
      try (rewrite H; cbn [truthy]);
      try discriminate;
      repeat (rewrite ?orb_true_r, ?orb_true_l; cbn [negb]); reflexivity. }
  rewrite E. reflexivity.
Qed.

(** Witness for C10: a day with protein and carbs but 0 g of fat. *)
Lemma evaluatePFC_zero_is_absent_witness :
  DataManager.evaluatePFC
    (Grams.mk (Some (Fin 150)) (Some (Fin 0)) (Some (Fin 300)))
    (Settings.goals DataManager.getDefaultSettings) = None.
Proof.
  apply evaluatePFC_zero_is_absent.
  right; left. exists 0%Q. split; reflexivity.
Defined.

(** *** Digits and padding *)

Lemma all_digits_app (a b : string) :
  all_digits (String.append a b) = all_digits a && all_digits b.
Proof.
  unfold all_digits. induction a as [|c a IH]; [reflexivity|].
  simpl. rewrite IH. now rewrite andb_assoc.
Qed.

Lemma string_of_uint_digits (d : Decimal.uint) :
  all_digits (DecimalString.NilEmpty.string_of_uint d) = true.
Proof. unfold all_digits. induction d; simpl; trivial. Qed.

Lemma string_of_N_digits (n : N) : all_digits (string_of_N n) = true.
Proof.
  unfold string_of_N, DecimalString.NilZero.string_of_uint.
  destruct (N.to_uint n) eqn:E; try reflexivity;
    rewrite <- E; apply string_of_uint_digits.
Qed.

Ltac digit_step IH :=
  match goal with
  | |- N_of_digits_from (10 * ?a + digit_val ?c)%N _ = N.pos (Pos.of_uint_acc _ ?p) =>
      let v := eval vm_compute in (digit_val c) in
      change (digit_val c) with v;
      replace (10 * a + v)%N with (N.pos p) by lia;
      apply IH
  end.

Lemma N_of_digits_uint_acc (d : Decimal.uint) (acc : positive) :
  N_of_digits_from (Npos acc) (DecimalString.NilEmpty.string_of_uint d)
  = Npos (Pos.of_uint_acc d acc).
Proof.
  revert acc. induction d; intros acc; cbn [DecimalString.NilEmpty.string_of_uint
    N_of_digits_from Pos.of_uint_acc]; [reflexivity|..]; digit_step IHd.
Qed.

Lemma N_of_digits_uint (d : Decimal.uint) :
  N_of_digits (DecimalString.NilEmpty.string_of_uint d) = N.of_uint d.
Proof.
  unfold N_of_digits, N.of_uint.
  induction d; cbn [DecimalString.NilEmpty.string_of_uint N_of_digits_from Pos.of_uint];
    [reflexivity|exact IHd|..];
    match goal with
    | |- N_of_digits_from (10 * 0 + digit_val ?c)%N _ = N.pos (Pos.of_uint_acc _ ?p) =>
        change (10 * 0 + digit_val c)%N with (N.pos p); apply N_of_digits_uint_acc
    end.
Qed.

Lemma N_of_digits_string_of_N (n : N) : N_of_digits (string_of_N n) = n.
Proof.
  unfold string_of_N, DecimalString.NilZero.string_of_uint.
  rewrite <- (DecimalN.Unsigned.of_to n) at 2.
  destruct (N.to_uint n) eqn:E; try reflexivity;
    rewrite <- E at 1; rewrite N_of_digits_uint; now rewrite E.
Qed.

Lemma repeat_zero_digits (k : nat) (s : string) :
  all_digits (String.append (repeat_char "0" k) s) = all_digits s
  /\ N_of_digits (String.append (repeat_char "0" k) s) = N_of_digits s.
Proof. induction k as [|k [IH1 IH2]]; [split; reflexivity|]. split; [exact IH1|exact IH2]. Qed.

Lemma padStart_digits (n : nat) (s : string) :
  all_digits (padStart n "0" s) = all_digits s.
Proof. apply repeat_zero_digits. Qed.

Lemma padStart_value (n : nat) (s : string) :
  N_of_digits (padStart n "0" s) = N_of_digits s.
Proof. apply repeat_zero_digits. Qed.

Lemma pad_digits (n : nat) (v : Z) : all_digits (JSDate.pad n v) = true.
Proof. unfold JSDate.pad. rewrite padStart_digits. apply string_of_N_digits. Qed.

Lemma pad_value (n : nat) (v : Z) : N_of_digits (JSDate.pad n v) = Z.to_N v.
Proof. unfold JSDate.pad. rewrite padStart_value. apply N_of_digits_string_of_N. Qed.

(** *** Splitting *)

Lemma split_on_absent (sep : ascii) (s : string) :
  forallb (fun c => negb (Ascii.eqb c sep)) (String.list_ascii_of_string s) = true ->
  split_on sep s = [s].
Proof.
  induction s as [|c s IH]; [reflexivity|]. simpl.
  intros H. apply andb_true_iff in H as [Hc Hs].
  apply negb_true_iff in Hc. rewrite Hc, (IH Hs). reflexivity.
Qed.

Lemma split_on_app (sep : ascii) (a b : string) :
  forallb (fun c => negb (Ascii.eqb c sep)) (String.list_ascii_of_string a) = true ->
  split_on sep (String.append a (String sep b)) = a :: split_on sep b.
Proof.
  induction a as [|c a IH]; simpl.
  - intros _. now rewrite Ascii.eqb_refl.
  - intros H. apply andb_true_iff in H as [Hc Hs].
    apply negb_true_iff in Hc. rewrite Hc, (IH Hs). reflexivity.
Qed.

Lemma digits_without (sep : ascii) (s : string) :
  is_digit sep = false -> all_digits s = true ->
  forallb (fun c => negb (Ascii.eqb c sep)) (String.list_ascii_of_string s) = true.
Proof.
  intros Hsep. unfold all_digits. induction s as [|c s IH]; [reflexivity|].
  simpl. intros H. apply andb_true_iff in H as [Hc Hs].
  rewrite (IH Hs), andb_true_r. apply negb_true_iff.
  destruct (Ascii.eqb_spec c sep) as [->|]; [congruence|reflexivity].
Qed.

(** *** Date normalization *)

Create HintDb date_chars.

Lemma date_chars_app (a b : string) :
  Spec.date_chars (String.append a b) = Spec.date_chars a && Spec.date_chars b.
Proof.
  unfold Spec.date_chars. induction a as [|c a IH]; [reflexivity|].
  simpl. rewrite IH. now rewrite andb_assoc.
Qed.

Lemma digits_date_chars (s : string) :
  all_digits s = true -> Spec.date_chars s = true.
Proof.
  unfold all_digits, Spec.date_chars.
  induction s as [|c s IH]; [reflexivity|].
  cbn [String.list_ascii_of_string forallb].
  intros H. apply andb_true_iff in H as [Hc Hs]. apply andb_true_iff. split.
  - unfold Spec.date_char. now rewrite Hc.
  - exact (IH Hs).
Qed.

Lemma dashed_date_chars (y m d : string) :
  Spec.date_chars y = true -> Spec.date_chars m = true -> Spec.date_chars d = true ->
  Spec.date_chars (DataManager.dashed y m d) = true.
Proof.
  intros Hy Hm Hd. unfold DataManager.dashed.
  rewrite date_chars_app, Hy.
  change (String "-" (String.append m (String "-" d)))
    with (String.append "-" (String.append m (String.append "-" d))).
  now rewrite !date_chars_app, Hm, Hd.
Qed.

Lemma date_chars_without (sep : ascii) (s : string) :
  Spec.date_char sep = false -> Spec.date_chars s = true ->
  forallb (fun c => negb (Ascii.eqb c sep)) (String.list_ascii_of_string s) = true.
Proof.
  intros Hsep. unfold Spec.date_chars. induction s as [|c s IH]; [reflexivity|].
  simpl. intros H. apply andb_true_iff in H as [Hc Hs].
  rewrite (IH Hs), andb_true_r. apply negb_true_iff.
  destruct (Ascii.eqb_spec c sep) as [->|]; [congruence|reflexivity].
Qed.

Lemma date_chars_not_Date (s : string) :
  Spec.date_chars s = true -> startsWith "Date(" s = false.
Proof.
  destruct s as [|c s]; [reflexivity|].
  unfold Spec.date_chars. simpl. intros H. apply andb_true_iff in H as [Hc _].
  unfold startsWith. cbn [strip_prefix].
  destruct (Ascii.eqb_spec "D" c) as [<-|]; [discriminate|reflexivity].
Qed.

Lemma date_chars_no_slash (s : string) :
  Spec.date_chars s = true -> split_on "/" s = [s].
Proof. intros H. apply split_on_absent. now apply date_chars_without. Qed.

(** A string of date characters goes through the normalization unchanged. *)
Lemma normalizeDate_canonical (s : string) :
  Spec.date_chars s = true ->
  DataManager.normalizeDate (VStr s) = Ok (VStr s)
  /\ Legacy.normalizeDate (VStr s) = Ok (VStr s).
Proof.
  intros H. unfold DataManager.normalizeDate, Legacy.normalizeDate.
  rewrite (date_chars_not_Date s H).
  unfold DataManager.match_full_slash, DataManager.match_partial_slash.
  rewrite (date_chars_no_slash s H). split; reflexivity.
Qed.

Lemma span_digits_digits (s : string) : all_digits (span_digits s).1 = true.
Proof.
  induction s as [|c s IH]; [reflexivity|]. simpl.
  destruct (is_digit c) eqn:E; [|reflexivity].
  destruct (span_digits s) as [d r]. unfold all_digits in *. simpl in *.
  now rewrite E, IH.
Qed.

Lemma match_Date_at_digits (s g1 g2 g3 : string) :
  DataManager.match_Date_at s = Some (g1, g2, g3) ->
  all_digits g1 = true /\ all_digits g2 = true /\ all_digits g3 = true.
Proof.
  unfold DataManager.match_Date_at.
  destruct (strip_prefix "Date(" s) as [r0|]; [|discriminate].
  pose proof (span_digits_digits r0) as H1.
  destruct (span_digits r0) as [y r1].
  assert (H2 : all_digits (match strip_prefix "," r1 with
                           | Some r2 => span_digits r2
                           | None => (EmptyString, r1)
                           end).1 = true).
  { destruct (strip_prefix "," r1); [apply span_digits_digits|reflexivity]. }
  destruct (match strip_prefix "," r1 with
            | Some r2 => span_digits r2
            | None => (EmptyString, r1)
            end) as [m r3].
  assert (H3 : all_digits (match strip_prefix "," r3 with
                           | Some r4 => span_digits r4
                           | None => (EmptyString, r3)
                           end).1 = true).
  { destruct (strip_prefix "," r3); [apply span_digits_digits|reflexivity]. }
  destruct (match strip_prefix "," r3 with
            | Some r4 => span_digits r4
            | None => (EmptyString, r3)
            end) as [d r5].
  destruct y, m, d, (strip_prefix ")" r5); try discriminate.
  intros [= <- <- <-]. auto.
Qed.

Lemma match_Date_digits (s g1 g2 g3 : string) :
  DataManager.match_Date s = Some (g1, g2, g3) ->
  all_digits g1 = true /\ all_digits g2 = true /\ all_digits g3 = true.
Proof.
  induction s as [|c s IH]; cbn [DataManager.match_Date].
  - destruct (DataManager.match_Date_at EmptyString) eqn:E; [|discriminate].
    intros [= ->]. eapply match_Date_at_digits; eauto.
  - destruct (DataManager.match_Date_at (String c s)) eqn:E.
    + intros [= ->]. eapply match_Date_at_digits; eauto.
    + exact IH.
Qed.

#[local] Hint Resolve digits_date_chars dashed_date_chars pad_digits
  string_of_N_digits : date_chars.

Lemma iso_year_date_chars (y : Z) : Spec.date_chars (JSDate.iso_year y) = true.
Proof.
  unfold JSDate.iso_year. destruct (_ && _).
  - apply digits_date_chars, pad_digits.
  - change (String ?c ?s) with (String.append (String c EmptyString) s).
    rewrite date_chars_app, (digits_date_chars _ (pad_digits 6 (Z.abs y))).
    destruct (y <? 0); reflexivity.
Qed.

Lemma iso_date_date_chars (t : Z) : Spec.date_chars (JSDate.iso_date t) = true.
Proof.
  unfold JSDate.iso_date.
  destruct (JSDate.civil_from_days (t / JSDate.msPerDay)) as [[y m] d].
  apply (dashed_date_chars (JSDate.iso_year y) (JSDate.pad 2 m) (JSDate.pad 2 d));
    auto using iso_year_date_chars with date_chars.
Qed.

Lemma toISOString_date_part (t : Z) :
  hd EmptyString (split_on "T" (JSDate.toISOString t)) = JSDate.iso_date t.
Proof.
  unfold JSDate.toISOString. rewrite split_on_app; [reflexivity|].
  apply date_chars_without; [reflexivity|apply iso_date_date_chars].
Qed.

Lemma d12_digits (s : string) : DataManager.d12 s = true -> all_digits s = true.
Proof.
  unfold DataManager.d12. intros H.
  apply andb_true_iff in H as [H _]. now apply andb_true_iff in H as [H _].
Qed.

(** What the normalization returns is its argument or a string of date
    characters. *)
Lemma normalizeDate_output (v w : value) :
  DataManager.normalizeDate v = Ok w \/ Legacy.normalizeDate v = Ok w ->
  w = v \/ exists s : string, w = VStr s /\ Spec.date_chars s = true.
Proof.
  assert (Hdate : forall s g1 g2 g3,
            DataManager.match_Date s = Some (g1, g2, g3) ->
            Spec.date_chars
              (DataManager.dashed g1
                 (padStart 2 "0" (string_of_N (N_of_digits g2 + 1)))
                 (padStart 2 "0" g3)) = true).
  { intros s g1 g2 g3 Hm. apply match_Date_digits in Hm as (H1 & _ & H3).
    apply dashed_date_chars; apply digits_date_chars; trivial.
    - rewrite padStart_digits. apply string_of_N_digits.
    - now rewrite padStart_digits. }
  assert (Hpartial : forall s,
            DataManager.match_partial_slash s = true ->
            Spec.date_chars
              (DataManager.dashed "2026"
                 (padStart 2 "0" (DataManager.part 0 (split_on "/" s)))
                 (padStart 2 "0" (DataManager.part 1 (split_on "/" s)))) = true).
  { intros s. unfold DataManager.match_partial_slash.
    destruct (split_on "/" s) as [|m [|d [|? ?]]]; try discriminate.
    intros H. apply andb_true_iff in H as [Hm%d12_digits Hd%d12_digits].
    apply dashed_date_chars; [reflexivity|..]; apply digits_date_chars;
      now rewrite padStart_digits. }
  assert (Hfull : forall s,
            DataManager.match_full_slash s = true ->
            Spec.date_chars
              (DataManager.dashed (DataManager.part 0 (split_on "/" s))
                 (padStart 2 "0" (DataManager.part 1 (split_on "/" s)))
                 (padStart 2 "0" (DataManager.part 2 (split_on "/" s)))) = true).
  { intros s. unfold DataManager.match_full_slash.
    destruct (split_on "/" s) as [|y [|m [|d [|? ?]]]]; try discriminate.
    intros H. apply andb_true_iff in H as [H Hd%d12_digits].
    apply andb_true_iff in H as [H Hm%d12_digits].
    apply andb_true_iff in H as [Hy _].
    apply dashed_date_chars; apply digits_date_chars; trivial;
      now rewrite padStart_digits. }
  unfold DataManager.normalizeDate, Legacy.normalizeDate.
  destruct v as [| | n | s | [t|]].
  1-3: intros [[= <-]|[= <-]]; now left.
  - destruct (startsWith "Date(" s).
    + destruct (DataManager.match_Date s) as [[[g1 g2] g3]|] eqn:Em.
      * intros [[= <-]|[= <-]]; right; eauto.
      * intros [[= <-]|[= <-]]; now left.
    + destruct (DataManager.match_full_slash s) eqn:Ef;
        destruct (DataManager.match_partial_slash s) eqn:Ep;
        intros [[= <-]|[= <-]]; (now left) || (right; eauto).
  - rewrite toISOString_date_part.
    intros [[= <-]|[= <-]]; right; eauto using iso_date_date_chars.
  - intros [|]; discriminate.
Qed.

(** What the normalization returns, it returns again for it. *)
Lemma normalizeDate_again (v w : value) :
  (DataManager.normalizeDate v = Ok w -> DataManager.normalizeDate w = Ok w)
  /\ (Legacy.normalizeDate v = Ok w -> Legacy.normalizeDate w = Ok w).
Proof.
  split; intros H.
  - destruct (normalizeDate_output v w (or_introl H)) as [->|(s & -> & Hs)];
      [exact H|apply normalizeDate_canonical, Hs].
  - destruct (normalizeDate_output v w (or_intror H)) as [->|(s & -> & Hs)];
      [exact H|apply normalizeDate_canonical, Hs].
Qed.

Lemma parseRow_date (row : list value) (entry : Entry.t) :
  (DataManager.parseRow row = Ok (Some entry) ->
   DataManager.normalizeDate (Entry.date entry) = Ok (Entry.date entry))
  /\ (Legacy.parseRow row = Ok (Some entry) ->
      Legacy.normalizeDate (Entry.date entry) = Ok (Entry.date entry)).
Proof.
  unfold DataManager.parseRow, Legacy.parseRow.
  destruct (negb (ToBoolean (DataManager.cell row 0))); [split; discriminate|].
  split.
  - destruct (DataManager.normalizeDate (DataManager.cell row 0)) as [w|] eqn:E;
      [|discriminate].
    cbn [bind]. intros [= <-]. cbn [Entry.date].
    now apply (normalizeDate_again (DataManager.cell row 0) w).
  - destruct (Legacy.normalizeDate (DataManager.cell row 0)) as [w|] eqn:E;
      [|discriminate].
    cbn [bind]. intros [= <-]. cbn [Entry.date].
    now apply (normalizeDate_again (DataManager.cell row 0) w).
Qed.

Lemma parseRows_dates (rows : list (list value)) (data entries : list Entry.t) :
  DataManager.parseRows rows data = Ok entries ->
  Forall (fun e => DataManager.normalizeDate (Entry.date e) = Ok (Entry.date e)) data ->
  Forall (fun e => DataManager.normalizeDate (Entry.date e) = Ok (Entry.date e)) entries.
Proof.
  revert data. induction rows as [|row rows IH]; intros data; cbn [DataManager.parseRows].
  - intros [= <-]. trivial.
  - destruct (DataManager.parseRow row) as [[entry|]|] eqn:E; cbn [bind];
      [|apply IH|discriminate].
    intros H Hdata. apply (IH _ H). apply Forall_app. split; [exact Hdata|].
    constructor; [|constructor]. now apply (parseRow_date row entry).
Qed.

Lemma legacy_parseRows_dates (rows : list (list value)) (data entries : list Entry.t) :
  Legacy.parseRows rows data = Ok entries ->
  Forall (fun e => Legacy.normalizeDate (Entry.date e) = Ok (Entry.date e)) data ->
  Forall (fun e => Legacy.normalizeDate (Entry.date e) = Ok (Entry.date e)) entries.
Proof.
  revert data. induction rows as [|row rows IH]; intros data; cbn [Legacy.parseRows].
  - intros [= <-]. trivial.
  - destruct (Legacy.parseRow row) as [[entry|]|] eqn:E; cbn [bind];
      [|apply IH|discriminate].
    intros H Hdata. apply (IH _ H). apply Forall_app. split; [exact Hdata|].
    constructor; [|constructor]. now apply (parseRow_date row entry).
Qed.

(** C9.  The date normalization of the row parser returns for every value
    but an invalid [Date] object, and what it returns it returns again when
    applied to its own result: normalizing twice is normalizing once.  So
    the normalization leaves the date field of every entry the row parser
    produces as it is.  Both hold for the row parser of either copy of the
    data module. *)
Theorem normalizeDate_idempotent :
  (forall v : value, v <> VDate None ->
     exists w, DataManager.normalizeDate v = Ok w
               /\ DataManager.normalizeDate w = Ok w)
  /\ (forall v : value, v <> VDate None ->
        exists w, Legacy.normalizeDate v = Ok w /\ Legacy.normalizeDate w = Ok w)
  /\ (forall rows entries, DataManager.parseInputSheet rows = Ok entries ->
        Forall (fun e => DataManager.normalizeDate (Entry.date e) = Ok (Entry.date e))
               entries)
  /\ (forall rows entries, Legacy.parseInputSheet rows = Ok entries ->
        Forall (fun e => Legacy.normalizeDate (Entry.date e) = Ok (Entry.date e))
               entries).
Proof.
  split; [|split; [|split]].
  - intros v Hv.
    assert (exists w, DataManager.normalizeDate v = Ok w) as [w Hw].
    { unfold DataManager.normalizeDate.
      destruct v as [| | n | s | [t|]]; eauto; [|congruence].
      repeat (match goal with |- context [if ?b then _ else _] => destruct b end);
        try destruct (DataManager.match_Date s) as [[[? ?] ?]|]; eauto. }
    exists w. split; [exact Hw|]. now apply (normalizeDate_again v w).
  - intros v Hv.
    assert (exists w, Legacy.normalizeDate v = Ok w) as [w Hw].
    { unfold Legacy.normalizeDate.
      destruct v as [| | n | s | [t|]]; eauto; [|congruence].
      repeat (match goal with |- context [if ?b then _ else _] => destruct b end);
        try destruct (DataManager.match_Date s) as [[[? ?] ?]|]; eauto. }
    exists w. split; [exact Hw|]. now apply (normalizeDate_again v w).
  - intros rows entries. unfold DataManager.parseInputSheet.
    destruct (length rows <? 2)%nat; [intros [= <-]; constructor|].
    intros H. apply (parseRows_dates _ [] _ H). constructor.
  - intros rows entries. unfold Legacy.parseInputSheet.
    destruct (length rows <? 2)%nat; [intros [= <-]; constructor|].
    intros H. apply (legacy_parseRows_dates _ [] _ H). constructor.
Qed.

(** Witness for C9: the four shapes the parser knows, and a sheet of three
    rows. *)
Lemma normalizeDate_idempotent_witness :
  (exists w, DataManager.normalizeDate (VStr "Date(2026,0,8)") = Ok w
             /\ DataManager.normalizeDate w = Ok w)
  /\ (exists w, DataManager.normalizeDate (VStr "2026/1/8") = Ok w
                /\ DataManager.normalizeDate w = Ok w)
  /\ (exists w, DataManager.normalizeDate (VStr "1/8") = Ok w
                /\ DataManager.normalizeDate w = Ok w)
  /\ (exists w, DataManager.normalizeDate (VDate (Some 1767830400000)) = Ok w
                /\ DataManager.normalizeDate w = Ok w)
  /\ Forall (fun e => DataManager.normalizeDate (Entry.date e) = Ok (Entry.date e))
       [Entry.mk (VStr "2026-01-08") (Some (Fin 119.2)) None None None
                 None None None (VStr EmptyString);
        Entry.mk (VStr "2026-01-09") (Some (Fin 0)) None (Some (Fin 8000)) None
                 None None None (VStr "rest day")].
Proof.
  destruct normalizeDate_idempotent as (Hn & _ & Hp & _).
  repeat split; try (apply Hn; discriminate).
  apply (Hp [[VStr "date"; VStr "weight"];
             [VStr "Date(2026,0,8)"; VNum (Fin 119.2)];
             [VNull; VNum (Fin 80)];
             [VStr "1/9"; VStr "0"; VStr EmptyString; VNum (Fin 8000);
              VStr "x"; VStr "rest day"]]).
  vm_compute. reflexivity.
Defined.

(** The four shapes all normalize to the same canonical string. *)
Example normalizeDate_examples :
  DataManager.normalizeDate (VStr "Date(2026,0,8)") = Ok (VStr "2026-01-08")
  /\ DataManager.normalizeDate (VStr "2026/1/8") = Ok (VStr "2026-01-08")
  /\ DataManager.normalizeDate (VStr "1/8") = Ok (VStr "2026-01-08")
  /\ DataManager.normalizeDate (VDate (Some 1767830400000)) = Ok (VStr "2026-01-08")
  /\ DataManager.normalizeDate (VStr "2026-01-08") = Ok (VStr "2026-01-08")
  /\ Legacy.normalizeDate (VStr "2026/1/8") = Ok (VStr "2026/1/8").
Proof. repeat split; vm_compute; reflexivity. Qed.

(** *** Calendar days and their format *)

Lemma days_in_month_range (y m : Z) : 28 <= JSDate.days_in_month y m <= 31.
Proof. unfold JSDate.days_in_month. destruct (JSDate.leap y); repeat case_match; lia. Qed.

(** The day before a date is an earlier date, a year back at most, and then
    it is 31 December. *)
Lemma prev_day_earlier (c : JSDate.civil) :
  1 <= JSDate.month c <= 12 -> 1 <= JSDate.day c ->
  let p := JSDate.prev_day c in
  Spec.earlier p c
  /\ 1 <= JSDate.month p <= 12 /\ 1 <= JSDate.day p
  /\ JSDate.year c - 1 <= JSDate.year p <= JSDate.year c
  /\ (JSDate.year p < JSDate.year c -> JSDate.day p = 31).
Proof.
  intros Hm Hd. unfold JSDate.prev_day, Spec.earlier.
  pose proof (days_in_month_range (JSDate.year c) (JSDate.month c - 1)).
  destruct (Z.ltb_spec 1 (JSDate.day c)); [cbn; lia|].
  destruct (Z.ltb_spec 1 (JSDate.month c)); cbn; lia.
Qed.

Lemma earlier_neq (a b : JSDate.civil) : Spec.earlier a b -> a <> b.
Proof. unfold Spec.earlier. intros H ->. lia. Qed.

Lemma earlier_trans (a b c : JSDate.civil) :
  Spec.earlier a b -> Spec.earlier b c -> Spec.earlier a c.
Proof. unfold Spec.earlier. lia. Qed.

(** One and two days before a valid date: earlier dates, of fields that are
    not negative. *)
Lemma subtract_days_earlier (today : JSDate.civil) (i : nat) :
  JSDate.valid_civil today -> (0 < i < 3)%nat ->
  let c := JSDate.subtract_days i today in
  Spec.earlier c today
  /\ 0 <= JSDate.year c /\ 0 <= JSDate.month c /\ 0 <= JSDate.day c.
Proof.
  intros (Hy & Hm & Hd) Hi.
  destruct (prev_day_earlier today Hm ltac:(lia)) as (E1 & Hm1 & Hd1 & Hy1 & Hx1).
  destruct (prev_day_earlier (JSDate.prev_day today) Hm1 Hd1)
    as (E2 & Hm2 & Hd2 & Hy2 & Hx2).
  assert (Hi' : i = 1%nat \/ i = 2%nat) by lia.
  destruct Hi' as [-> | ->]; cbn [JSDate.subtract_days]; cbn zeta.
  - repeat split; [exact E1|lia..].
  - repeat split; [eapply earlier_trans; eassumption| |lia..].
    destruct (Z.ltb_spec (JSDate.year (JSDate.prev_day today)) (JSDate.year today)) as [Hlt|Hge].
    + specialize (Hx1 Hlt). unfold JSDate.prev_day at 1.
      destruct (Z.ltb_spec 1 (JSDate.day (JSDate.prev_day today))); [cbn; lia|lia].
    + lia.
Qed.

Lemma read_dashed_format (c : JSDate.civil) :
  Spec.read_dashed (JSDate.format_YYYY_MM_DD c)
  = [Z.to_N (JSDate.year c); Z.to_N (JSDate.month c); Z.to_N (JSDate.day c)].
Proof.
  unfold Spec.read_dashed, JSDate.format_YYYY_MM_DD.
  rewrite split_on_app by (apply digits_without; [reflexivity|apply pad_digits]).
  rewrite split_on_app by (apply digits_without; [reflexivity|apply pad_digits]).
  rewrite split_on_absent by (apply digits_without; [reflexivity|apply pad_digits]).
  cbn [map]. now rewrite !pad_value.
Qed.

(** Two dates of fields that are not negative have the same format only when
    they are the same date. *)
Lemma format_YYYY_MM_DD_inj (a b : JSDate.civil) :
  0 <= JSDate.year a -> 0 <= JSDate.month a -> 0 <= JSDate.day a ->
  0 <= JSDate.year b -> 0 <= JSDate.month b -> 0 <= JSDate.day b ->
  JSDate.format_YYYY_MM_DD a = JSDate.format_YYYY_MM_DD b -> a = b.
Proof.
  intros ? ? ? ? ? ? E. apply (f_equal Spec.read_dashed) in E.
  rewrite !read_dashed_format in E. injection E as Ey Em Ed.
  destruct a, b; cbn in *. f_equal; lia.
Qed.

Lemma format_earlier_day (today : JSDate.civil) (i : nat) :
  JSDate.valid_civil today -> (0 < i < 3)%nat ->
  JSDate.format_YYYY_MM_DD (JSDate.subtract_days i today)
  <> JSDate.format_YYYY_MM_DD today.
Proof.
  intros Hv Hi E.
  destruct (subtract_days_earlier today i Hv Hi) as (He & ? & ? & ?).
  destruct Hv as (? & ? & ?).
  apply format_YYYY_MM_DD_inj in E; try lia.
  now apply earlier_neq in He.
Qed.

(** *** checkDataCompleteness *)

Section Completeness.

Variables (logs : list Entry.t) (meals : option MealsByDate) (today : JSDate.civil).

(** The date string of the day [i] days before the reference date, and what
    the turn of the loop for that day adds. *)
Local Abbreviation day_of i := (JSDate.format_YYYY_MM_DD (JSDate.subtract_days i today)).
Local Abbreviation added i := (App.check_step logs meals today [] i).

Lemma check_step_app (warnings : list App.Warning.t) (i : nat) :
  App.check_step logs meals today warnings i = warnings ++ added i.
Proof.
  unfold App.check_step, DataManager.push.
  destruct (find _ logs) as [log|].
  - destruct (i =? 0)%nat.
    + destruct (0 <? length _)%nat; [reflexivity|now rewrite app_nil_r].
    + destruct (truthy (Entry.calories_intake log) && _);
        destruct (0 <? length _)%nat; cbn [app];
        rewrite <- ?app_assoc, ?app_nil_r; reflexivity.
  - destruct (0 <? i)%nat; [reflexivity|now rewrite app_nil_r].
Qed.

Lemma checkDataCompleteness_added :
  App.checkDataCompleteness logs meals today = added 0 ++ added 1 ++ added 2.
Proof.
  unfold App.checkDataCompleteness. cbn [fold_left].
  rewrite (check_step_app (App.check_step logs meals today (added 0) 1) 2).
  rewrite (check_step_app (added 0) 1).
  now rewrite app_assoc.
Qed.

Lemma added_dateStr (i : nat) (w : App.Warning.t) :
  In w (added i) -> App.Warning.dateStr w = day_of i.
Proof.
  unfold App.check_step, DataManager.push.
  destruct (find _ logs) as [log|].
  - destruct (i =? 0)%nat.
    + destruct (0 <? length _)%nat; cbn [app In]; intuition (subst; reflexivity).
    + destruct (truthy (Entry.calories_intake log) && _);
        destruct (0 <? length _)%nat; cbn [app In]; intuition (subst; reflexivity).
  - destruct (0 <? i)%nat; cbn [app In]; intuition (subst; reflexivity).
Qed.

(** What the turn of a day with a log entry adds: on a day before the
    reference date the missing-meals warning, when there are calories and
    no meal details; then the missing-fields warning, when a field is
    flagged. *)
Lemma added_logged (i : nat) (log : Entry.t) :
  find (App.date_is (day_of i)) logs = Some log ->
  added i
  = (if (0 <? i)%nat && truthy (Entry.calories_intake log)
        && negb match meals with
                | Some m => bool_decide (is_Some (m !! day_of i))
                | None => false
                end
     then [App.Warning.mk (JSDate.format_M_D_ddd (JSDate.subtract_days i today))
             (day_of i) App.missing_meals App.missing_meals_message]
     else [])
    ++ match Spec.missing_of i log with
       | [] => []
       | fields =>
           [App.Warning.mk (JSDate.format_M_D_ddd (JSDate.subtract_days i today))
              (day_of i) App.missing_fields (Spec.missing_text fields)]
       end.
Proof.
  intros Hfind. unfold App.check_step. rewrite Hfind.
  unfold App.push_if, DataManager.push, Spec.missing_of.
  destruct (match meals with
            | Some m => bool_decide (is_Some (m !! day_of i))
            | None => false
            end);
    destruct i as [|i]; cbn [Nat.eqb Nat.ltb Nat.leb andb negb];
    destruct (truthy (Entry.weight log)), (truthy (Entry.waist log));
    try (destruct (truthy (Entry.calories_intake log)));
    try (destruct (Entry.steps log) as [st|]);
    reflexivity.
Qed.

Lemma added_unlogged_reference :
  find (App.date_is (day_of 0)) logs = None -> added 0 = [].
Proof. intros Hfind. unfold App.check_step. rewrite Hfind. reflexivity. Qed.

(** The turn of the reference date adds at most a missing-fields warning,
    whose text lists the weight when it is missing and the waist when it is
    missing, and nothing else. *)
Lemma added_reference (w : App.Warning.t) :
  In w (added 0) ->
  App.Warning.type w = App.missing_fields
  /\ exists log : Entry.t,
       find (App.date_is (day_of 0)) logs = Some log
       /\ App.Warning.message w = Spec.missing_text (Spec.missing_of 0 log)
       /\ incl (Spec.missing_of 0 log) [Spec.Weight; Spec.Waist].
Proof.
  destruct (find (App.date_is (day_of 0)) logs) as [log|] eqn:Hfind.
  - rewrite (added_logged 0 log Hfind). cbn [Nat.ltb Nat.leb andb app].
    assert (Hincl : incl (Spec.missing_of 0 log) [Spec.Weight; Spec.Waist]).
    { unfold Spec.missing_of.
      destruct (truthy (Entry.weight log)), (truthy (Entry.waist log));
        cbn [app]; intros x Hx; cbn [In] in *; tauto. }
    destruct (Spec.missing_of 0 log) as [|f fields] eqn:E; [intros []|].
    intros [<-|[]]. split; [reflexivity|]. exists log. rewrite E.
    repeat split; trivial.
  - rewrite (added_unlogged_reference Hfind). intros [].
Qed.

(** On each of the three days that has a log entry with a flagged field, the
    missing-fields warning of the day is there, with the text of the flagged
    fields. *)
Lemma added_flags (i : nat) (log : Entry.t) :
  find (App.date_is (day_of i)) logs = Some log ->
  Spec.missing_of i log <> [] ->
  exists w,
    In w (added i) /\ App.Warning.dateStr w = day_of i
    /\ App.Warning.type w = App.missing_fields
    /\ App.Warning.message w = Spec.missing_text (Spec.missing_of i log).
Proof.
  intros Hfind Hmiss. rewrite (added_logged i log Hfind).
  destruct (Spec.missing_of i log) as [|f fields]; [congruence|].
  eexists. split; [apply in_app_iff; right; left; reflexivity|].
  repeat split.
Qed.

Lemma missing_of_flags (i : nat) (log : Entry.t) :
  (truthy (Entry.weight log) = false -> In Spec.Weight (Spec.missing_of i log))
  /\ (truthy (Entry.waist log) = false -> In Spec.Waist (Spec.missing_of i log))
  /\ (In Spec.Calories (Spec.missing_of i log) \/ In Spec.Steps (Spec.missing_of i log) ->
      (0 < i)%nat).
Proof.
  unfold Spec.missing_of. split; [|split].
  - intros ->. left. reflexivity.
  - intros ->. apply in_app_iff. right. left. reflexivity.
  - destruct i as [|i]; [|lia].
    destruct (truthy (Entry.weight log)), (truthy (Entry.waist log));
      cbn [app In]; intros [H|H]; intuition discriminate.
Qed.

(** A day before the reference date without a log entry is flagged as a day
    without data. *)
Lemma added_no_data (i : nat) :
  (0 < i)%nat -> find (App.date_is (day_of i)) logs = None ->
  exists w, In w (added i) /\ App.Warning.dateStr w = day_of i
            /\ App.Warning.type w = App.no_data.
Proof.
  intros Hi Hfind. unfold App.check_step. rewrite Hfind.
  apply Nat.ltb_lt in Hi. rewrite Hi.
  eexists. split; [left; reflexivity|]. split; reflexivity.
Qed.

End Completeness.

(** C8.  With [today] the reference date and the three checked days
    [today], [today - 1] and [today - 2]: every warning is about one of the
    three days; a warning about the reference date is a missing-fields
    warning whose text lists the weight and the waist that its log entry
    misses and nothing else, so the reference date never gets the no-data
    warning (log entry or not) nor a warning for calories, steps or meal
    details, which go to the two days before only; on each of the three days
    that has a log entry a missing weight and a missing waist are among the
    flagged fields, missing calories and steps on the two days before only,
    and the text of the day's missing-fields warning is the labels of the
    flagged fields inside the warning-missing span; and a day before the
    reference date without a log entry gets the no-data warning. *)
Theorem checkDataCompleteness_reference_date (logs : list Entry.t)
    (meals : option MealsByDate) (today : JSDate.civil) :
  JSDate.valid_civil today ->
  let day i := JSDate.format_YYYY_MM_DD (JSDate.subtract_days i today) in
  let warnings := App.checkDataCompleteness logs meals today in
  (forall w, In w warnings ->
     App.Warning.dateStr w = day 0%nat \/ App.Warning.dateStr w = day 1%nat
     \/ App.Warning.dateStr w = day 2%nat)
  /\ (forall w, In w warnings -> App.Warning.dateStr w = day 0%nat ->
        App.Warning.type w = App.missing_fields
        /\ exists log : Entry.t,
             find (App.date_is (day 0%nat)) logs = Some log
             /\ App.Warning.message w = Spec.missing_text (Spec.missing_of 0 log)
             /\ incl (Spec.missing_of 0 log) [Spec.Weight; Spec.Waist])
  /\ (forall w, In w warnings ->
        App.Warning.type w = App.no_data \/ App.Warning.type w = App.missing_meals ->
        App.Warning.dateStr w <> day 0%nat
        /\ (App.Warning.dateStr w = day 1%nat \/ App.Warning.dateStr w = day 2%nat))
  /\ (forall (i : nat) (log : Entry.t), (i < 3)%nat ->
        find (App.date_is (day i)) logs = Some log ->
        (truthy (Entry.weight log) = false -> In Spec.Weight (Spec.missing_of i log))
        /\ (truthy (Entry.waist log) = false -> In Spec.Waist (Spec.missing_of i log))
        /\ (In Spec.Calories (Spec.missing_of i log)
            \/ In Spec.Steps (Spec.missing_of i log) -> (0 < i)%nat)
        /\ (Spec.missing_of i log <> [] ->
            exists w,
              In w warnings /\ App.Warning.dateStr w = day i
              /\ App.Warning.type w = App.missing_fields
              /\ App.Warning.message w = Spec.missing_text (Spec.missing_of i log)))
  /\ (forall i : nat, (0 < i < 3)%nat ->
        find (App.date_is (day i)) logs = None ->
        exists w, In w warnings /\ App.Warning.dateStr w = day i
                  /\ App.Warning.type w = App.no_data).
Proof.
  intros Hvalid day warnings.
  assert (Hin : forall w, In w warnings <->
            exists i, (i < 3)%nat /\ In w (App.check_step logs meals today [] i)).
  { intros w. unfold warnings. rewrite checkDataCompleteness_added, !in_app_iff.
    split.
    - intros [H|[H|H]]; [exists 0%nat|exists 1%nat|exists 2%nat]; split; trivial; lia.
    - intros (i & Hi & H).
      assert (Hi' : i = 0%nat \/ i = 1%nat \/ i = 2%nat) by lia.
      destruct Hi' as [->|[->| ->]]; tauto. }
  assert (Hday : forall w i, In w (App.check_step logs meals today [] i) ->
            App.Warning.dateStr w = day i).
  { intros w i. apply added_dateStr. }
  assert (Hneq : forall i, (0 < i < 3)%nat -> day i <> day 0%nat).
  { intros i Hi. apply (format_earlier_day today i Hvalid Hi). }
  assert (Href : forall w, In w warnings -> App.Warning.dateStr w = day 0%nat ->
            In w (App.check_step logs meals today [] 0)).
  { intros w Hw E. apply Hin in Hw as (i & Hi & Hw).
    destruct i as [|i]; [exact Hw|].
    apply Hday in Hw. exfalso. apply (Hneq (S i)); [lia|congruence]. }
  split; [|split; [|split; [|split]]].
  - intros w Hw. apply Hin in Hw as (i & Hi & Hw). apply Hday in Hw.
    assert (Hi' : i = 0%nat \/ i = 1%nat \/ i = 2%nat) by lia.
    destruct Hi' as [->|[->| ->]]; tauto.
  - intros w Hw E. apply (added_reference logs meals today). now apply Href.
  - intros w Hw Ht.
    assert (Hnot : App.Warning.dateStr w <> day 0%nat).
    { intros E. pose proof (Href w Hw E) as Hr.
      apply (added_reference logs meals today) in Hr as [Hr _].
      rewrite Hr in Ht. destruct Ht; discriminate. }
    split; [exact Hnot|].
    apply Hin in Hw as (i & Hi & Hw). apply Hday in Hw.
    assert (Hi' : i = 0%nat \/ i = 1%nat \/ i = 2%nat) by lia.
    destruct Hi' as [->|[->| ->]]; tauto.
  - intros i log Hi Hfind.
    destruct (missing_of_flags i log) as (Hweight & Hwaist & Hbefore).
    split; [exact Hweight|]. split; [exact Hwaist|]. split; [exact Hbefore|].
    intros Hmiss.
    destruct (added_flags logs meals today i log Hfind Hmiss) as (w & Hw & H).
    exists w. split; [apply Hin; eauto|exact H].
  - intros i Hi Hfind.
    destruct (added_no_data logs meals today i ltac:(lia) Hfind) as (w & Hw & H).
    exists w. split; [apply Hin; exists i; split; [lia|exact Hw]|exact H].
Qed.

(** Witness for C8: on 2 November 2026, with a log entry for the day itself
    without weight and waist, none for the day before, and one for
    31 October without waist and steps, and no meal file: the reference date
    is flagged for weight and waist, the day before has no data, and
    31 October is flagged for its meal details and for waist and steps. *)
Lemma checkDataCompleteness_reference_date_witness :
  let today := JSDate.mkCivil 2026 11 2 in
  let entry d w := Entry.mk (VStr d) w None None (Some (Fin 2000))
                            None None None (VStr EmptyString) in
  let logs := [entry "2026-11-02" None; entry "2026-10-31" (Some (Fin 95))] in
  let warnings := App.checkDataCompleteness logs None today in
  (forall w, In w warnings -> App.Warning.type w = App.no_data ->
     App.Warning.dateStr w <> "2026-11-02")
  /\ (exists w, In w warnings /\ App.Warning.dateStr w = "2026-11-01"
                /\ App.Warning.type w = App.no_data)
  /\ map App.Warning.dateStr warnings
     = ["2026-11-02"; "2026-11-01"; "2026-10-31"; "2026-10-31"]
  /\ map App.Warning.message warnings
     = [Spec.missing_text [Spec.Weight; Spec.Waist]; App.no_data_message;
        App.missing_meals_message; Spec.missing_text [Spec.Waist; Spec.Steps]].
Proof.
  intros today entry logs warnings.
  assert (Hv : JSDate.valid_civil today) by (vm_compute; intuition discriminate).
  destruct (checkDataCompleteness_reference_date logs None today Hv)
    as (_ & _ & Hbefore & _ & Hnodata).
  split; [|split; [|split]].
  - intros w Hw Ht. apply (Hbefore w Hw). now left.
  - apply (Hnodata 1%nat); [lia|reflexivity].
  - vm_compute. reflexivity.
  - vm_compute. reflexivity.
Defined.

(* ===================================================================== *)
(** ** Further properties of the data module *)
(* ===================================================================== *)

(** *** parseInputSheet: rows and entries *)

(** The loop started on [data] returns what it returns started on the
    empty array, after [data]. *)
Lemma parseRows_from (rows : list (list value)) (data : list Entry.t) :
  DataManager.parseRows rows data
  = bind (DataManager.parseRows rows []) (fun entries => Ok (data ++ entries)).
Proof.
  revert data. induction rows as [|row rows IH]; intros data; cbn [DataManager.parseRows].
  - cbn. now rewrite app_nil_r.
  - destruct (DataManager.parseRow row) as [[entry|]|e]; cbn [bind].
    + rewrite (IH (data ++ [entry])), (IH ([] ++ [entry])).
      destruct (DataManager.parseRows rows []); cbn [bind]; [|reflexivity].
      now rewrite <- app_assoc.
    + apply IH.
    + reflexivity.
Qed.

Lemma parseRows_app (a b : list (list value)) (ea eb : list Entry.t) :
  DataManager.parseRows a [] = Ok ea -> DataManager.parseRows b [] = Ok eb ->
  DataManager.parseRows (a ++ b) [] = Ok (ea ++ eb).
Proof.
  revert ea. induction a as [|row a IH]; intros ea; cbn [app DataManager.parseRows].
  - intros [= <-] Hb. exact Hb.
  - destruct (DataManager.parseRow row) as [[entry|]|e]; cbn [bind]; [| |discriminate].
    + rewrite (parseRows_from a [entry]), (parseRows_from (a ++ b) [entry]).
      destruct (DataManager.parseRows a []) as [ea'|] eqn:Ea; cbn [bind]; [|discriminate].
      intros [= <-] Hb. rewrite (IH ea' eq_refl Hb). reflexivity.
    + apply IH.
Qed.

Lemma parseInputSheet_cons (header : list value) (rows : list (list value)) :
  DataManager.parseInputSheet (header :: rows) = DataManager.parseRows rows [].
Proof.
  unfold DataManager.parseInputSheet. destruct rows as [|row rows]; reflexivity.
Qed.

(** X1.  Parsing a sheet whose data rows are [a] followed by [b] gives the
    entries of [a] followed by those of [b]: the parser works row by row and
    keeps the order of the sheet. *)
Theorem parseInputSheet_app (header : list value) (a b : list (list value))
    (ea eb : list Entry.t) :
  DataManager.parseInputSheet (header :: a) = Ok ea ->
  DataManager.parseInputSheet (header :: b) = Ok eb ->
  DataManager.parseInputSheet (header :: a ++ b) = Ok (ea ++ eb).
Proof. rewrite !parseInputSheet_cons. apply parseRows_app. Qed.

Lemma parseInputSheet_app_witness :
  DataManager.parseInputSheet
    ([VStr "date"; VStr "weight"]
     :: [[VStr "1/8"; VNum (Fin 100)]] ++ [[VStr "1/9"; VNum (Fin 99)]])
  = Ok ([Entry.mk (VStr "2026-01-08") (Some (Fin 100)) None None None
                  None None None (VStr EmptyString)]
        ++ [Entry.mk (VStr "2026-01-09") (Some (Fin 99)) None None None
                     None None None (VStr EmptyString)]).
Proof. apply parseInputSheet_app; reflexivity. Defined.

(** The normalization returns for every value but an invalid [Date]. *)
Lemma normalizeDate_returns (v : value) :
  v <> VDate None -> exists w, DataManager.normalizeDate v = Ok w.
Proof.
  intros Hv. unfold DataManager.normalizeDate.
  destruct v as [| | n | s | [t|]]; eauto; [|congruence].
  repeat (match goal with |- context [if ?b then _ else _] => destruct b end);
    try destruct (DataManager.match_Date s) as [[[? ?] ?]|]; eauto.
Qed.

(** A row is dated when its first cell is truthy, and readable when that
    cell is not an invalid [Date] object. *)
Lemma parseRow_cases (row : list value) :
  (ToBoolean (DataManager.cell row 0) = false -> DataManager.parseRow row = Ok None)
  /\ (ToBoolean (DataManager.cell row 0) = true ->
      DataManager.cell row 0 <> VDate None ->
      exists entry, DataManager.parseRow row = Ok (Some entry))
  /\ (DataManager.cell row 0 = VDate None ->
      DataManager.parseRow row = Throw RangeError).
Proof.
  unfold DataManager.parseRow. repeat split.
  - intros ->. reflexivity.
  - intros -> Hv. cbn [negb].
    destruct (normalizeDate_returns _ Hv) as (w & ->). cbn [bind]. eauto.
  - intros ->. reflexivity.
Qed.

Lemma parseRows_outcome (rows : list (list value)) :
  (Forall (fun row => DataManager.cell row 0 <> VDate None) rows ->
   exists entries,
     DataManager.parseRows rows [] = Ok entries
     /\ length entries
        = length (List.filter (fun row => ToBoolean (DataManager.cell row 0)) rows))
  /\ (Exists (fun row => DataManager.cell row 0 = VDate None) rows ->
      DataManager.parseRows rows [] = Throw RangeError).
Proof.
  induction rows as [|row rows [IHok IHthrow]]; split.
  - intros _. exists []. split; reflexivity.
  - intros H. inversion H.
  - intros H. inversion H as [|? ? Hrow Hrows]; subst.
    destruct (IHok Hrows) as (entries & He & Hlen).
    destruct (parseRow_cases row) as (Hskip & Hkeep & _).
    cbn [DataManager.parseRows List.filter].
    destruct (ToBoolean (DataManager.cell row 0)) eqn:Ht.
    + destruct (Hkeep eq_refl Hrow) as (entry & ->). cbn [bind].
      rewrite parseRows_from, He. cbn [bind app].
      eexists. split; [reflexivity|]. cbn [length]. now rewrite Hlen.
    + rewrite (Hskip eq_refl). cbn [bind]. eauto.
  - intros H. cbn [DataManager.parseRows].
    destruct (parseRow_cases row) as (Hskip & Hkeep & Hbad).
    inversion H as [? ? Hrow|? ? Hrows]; subst.
    + now rewrite (Hbad Hrow).
    + destruct (DataManager.parseRow row) as [[entry|]|[]]; cbn [bind];
        [|now apply IHthrow|reflexivity].
      rewrite parseRows_from, (IHthrow Hrows). reflexivity.
Qed.

(** X2.  When no data row starts with an invalid [Date] object,
    [parseInputSheet] returns, with one entry for each data row whose first
    cell is truthy and none for the others: the header row and the rows
    without a date give no entry, so there are at most [rows.length - 1]
    entries.  When a data row starts with an invalid [Date] object, the call
    ends in the RangeError of [toISOString]. *)
Theorem parseInputSheet_outcome (rows : list (list value)) :
  (Forall (fun row => DataManager.cell row 0 <> VDate None) (tl rows) ->
   exists entries,
     DataManager.parseInputSheet rows = Ok entries
     /\ length entries
        = length (List.filter (fun row => ToBoolean (DataManager.cell row 0)) (tl rows))
     /\ (length entries <= length rows - 1)%nat)
  /\ (Exists (fun row => DataManager.cell row 0 = VDate None) (tl rows) ->
      DataManager.parseInputSheet rows = Throw RangeError).
Proof.
  destruct rows as [|header rows].
  - split; [|intros H; inversion H].
    intros _. exists []. repeat split. cbn. lia.
  - rewrite parseInputSheet_cons. cbn [tl].
    destruct (parseRows_outcome rows) as [Hok Hthrow]. split; [|exact Hthrow].
    intros H. destruct (Hok H) as (entries & He & Hlen).
    exists entries. repeat split; trivial.
    rewrite Hlen. cbn [length]. rewrite Nat.sub_succ, Nat.sub_0_r.
    apply List.filter_length_le.
Qed.

Lemma parseInputSheet_outcome_witness :
  (exists entries,
     DataManager.parseInputSheet
       [[VStr "date"; VStr "weight"]; [VStr "1/8"; VNum (Fin 100)];
        [VStr EmptyString; VNum (Fin 99)]; [VNull]; [VStr "1/9"]] = Ok entries
     /\ length entries = 2%nat)
  /\ DataManager.parseInputSheet
       [[VStr "date"]; [VStr "1/8"]; [VDate None]] = Throw RangeError.
Proof.
  split.
  - destruct (parseInputSheet_outcome
                [[VStr "date"; VStr "weight"]; [VStr "1/8"; VNum (Fin 100)];
                 [VStr EmptyString; VNum (Fin 99)]; [VNull]; [VStr "1/9"]])
      as [Hok _].
    destruct Hok as (entries & He & Hlen & _).
    + repeat constructor; discriminate.
    + exists entries. split; [exact He|exact Hlen].
  - apply parseInputSheet_outcome. cbn [tl]. right. left. reflexivity.
Defined.

(** *** parseInputSheet: what every entry satisfies *)

Lemma append_not_empty (a b : string) (c : ascii) :
  String.eqb (String.append a (String c b)) EmptyString = false.
Proof. destruct a; reflexivity. Qed.

Lemma normalizeDate_truthy (v w : value) :
  DataManager.normalizeDate v = Ok w -> ToBoolean v = true -> ToBoolean w = true.
Proof.
  unfold DataManager.normalizeDate.
  destruct v as [| | n | s | [t|]]; try (intros [= <-]; trivial); try discriminate.
  - destruct (startsWith "Date(" s).
    + destruct (DataManager.match_Date s) as [[[g1 g2] g3]|]; intros [= <-]; trivial.
      intros _. cbn [ToBoolean]. unfold DataManager.dashed.
      now rewrite append_not_empty.
    + destruct (DataManager.match_full_slash s);
        [|destruct (DataManager.match_partial_slash s)];
        intros [= <-]; trivial; intros _; cbn [ToBoolean];
        unfold DataManager.dashed; now rewrite append_not_empty.
  - rewrite toISOString_date_part. intros _. cbn [ToBoolean].
    unfold JSDate.iso_date.
    destruct (JSDate.civil_from_days (t / JSDate.msPerDay)) as [[y m] d].
    now rewrite append_not_empty.
Qed.

Lemma parseRow_entry_ok (row : list value) (entry : Entry.t) :
  DataManager.parseRow row = Ok (Some entry) -> Spec.entry_ok entry.
Proof.
  unfold DataManager.parseRow.
  destruct (ToBoolean (DataManager.cell row 0)) eqn:Ht; [|discriminate].
  cbn [negb].
  destruct (DataManager.normalizeDate (DataManager.cell row 0)) as [w|] eqn:E;
    [|discriminate].
  cbn [bind]. intros [= <-]. unfold Spec.entry_ok.
  cbn [Entry.date Entry.weight Entry.waist Entry.steps Entry.calories_intake
       Entry.protein Entry.fat Entry.carbs Entry.notes].
  repeat split; try apply parseNum_never_NaN.
  - eapply normalizeDate_truthy; eassumption.
  - destruct (ToBoolean (DataManager.cell row 5)) eqn:E5; [right; exact E5|now left].
Qed.

Lemma parseRows_entry_ok (rows : list (list value)) (data entries : list Entry.t) :
  DataManager.parseRows rows data = Ok entries ->
  Forall Spec.entry_ok data -> Forall Spec.entry_ok entries.
Proof.
  revert data. induction rows as [|row rows IH]; intros data; cbn [DataManager.parseRows].
  - intros [= <-]. trivial.
  - destruct (DataManager.parseRow row) as [[entry|]|] eqn:E; cbn [bind];
      [|apply IH|discriminate].
    intros H Hdata. apply (IH _ H). apply Forall_app. split; [exact Hdata|].
    constructor; [|constructor]. now apply (parseRow_entry_ok row).
Qed.

(** X3.  Every entry [parseInputSheet] returns has a date that is there
    (truthy), numeric fields that are Absent or a number but never NaN, the
    three macro fields Absent, and notes that are the empty string or a
    truthy value. *)
Theorem parseInputSheet_entries_ok (rows : list (list value)) (entries : list Entry.t) :
  DataManager.parseInputSheet rows = Ok entries -> Forall Spec.entry_ok entries.
Proof.
  unfold DataManager.parseInputSheet.
  destruct (length rows <? 2)%nat; [intros [= <-]; constructor|].
  intros H. apply (parseRows_entry_ok _ [] _ H). constructor.
Qed.

Lemma parseInputSheet_entries_ok_witness :
  Forall Spec.entry_ok
    [Entry.mk (VStr "2026-01-08") (Some (Fin 100)) None None None
              None None None (VStr EmptyString)].
Proof.
  apply (parseInputSheet_entries_ok
           [[VStr "date"; VStr "weight"];
            [VStr "Date(2026,0,8)"; VStr "100"; VStr "abc"; VNull; VStr " x"]]).
  vm_compute. reflexivity.
Defined.

(* ===================================================================== *)
(** ** Further properties of the figures computed from the entries *)
(* ===================================================================== *)

(** *** calculateMovingAverage: entries appended later *)

Lemma slice_app_prefix {A : Type} (a b : nat) (l more : list A) :
  (b <= length l)%nat ->
  DataManager.slice a b (l ++ more) = DataManager.slice a b l.
Proof.
  intros Hb. unfold DataManager.slice.
  destruct (le_lt_dec a (length l)) as [Ha|Ha].
  - rewrite drop_app_le by exact Ha.
    rewrite take_app_le; [reflexivity|]. rewrite length_drop. lia.
  - replace (b - a)%nat with 0%nat by lia. reflexivity.
Qed.

Lemma pushed_at_app (data more : list Entry.t) (f : DataManager.field)
    (days i : nat) :
  (i < length data)%nat ->
  Spec.pushed_at (data ++ more) f days i = Spec.pushed_at data f days i.
Proof.
  intros Hi. unfold Spec.pushed_at. rewrite slice_app_prefix by lia. reflexivity.
Qed.

(** X4.  Entries appended to the log never change a moving average already
    computed: the first [length data] values of the moving average of
    [data ++ more] are the moving average of [data], for every field and
    every window. *)
Theorem calculateMovingAverage_prefix (data more : list Entry.t)
    (f : DataManager.field) (days : nat) :
  take (length data) (DataManager.calculateMovingAverage (data ++ more) f days)
  = DataManager.calculateMovingAverage data f days.
Proof.
  rewrite !calculateMovingAverage_map, length_app, seq_app, map_app.
  rewrite take_app_length' by now rewrite length_map, length_seq.
  apply map_ext_in. intros i Hi. apply in_seq in Hi. apply pushed_at_app. lia.
Qed.

(** *** calculateWaistChange *)

Lemma filter_first_last {A : Type} (p : A -> bool)
    (before mid after : list A) (x y : A) :
  Forall (fun d => p d = false) before -> Forall (fun d => p d = false) after ->
  p x = true -> p y = true ->
  List.filter p (before ++ x :: mid ++ y :: after)
  = x :: List.filter p mid ++ [y].
Proof.
  intros Hb Ha Hx Hy.
  rewrite List.filter_app, (filter_none p before Hb). cbn [List.filter app].
  rewrite Hx, List.filter_app. cbn [List.filter]. rewrite Hy.
  rewrite (filter_none p after Ha). reflexivity.
Qed.

Lemma filter_only {A : Type} (p : A -> bool) (before after : list A) (x : A) :
  Forall (fun d => p d = false) before -> Forall (fun d => p d = false) after ->
  p x = true -> List.filter p (before ++ x :: after) = [x].
Proof.
  intros Hb Ha Hx.
  rewrite List.filter_app, (filter_none p before Hb). cbn [List.filter app].
  rewrite Hx, (filter_none p after Ha). reflexivity.
Qed.

Lemma round1_zero (q : Q) : (Spec.round1 (Fin q - Fin q) == Fin 0)%js.
Proof.
  unfold Spec.round1, sub. cbn [neg add].
  rewrite (round64_zero (q + - q)) by ring. vm_compute. reflexivity.
Qed.

(** X5.  [calculateWaistChange] answers null/null when no entry has a waist
    above 0.  Otherwise the current waist is that of the last such entry
    and the change is its difference to the first such entry, rounded to 1
    decimal; entries without a waist before, between and after the two play
    no part, and with a single such entry the change is 0. *)
Theorem calculateWaistChange_spec (data : list Entry.t) :
  (Forall Spec.no_waist data ->
   DataManager.calculateWaistChange data = DataManager.WaistChange.mk None None)
  /\ (forall before first mid latest after x0 x1,
        data = before ++ first :: mid ++ latest :: after ->
        Forall Spec.no_waist before -> Forall Spec.no_waist after ->
        Entry.waist first = Some x0 -> (x0 >? Fin 0)%js = true ->
        Entry.waist latest = Some x1 -> (x1 >? Fin 0)%js = true ->
        DataManager.calculateWaistChange data
        = DataManager.WaistChange.mk (Some x1) (Some (Spec.round1 (x1 - x0)%js)))
  /\ (forall before only after q,
        data = before ++ only :: after ->
        Forall Spec.no_waist before -> Forall Spec.no_waist after ->
        Entry.waist only = Some (Fin q) -> (0 < q)%Q ->
        exists change,
          DataManager.calculateWaistChange data
          = DataManager.WaistChange.mk (Some (Fin q)) (Some change)
          /\ (change == Fin 0)%js).
Proof.
  unfold DataManager.calculateWaistChange. split; [|split].
  - intros H. rewrite filter_none; [reflexivity|exact H].
  - intros before first mid latest after x0 x1 -> Hb Ha E0 P0 E1 P1.
    rewrite filter_first_last; try assumption.
    + cbn [head]. rewrite app_comm_cons, last_snoc.
      rewrite E0, E1. reflexivity.
    + unfold DataManager.present_positive. now rewrite E0.
    + unfold DataManager.present_positive. now rewrite E1.
  - intros before only after q -> Hb Ha E Hq.
    rewrite filter_only; try assumption.
    + cbn [last head]. rewrite E. eexists. split; [reflexivity|].
      apply round1_zero.
    + unfold DataManager.present_positive. rewrite E. cbn.
      now apply Qltb_true.
Qed.

(** Witness for X5: three entries, the middle one without a waist. *)
Lemma calculateWaistChange_spec_witness :
  let day w := Entry.mk (VStr "2026-01-08") None w None None None None None
                        (VStr EmptyString) in
  DataManager.calculateWaistChange
    [day (Some (Fin 100)); day None; day (Some (Fin 98.5))]
  = DataManager.WaistChange.mk (Some (Fin 98.5))
      (Some (Spec.round1 (Fin 98.5 - Fin 100)%js)).
Proof.
  intros day.
  destruct (calculateWaistChange_spec
              [day (Some (Fin 100)); day None; day (Some (Fin 98.5))])
    as (_ & H & _).
  apply (H [] (day (Some (Fin 100))) [day None] (day (Some (Fin 98.5))) []);
    try reflexivity; constructor.
Defined.

(** A change as binary64 has it: from 85 to 85.35 the difference is
    0.3499999999999943, and the change is 0.3. *)
Example calculateWaistChange_binary64 :
  let day w := Entry.mk (VStr "2026-01-08") None (Some w) None None None None None
                        (VStr EmptyString) in
  DataManager.calculateWaistChange [day (Fin 85); day (lit 85.35)]
  = DataManager.WaistChange.mk (Some (lit 85.35)) (Some (lit 0.3)).
Proof. vm_compute. reflexivity. Qed.

(** *** getStepsData *)

Lemma values_filter (f : DataManager.field) (l : list Entry.t) :
  map DataManager.num_of
      (map (DataManager.get f)
           (List.filter (fun d => DataManager.present (DataManager.get f d)) l))
  = Spec.values f l.
Proof.
  induction l as [|d l IH]; [reflexivity|].
  unfold Spec.values in *. cbn [omap list_omap List.filter].
  destruct (DataManager.get f d) as [x|] eqn:E; cbn [DataManager.present].
  - cbn [map]. rewrite E, IH. reflexivity.
  - exact IH.
Qed.

Lemma sum_field_map (f : DataManager.field) (l : list Entry.t) :
  DataManager.sum_field f l
  = Spec.sum (map DataManager.num_of (map (DataManager.get f) l)).
Proof.
  unfold DataManager.sum_field, Spec.sum. generalize (Fin 0).
  induction l as [|d l IH]; intros a; [reflexivity|]. cbn. apply IH.
Qed.

Lemma last_values (f : DataManager.field) (l : list Entry.t) :
  match last (List.filter (fun d => DataManager.present (DataManager.get f d)) l) with
  | Some latest => DataManager.get f latest
  | None => None
  end = last (Spec.values f l).
Proof.
  unfold Spec.values.
  induction l as [|d l IH] using rev_ind; [reflexivity|].
  rewrite List.filter_app, omap_app. cbn [List.filter omap list_omap].
  destruct (DataManager.get f d) as [x|] eqn:E; cbn [DataManager.present].
  - rewrite !last_snoc. exact E.
  - rewrite !app_nil_r. exact IH.
Qed.

(** X6.  [getStepsData]: the current steps are the last step count that is
    there in the whole log, a count of 0 included; the average is the rounded
    mean of the step counts that are there in the last 7 entries, zeros
    included, and null when there is none; the target is the setting, and
    10000 when the setting is absent or 0. *)
Theorem getStepsData_spec (data : list Entry.t) (settings : Settings.t) :
  let r := DataManager.getStepsData data settings in
  DataManager.StepsData.current r = last (Spec.values DataManager.steps data)
  /\ DataManager.StepsData.avgSteps r
     = match Spec.values DataManager.steps (DataManager.slice_last 7 data) with
       | [] => None
       | vals => Some (Math_round (Spec.mean vals))
       end
  /\ (truthy (Settings.target_steps settings) = false ->
      DataManager.StepsData.target r = Fin 10000)
  /\ (truthy (Settings.target_steps settings) = true ->
      Some (DataManager.StepsData.target r) = Settings.target_steps settings).
Proof.
  unfold DataManager.getStepsData.
  cbn [DataManager.StepsData.current DataManager.StepsData.avgSteps
       DataManager.StepsData.target].
  split; [apply (last_values DataManager.steps)|].
  split.
  - rewrite sum_field_map.
    pose proof (values_filter DataManager.steps (DataManager.slice_last 7 data)) as E.
    cbn [DataManager.get] in E.
    set (week := List.filter _ (DataManager.slice_last 7 data)) in *.
    unfold Spec.mean. rewrite <- E.
    destruct week as [|d week]; [reflexivity|].
    cbn [map length Nat.ltb Nat.leb]. rewrite !length_map. reflexivity.
  - unfold or_default, truthy.
    destruct (Settings.target_steps settings) as [n|]; split; try congruence;
      intros H; rewrite H; reflexivity.
Qed.

(** Witness for X6: a day of 0 steps is the current one, and a target of 0
    gives way to 10000. *)
Lemma getStepsData_spec_witness :
  let day s := Entry.mk (VStr "2026-01-08") None None s None None None None
                        (VStr EmptyString) in
  let settings := Settings.mk None (Some (Fin 0)) None None None None None None None in
  let r := DataManager.getStepsData
             [day (Some (Fin 8000)); day (Some (Fin 0)); day None] settings in
  DataManager.StepsData.current r = Some (Fin 0)
  /\ DataManager.StepsData.target r = Fin 10000.
Proof.
  intros day settings r. subst r.
  destruct (getStepsData_spec
              [day (Some (Fin 8000)); day (Some (Fin 0)); day None] settings)
    as (Hcurrent & _ & Htarget & _).
  split; [rewrite Hcurrent; reflexivity|apply Htarget; reflexivity].
Defined.

(** *** getYesterdayCalories *)

Lemma filter_null_calories (l : list DataManager.Log.t) :
  Forall Spec.null_calories l ->
  List.filter (fun d => DataManager.not_null (DataManager.Log.get d "calories_intake")) l
  = [].
Proof.
  intros H. apply filter_none. eapply Forall_impl; [exact H|].
  intros d Hd. unfold Spec.null_calories in Hd. now rewrite Hd.
Qed.

Lemma of_entry_calories (e : Entry.t) :
  DataManager.Log.get (DataManager.Log.of_entry e) "calories_intake"
  = DataManager.Log.field_value (Entry.calories_intake e)
  /\ DataManager.Log.get (DataManager.Log.of_entry e) "date" = Entry.date e.
Proof. split; reflexivity. Qed.

(** X7.  [getYesterdayCalories] reads no date: it takes the last entry of
    the log whose calories are not null, and answers its calories, the
    difference of their number to the calorie goal, and its date; it answers
    null/null, and no date, when the calories of every entry are null.  A
    count of 0 is taken, and so is an entry without the property: its
    calories are undefined and the difference is NaN.  On the entries of the
    row parser, whose calories are a number or null, the entry taken is the
    last one with a number. *)
Theorem getYesterdayCalories_spec (data : list DataManager.Log.t) (goals : Goals.t) :
  (Forall Spec.null_calories data ->
   DataManager.getYesterdayCalories data goals
   = DataManager.YesterdayCalories.mk VNull VNull None)
  /\ (forall before latest after,
        data = before ++ latest :: after ->
        ~ Spec.null_calories latest ->
        Forall Spec.null_calories after ->
        let calories := DataManager.Log.get latest "calories_intake" in
        DataManager.getYesterdayCalories data goals
        = DataManager.YesterdayCalories.mk
            calories
            (VNum (Number calories - of_undefined (Goals.calories goals))%js)
            (Some (DataManager.Log.get latest "date"))
        /\ (latest !! "calories_intake" = None ->
            DataManager.getYesterdayCalories data goals
            = DataManager.YesterdayCalories.mk
                VUndefined (VNum NaN) (Some (DataManager.Log.get latest "date"))))
  /\ (forall (before after : list Entry.t) (latest : Entry.t) (c : number),
        data = map DataManager.Log.of_entry (before ++ latest :: after) ->
        Entry.calories_intake latest = Some c ->
        Forall (fun d => Entry.calories_intake d = None) after ->
        DataManager.getYesterdayCalories data goals
        = DataManager.YesterdayCalories.mk
            (VNum c) (VNum (c - of_undefined (Goals.calories goals))%js)
            (Some (Entry.date latest))).
Proof.
  assert (Hgen : forall before latest after,
            data = before ++ latest :: after ->
            ~ Spec.null_calories latest ->
            Forall Spec.null_calories after ->
            DataManager.getYesterdayCalories data goals
            = DataManager.YesterdayCalories.mk
                (DataManager.Log.get latest "calories_intake")
                (VNum (Number (DataManager.Log.get latest "calories_intake")
                       - of_undefined (Goals.calories goals))%js)
                (Some (DataManager.Log.get latest "date"))).
  { intros before latest after -> Hl Ha. unfold DataManager.getYesterdayCalories.
    rewrite List.filter_app. cbn [List.filter].
    assert (E : DataManager.not_null (DataManager.Log.get latest "calories_intake") = true).
    { unfold Spec.null_calories in Hl.
      destruct (DataManager.Log.get latest "calories_intake"); try reflexivity.
      now contradiction Hl. }
    rewrite E, (filter_null_calories after Ha), last_snoc. reflexivity. }
  split; [|split].
  - intros H. unfold DataManager.getYesterdayCalories.
    rewrite (filter_null_calories data H). reflexivity.
  - intros before latest after E Hl Ha calories. split.
    + apply (Hgen before latest after E Hl Ha).
    + intros Hnone. rewrite (Hgen before latest after E Hl Ha).
      unfold DataManager.Log.get at 1 2. rewrite Hnone. cbn [default Number].
      destruct (Goals.calories goals) as [[| | |g]|]; reflexivity.
  - intros before after latest c E Hc Ha.
    rewrite map_app in E. cbn [map] in E.
    rewrite (Hgen _ _ _ E).
    + destruct (of_entry_calories latest) as [-> ->]. rewrite Hc. reflexivity.
    + unfold Spec.null_calories. destruct (of_entry_calories latest) as [-> _].
      rewrite Hc. discriminate.
    + apply List.Forall_forall. intros d Hd. apply in_map_iff in Hd as (e & <- & He).
      unfold Spec.null_calories. destruct (of_entry_calories e) as [-> _].
      rewrite List.Forall_forall in Ha. now rewrite (Ha e He).
Qed.

(** Witness for X7: three entries in no order of dates, the last one with
    null calories, the one before without the property. *)
Lemma getYesterdayCalories_spec_witness :
  let day (date : string) (c : value) : DataManager.Log.t :=
    {[ "date" := VStr date; "calories_intake" := c ]} in
  let bare : DataManager.Log.t := {[ "date" := VStr "2025-12-01" ]} in
  DataManager.getYesterdayCalories
    [day "2026-01-08" (VNum (Fin 2500)); bare; day "2026-01-09" VNull]
    DataManager.default_goals
  = DataManager.YesterdayCalories.mk VUndefined (VNum NaN) (Some (VStr "2025-12-01")).
Proof.
  intros day bare.
  destruct (getYesterdayCalories_spec
              [day "2026-01-08" (VNum (Fin 2500)); bare; day "2026-01-09" VNull]
              DataManager.default_goals) as (_ & H & _).
  destruct (H [day "2026-01-08" (VNum (Fin 2500))] bare [day "2026-01-09" VNull])
    as [_ Hbare].
  - reflexivity.
  - vm_compute. discriminate.
  - repeat constructor.
  - apply Hbare. reflexivity.
Defined.

(** A count of 0 on an entry of the row parser: taken, 2600 below the
    default goal. *)
Example getYesterdayCalories_zero :
  let day date c := Entry.mk (VStr date) None None None c None None None
                             (VStr EmptyString) in
  DataManager.getYesterdayCalories
    (map DataManager.Log.of_entry
       [day "2026-01-08" (Some (Fin 2500)); day "2025-12-01" (Some (Fin 0));
        day "2026-01-09" None])
    DataManager.default_goals
  = DataManager.YesterdayCalories.mk
      (VNum (Fin 0)) (VNum (Fin (-2600))) (Some (VStr "2025-12-01")).
Proof. vm_compute. reflexivity. Qed.

(** *** calculateWeeklyStats: the window and the averages *)

Lemma slice_last_app {A : Type} (n : nat) (old week : list A) :
  (n <= length week)%nat ->
  DataManager.slice_last n (old ++ week) = DataManager.slice_last n week.
Proof.
  intros Hn. unfold DataManager.slice_last.
  rewrite length_app, drop_app_ge by lia. f_equal. lia.
Qed.

(** X8.  [calculateWeeklyStats] looks at the last 7 entries of the log and
    at nothing before them: with at least 7 entries in [week], the entries
    [old] put in front change no figure of the result. *)
Theorem calculateWeeklyStats_window (old week : list Entry.t)
    (settings : Settings.t) (meals : option MealsByDate) :
  (7 <= length week)%nat ->
  DataManager.calculateWeeklyStats (old ++ week) settings meals
  = DataManager.calculateWeeklyStats week settings meals.
Proof.
  intros H. unfold DataManager.calculateWeeklyStats.
  rewrite (slice_last_app 7 old week H). reflexivity.
Qed.

(** X9.  The averages of [calculateWeeklyStats]: the calorie average is the
    rounded mean of the calorie counts above 0 in the last 7 entries, the
    weight average the mean of the weights above 0 there, rounded to 1
    decimal; an average without a single such value is 0.  The goals are
    those of the settings, and the fallback goals when the settings have
    none. *)
Theorem calculateWeeklyStats_averages (data : list Entry.t)
    (settings : Settings.t) (meals : option MealsByDate) :
  let stats := DataManager.calculateWeeklyStats data settings meals in
  let week := Spec.last_week data in
  DataManager.WeeklyStats.avgCalories stats
  = match Spec.survivors DataManager.calories_intake week with
    | [] => Fin 0
    | vals => Math_round (Spec.mean vals)
    end
  /\ DataManager.WeeklyStats.avgWeight stats
     = Spec.round1 match Spec.survivors DataManager.weight week with
                   | [] => Fin 0
                   | vals => Spec.mean vals
                   end
  /\ DataManager.WeeklyStats.goals stats
     = default DataManager.default_goals (Settings.goals settings).
Proof.
  intros stats week. subst stats. unfold DataManager.calculateWeeklyStats.
  rewrite last_week_slice. fold week.
  cbn [DataManager.WeeklyStats.avgCalories DataManager.WeeklyStats.avgWeight
       DataManager.WeeklyStats.goals].
  split; [|split].
  - rewrite sum_field_map.
    rewrite <- (survivors_filter DataManager.calories_intake week).
    cbn [DataManager.get].
    destruct (List.filter _ week) as [|d l]; [reflexivity|].
    unfold Spec.mean. cbn [map length Nat.ltb Nat.leb].
    rewrite !length_map. reflexivity.
  - unfold Spec.round1. f_equal. f_equal. f_equal.
    rewrite sum_field_map.
    rewrite <- (survivors_filter DataManager.weight week).
    cbn [DataManager.get].
    destruct (List.filter _ week) as [|d l]; [reflexivity|].
    unfold Spec.mean. cbn [map length Nat.ltb Nat.leb].
    rewrite !length_map. reflexivity.
  - destruct (Settings.goals settings); reflexivity.
Qed.

(** An average as binary64 has it: the weights 64.3 and 64.6 add up to
    128.89999999999998, half of which is 64.44999999999999, and the weight
    average is 64.4. *)
Example calculateWeeklyStats_binary64 :
  let day w := Entry.mk (VStr "2026-01-08") (Some (lit w)) None None None
                        None None None (VStr EmptyString) in
  DataManager.WeeklyStats.avgWeight
    (DataManager.calculateWeeklyStats [day 64.3%Q; day 64.6%Q]
       DataManager.getDefaultSettings None)
  = lit 64.4.
Proof. vm_compute. reflexivity. Qed.

(** Witness for X8: eight entries, the first one outside the window. *)
Lemma calculateWeeklyStats_window_witness :
  let day w := Entry.mk (VStr "2026-01-08") w None None None
                        None None None (VStr EmptyString) in
  DataManager.calculateWeeklyStats
    ([day (Some (Fin 150))] ++ List.repeat (day (Some (Fin 100))) 7)
    DataManager.getDefaultSettings None
  = DataManager.calculateWeeklyStats (List.repeat (day (Some (Fin 100))) 7)
      DataManager.getDefaultSettings None.
Proof.
  intros day.
  apply (calculateWeeklyStats_window [day (Some (Fin 150))] (List.repeat (day (Some (Fin 100))) 7)).
  simpl. lia.
Defined.

(** *** calculateEstimatedBurn: more weight or more steps never burn less *)

Lemma or_default_moderate (x : option number) (d : Q) :
  Spec.moderate_setting x -> Spec.moderate d ->
  exists q : Q, or_default x (Fin d) = Fin q /\ Spec.moderate q.
Proof.
  destruct x as [[| | |q]|]; cbn; try contradiction; intros Hq Hd.
  - destruct (Qis0 q); eauto.
  - eauto.
Qed.

Lemma Math_round_mono (a b : Q) :
  (a <= b)%Q ->
  exists za zb : Z,
    Math_round (Fin a) = of_Z za /\ Math_round (Fin b) = of_Z zb /\ za <= zb.
Proof.
  intros H. exists (Qfloor (a + (1 # 2))), (Qfloor (b + (1 # 2))).
  split; [reflexivity|]. split; [reflexivity|].
  apply Qfloor_resp_le. lra.
Qed.

(** The calories of the steps: the product, also for 0 steps. *)
Lemma steps_calories (s : Q) (c : number) :
  (exists q : Q, c = Fin q) ->
  (if truthy_num (Fin s) then Fin s * c else Fin 0)%js = (Fin s * c)%js.
Proof.
  intros [q ->]. cbn [truthy_num mul]. destruct (Qis0 s) eqn:E; [|reflexivity].
  cbn [negb]. symmetry. apply round64_zero.
  unfold Qis0 in E. destruct (Qcompare_spec s 0) as [H|H|H]; [|discriminate..].
  rewrite H. ring.
Qed.

Ltac literal_le := apply Qle_bool_iff; vm_compute; reflexivity.

Ltac literal_range := split; literal_le.

(** X10.  With a height and an age of moderate magnitude (or absent), the
    burn estimate is a whole number that never goes down when the weight or
    the step count goes up: for weights [w1 <= w2] above 0 and step counts
    [s1 <= s2], all of moderate magnitude, the estimate at [w1], [s1] is at
    most that at [w2], [s2]. *)
Theorem calculateEstimatedBurn_monotone (settings : Settings.t) (w1 w2 s1 s2 : Q) :
  Spec.moderate_setting (Settings.height settings) ->
  Spec.moderate_setting (Settings.age settings) ->
  (0 < w1)%Q -> (w1 <= w2)%Q -> (s1 <= s2)%Q ->
  Spec.moderate w2 -> Spec.moderate s1 -> Spec.moderate s2 ->
  exists b1 b2 : Z,
    DataManager.calculateEstimatedBurn (Some (Fin w1)) (Some (Fin s1)) settings
    = Some (of_Z b1)
    /\ DataManager.calculateEstimatedBurn (Some (Fin w2)) (Some (Fin s2)) settings
       = Some (of_Z b2)
    /\ b1 <= b2.
Proof.
  intros Hh Ha H1 H12 Hs [_ Hw2] [Hs1 _] [_ Hs2].
  unfold DataManager.calculateEstimatedBurn.
  assert (M184 : Spec.moderate 184) by literal_range.
  assert (M30 : Spec.moderate 30) by literal_range.
  destruct (or_default_moderate _ 184 Hh M184) as (h & -> & Hh1 & Hh2).
  destruct (or_default_moderate _ 30 Ha M30) as (a & -> & Ha1 & Ha2).
  cbn [truthy_num negb].
  rewrite (Qis0_false w1), (Qis0_false w2) by lra. cbn [negb].
  destruct (lit_range 88.362 7 ltac:(lia)) as (c0 & E0 & P0 & B0); [literal_le..|].
  destruct (lit_range 13.397 4 ltac:(lia)) as (c1 & E1 & P1 & B1); [literal_le..|].
  destruct (lit_range 4.799 3 ltac:(lia)) as (c2 & E2 & P2 & B2); [literal_le..|].
  destruct (lit_range 5.677 3 ltac:(lia)) as (c3 & E3 & P3 & B3); [literal_le..|].
  destruct (lit_range 1.2 1 ltac:(lia)) as (c4 & E4 & P4 & B4); [literal_le..|].
  destruct (lit_range 0.045 0 ltac:(lia)) as (c5 & E5 & P5 & B5); [literal_le..|].
  rewrite E0, E1, E2, E3, E4, E5.
  fold (truthy_num (Fin s1)). fold (truthy_num (Fin s2)).
  rewrite !steps_calories by eauto.
  pose proof (pow2_pos 1000) as Hp. pose proof (pow2_pos 7) as Hp7.
  match goal with
  | |- exists b1 b2, Some (Math_round ?x) = _ /\ Some (Math_round ?y) = _ /\ _ =>
      assert (W : Spec.within 1009 x y)
  end.
  { apply within_plus; [lia| |].
    - apply (within_times_r 1); [lia|exact P4|exact B4|].
      apply (within_weaken 1007); [lia|].
      apply within_minus; [lia| |].
      + apply within_plus; [lia| |].
        * apply within_plus; [lia| |].
          -- apply (within_weaken 7); [lia|]. apply within_same; lra.
          -- apply (within_times_l 4); [lia|exact P1|exact B1|].
             apply (within_weaken 1000); [lia|].
             exists w1, w2. repeat split; trivial; lra.
        * apply (within_weaken 1003); [lia|].
          apply (within_times_l 3); [lia|exact P2|exact B2|].
          apply (within_weaken 1000); [lia|]. apply within_same; assumption.
      + apply (within_weaken 1003); [lia|].
        apply (within_times_l 3); [lia|exact P3|exact B3|].
        apply (within_weaken 1000); [lia|]. apply within_same; assumption.
    - apply (within_weaken 1000); [lia|].
      apply (within_times_r 0); [lia|exact P5|exact B5|].
      apply (within_weaken 1000); [lia|].
      exists s1, s2. repeat split; trivial. }
  destruct W as (t1 & t2 & -> & -> & Hle & _).
  destruct (Math_round_mono t1 t2 Hle) as (za & zb & -> & -> & Hz).
  exists za, zb. repeat split; assumption.
Qed.

(** Beyond that magnitude the estimate is no whole number: at a weight of
    2^1023 kg the products overflow and the estimate is infinite, and with
    an age of 2^1023 years as well it is NaN. *)
Example calculateEstimatedBurn_overflow :
  let old := Settings.mk (Some (Fin 90)) (Some (Fin 10000)) (Some (Fin 100))
               None None (Some (Fin 184)) (Some (Fin (pow2 1023))) None None in
  DataManager.calculateEstimatedBurn (Some (Fin (pow2 1023))) (Some (Fin 0))
    DataManager.getDefaultSettings = Some PInf
  /\ DataManager.calculateEstimatedBurn (Some (Fin (pow2 1023))) (Some (Fin 0)) old
     = Some NaN.
Proof. split; vm_compute; reflexivity. Qed.

(** Witness for X10: 90 kg and 5000 steps against 95 kg and 10000 steps. *)
Lemma calculateEstimatedBurn_monotone_witness :
  exists b1 b2 : Z,
    DataManager.calculateEstimatedBurn (Some (Fin 90)) (Some (Fin 5000))
      DataManager.getDefaultSettings = Some (of_Z b1)
    /\ DataManager.calculateEstimatedBurn (Some (Fin 95)) (Some (Fin 10000))
         DataManager.getDefaultSettings = Some (of_Z b2)
    /\ b1 <= b2.
Proof.
  apply (calculateEstimatedBurn_monotone DataManager.getDefaultSettings
           90%Q 95%Q 5000%Q 10000%Q);
    try (split; apply Qle_bool_iff; vm_compute; reflexivity); lra.
Defined.

(* ===================================================================== *)
(** ** Further properties of the sheet export and of its parsers *)
(* ===================================================================== *)

(** *** parseGoogleVizResponse *)

Lemma mapi_from_length {A B : Type} (f : nat -> A -> B) (idx : nat) (l : list A) :
  length (DataManager.mapi_from f idx l) = length l.
Proof.
  revert idx. induction l as [|x l IH]; intros idx; [reflexivity|].
  cbn. now rewrite IH.
Qed.

Lemma mapi_from_Forall {A B : Type} (f : nat -> A -> B) (P : B -> Prop)
    (idx : nat) (l : list A) :
  (forall i x, P (f i x)) -> Forall P (DataManager.mapi_from f idx l).
Proof.
  intros H. revert idx. induction l as [|x l IH]; intros idx; constructor; auto.
Qed.

Lemma lookup_map {A B : Type} (g : A -> B) (l : list A) (i : nat) :
  map g l !! i = g <$> l !! i.
Proof.
  revert i. induction l as [|x l IH]; intros [|i]; try reflexivity. apply IH.
Qed.

Lemma parseCell_filled (idx : nat) (cell : option Gviz.cell) :
  Spec.filled (DataManager.parseCell idx cell).
Proof.
  unfold DataManager.parseCell, Spec.filled.
  destruct cell as [cell|]; [|split; discriminate].
  destruct (Gviz.v cell) as [| | n | s | t]; try (split; discriminate);
    destruct (idx =? 0)%nat; try (split; discriminate);
    destruct (Gviz.f cell) as [[|a r]|]; try (split; discriminate);
    destruct (startsWith "Date(" s); try (split; discriminate);
    destruct (DataManager.match_Date s) as [[[g1 g2] g3]|]; split; discriminate.
Qed.

Lemma lookup_mapi_from {A B : Type} (f : nat -> A -> B) (idx : nat) (l : list A)
    (j : nat) :
  DataManager.mapi_from f idx l !! j = f (idx + j)%nat <$> l !! j.
Proof.
  revert idx j. induction l as [|x l IH]; intros idx [|j]; try reflexivity.
  - cbn. now rewrite Nat.add_0_r.
  - cbn [DataManager.mapi_from]. change ((?y :: ?r) !! S j) with (r !! j).
    rewrite IH. f_equal. f_equal. lia.
Qed.

(** X11.  [parseGoogleVizResponse] answers the empty list when the table or
    its rows are missing.  Otherwise it answers the row of the labels of the
    columns, the empty string for a column without one, followed by one row
    for each row of the table, in order and with one value for each of its
    cells: the empty string for a missing cell, and behind the first column
    the value of a cell that has one; and no value of the result is null or
    undefined. *)
Theorem parseGoogleVizResponse_shape (data : Gviz.response) :
  let out := DataManager.parseGoogleVizResponse data in
  (Gviz.table_of data = None -> out = [])
  /\ (forall table, Gviz.table_of data = Some table -> Gviz.rows table = None ->
        out = [])
  /\ (forall table rows,
        Gviz.table_of data = Some table -> Gviz.rows table = Some rows ->
        length out = S (length rows)
        /\ out !! 0%nat
           = Some (map (fun col => VStr (default EmptyString (Gviz.label col)))
                       (Gviz.cols table))
        /\ (forall i row, rows !! i = Some row ->
              exists values,
                out !! S i = Some values
                /\ length values = length (Gviz.c row)
                /\ (forall j, Gviz.c row !! j = Some None ->
                      values !! j = Some (VStr EmptyString))
                /\ (forall j cell, Gviz.c row !! S j = Some (Some cell) ->
                      Spec.filled (Gviz.v cell) ->
                      values !! S j = Some (Gviz.v cell))))
  /\ Forall (Forall Spec.filled) out.
Proof.
  intros out. subst out. unfold DataManager.parseGoogleVizResponse.
  split; [intros ->; reflexivity|].
  split; [intros table -> ->; reflexivity|].
  split.
  - intros table rows -> ->. split; [|split].
    + cbn [length]. now rewrite length_map.
    + cbn. f_equal. apply map_ext. intros col.
      destruct (Gviz.label col) as [[|a r]|]; reflexivity.
    + intros i row Hi.
      change ((?x :: ?l) !! S i) with (l !! i).
      rewrite lookup_map, Hi. cbn [fmap option_fmap option_map].
      eexists. split; [reflexivity|]. split; [apply mapi_from_length|]. split.
      * intros j Hj. rewrite lookup_mapi_from, Hj. reflexivity.
      * intros j cell Hj [Hnull Hundef]. rewrite lookup_mapi_from, Hj.
        cbn [fmap option_fmap option_map Nat.add DataManager.parseCell].
        destruct (Gviz.v cell); try reflexivity; congruence.
  - destruct (Gviz.table_of data) as [table|]; [|constructor].
    destruct (Gviz.rows table) as [rows|]; [|constructor].
    constructor.
    + apply List.Forall_forall. intros v Hv.
      apply in_map_iff in Hv as (col & <- & _). split; discriminate.
    + apply List.Forall_forall. intros r Hr.
      apply in_map_iff in Hr as (row & <- & _).
      apply mapi_from_Forall. apply parseCell_filled.
Qed.

(** Witness for X11: a table of two columns, the second without a label, and
    one row, whose second cell is missing. *)
Lemma parseGoogleVizResponse_shape_witness :
  let row := Gviz.mkRow [Some (Gviz.mkCell (VStr "Date(2026,0,8)") None); None] in
  let table := Gviz.mkTable [Gviz.mkCol (Some "date"); Gviz.mkCol None] (Some [row]) in
  let out := DataManager.parseGoogleVizResponse (Gviz.mkResponse (Some table)) in
  length out = 2%nat
  /\ out !! 0%nat = Some [VStr "date"; VStr EmptyString]
  /\ DataManager.parseGoogleVizResponse (Gviz.mkResponse None) = [].
Proof.
  intros row table out.
  destruct (parseGoogleVizResponse_shape (Gviz.mkResponse (Some table)))
    as (_ & _ & H & _).
  destruct (H table [row] eq_refl eq_refl) as (Hlen & Hlabels & _).
  split; [exact Hlen|]. split; [exact Hlabels|].
  destruct (parseGoogleVizResponse_shape (Gviz.mkResponse None)) as (Hnone & _).
  apply Hnone. reflexivity.
Defined.

(** *** The export handed to parseInputSheet *)

Lemma parseCell_not_Date (idx : nat) (cell : option Gviz.cell) (t : option Z) :
  Spec.json_cell cell -> DataManager.parseCell idx cell <> VDate t.
Proof.
  unfold DataManager.parseCell, Spec.json_cell.
  destruct cell as [cell|]; [|discriminate].
  destruct (Gviz.v cell) as [| | n | s | t']; try discriminate; [| |contradiction];
    intros _; destruct (idx =? 0)%nat; try discriminate;
    destruct (Gviz.f cell) as [[|a r]|]; try discriminate;
    destruct (startsWith "Date(" s); try discriminate;
    destruct (DataManager.match_Date s) as [[[g1 g2] g3]|]; discriminate.
Qed.

Lemma parsed_row_first (cells : list (option Gviz.cell)) :
  Forall Spec.json_cell cells ->
  DataManager.cell (DataManager.mapi_from DataManager.parseCell 0 cells) 0
  <> VDate None.
Proof.
  intros H. destruct H as [|c0 cs H0 _]; [discriminate|].
  cbn. now apply parseCell_not_Date.
Qed.

(** X12.  A response read by [JSON.parse] holds no [Date] object, and the
    rows [parseGoogleVizResponse] makes of it always go through
    [parseInputSheet]: the call returns, never raising the RangeError of an
    invalid date, with at most one entry for each row of the table. *)
Theorem parseInputSheet_of_export (data : Gviz.response) :
  Spec.json_response data ->
  exists entries,
    DataManager.parseInputSheet (DataManager.parseGoogleVizResponse data)
    = Ok entries
    /\ (length entries <= length (Spec.table_rows data))%nat.
Proof.
  unfold Spec.json_response, Spec.table_rows, DataManager.parseGoogleVizResponse.
  destruct (Gviz.table_of data) as [table|]; [|intros _; exists []; split; [reflexivity|cbn; lia]].
  destruct (Gviz.rows table) as [rows|]; cbn [default];
    [|intros _; exists []; split; [reflexivity|cbn; lia]].
  intros H. rewrite parseInputSheet_cons.
  destruct (parseRows_outcome
              (map (fun row => DataManager.mapi_from DataManager.parseCell 0 (Gviz.c row))
                   rows)) as [Hok _].
  destruct Hok as (entries & He & Hlen).
  - apply List.Forall_forall. intros r Hr.
    apply in_map_iff in Hr as (row & <- & Hrow).
    apply parsed_row_first.
    exact (proj1 (List.Forall_forall _ _) H row Hrow).
  - exists entries. split; [exact He|]. rewrite Hlen.
    etransitivity; [apply List.filter_length_le|]. now rewrite length_map.
Qed.

(** Witness for X12: a date cell, a cell without a value and a missing cell. *)
Lemma parseInputSheet_of_export_witness :
  let rows := [Gviz.mkRow [Some (Gviz.mkCell (VStr "Date(2026,0,8)") None);
                           Some (Gviz.mkCell (VNum (Fin 100)) (Some "100"))];
               Gviz.mkRow [Some (Gviz.mkCell VNull None); None]] in
  let table := Gviz.mkTable [Gviz.mkCol (Some "date"); Gviz.mkCol None] (Some rows) in
  exists entries,
    DataManager.parseInputSheet
      (DataManager.parseGoogleVizResponse (Gviz.mkResponse (Some table)))
    = Ok entries
    /\ (length entries <= 2)%nat.
Proof.
  intros rows table.
  apply (parseInputSheet_of_export (Gviz.mkResponse (Some table))).
  repeat constructor.
Defined.

(** *** A date cell, from the export to the entry *)

Lemma length_append (a b : string) :
  String.length (String.append a b) = (String.length a + String.length b)%nat.
Proof.
  induction a as [|c a IH]; [reflexivity|].
  change (String c a +:+ b) with (String c (a +:+ b)).
  cbn [String.length]. now rewrite IH.
Qed.

Lemma length_repeat_char (c : ascii) (k : nat) : String.length (repeat_char c k) = k.
Proof.
  induction k as [|k IH]; [reflexivity|].
  cbn [repeat_char String.length]. now rewrite IH.
Qed.

Lemma padStart_length (n : nat) (c : ascii) (s : string) :
  String.length (padStart n c s) = Nat.max n (String.length s).
Proof. unfold padStart. rewrite length_append, length_repeat_char. lia. Qed.

Lemma padStart_long (n : nat) (c : ascii) (s : string) :
  (n <= String.length s)%nat -> padStart n c s = s.
Proof.
  intros H. unfold padStart. replace (n - String.length s)%nat with 0%nat by lia.
  reflexivity.
Qed.

Lemma string_of_N_short (n : N) :
  (n < 100)%N -> (String.length (string_of_N n) <= 2)%nat.
Proof.
  intros H.
  assert (E : forallb (fun k => String.length (string_of_N (N.of_nat k)) <=? 2)%nat
                      (seq 0 100) = true) by (vm_compute; reflexivity).
  rewrite forallb_forall in E.
  specialize (E (N.to_nat n)). rewrite N2Nat.id in E.
  apply Nat.leb_le, E, in_seq. lia.
Qed.

Lemma digits_not_Date (y rest : string) :
  all_digits y = true -> y <> EmptyString ->
  startsWith "Date(" (String.append y rest) = false.
Proof.
  destruct y as [|c y]; [congruence|]. unfold all_digits. cbn.
  intros H _. apply andb_true_iff in H as [Hc _].
  change (String c y +:+ rest) with (String c (y +:+ rest)).
  unfold startsWith. cbn [strip_prefix].
  destruct (Ascii.eqb_spec "D" c) as [<-|]; [discriminate|reflexivity].
Qed.

Lemma slashed_split (y m d : string) :
  all_digits y = true -> all_digits m = true -> all_digits d = true ->
  split_on "/" (Spec.slashed y m d) = [y; m; d].
Proof.
  intros Hy Hm Hd. unfold Spec.slashed.
  rewrite split_on_app by (apply digits_without; [reflexivity|exact Hy]).
  rewrite split_on_app by (apply digits_without; [reflexivity|exact Hm]).
  rewrite split_on_absent by (apply digits_without; [reflexivity|exact Hd]).
  reflexivity.
Qed.

Lemma match_Date_at_groups (s g1 g2 g3 : string) :
  DataManager.match_Date_at s = Some (g1, g2, g3) ->
  g1 <> EmptyString /\ g2 <> EmptyString /\ g3 <> EmptyString.
Proof.
  unfold DataManager.match_Date_at.
  destruct (strip_prefix "Date(" s) as [r0|]; [|discriminate].
  destruct (span_digits r0) as [y r1].
  destruct (match strip_prefix "," r1 with
            | Some r2 => span_digits r2
            | None => (EmptyString, r1)
            end) as [m r3].
  destruct (match strip_prefix "," r3 with
            | Some r4 => span_digits r4
            | None => (EmptyString, r3)
            end) as [d r5].
  destruct y, m, d, (strip_prefix ")" r5); try discriminate.
  intros [= <- <- <-]. repeat split; discriminate.
Qed.

Lemma match_Date_groups (s g1 g2 g3 : string) :
  DataManager.match_Date s = Some (g1, g2, g3) ->
  g1 <> EmptyString /\ g2 <> EmptyString /\ g3 <> EmptyString.
Proof.
  induction s as [|c s IH]; cbn [DataManager.match_Date].
  - destruct (DataManager.match_Date_at EmptyString) eqn:E; [|discriminate].
    intros [= ->]. eapply match_Date_at_groups; eauto.
  - destruct (DataManager.match_Date_at (String c s)) eqn:E.
    + intros [= ->]. eapply match_Date_at_groups; eauto.
    + exact IH.
Qed.

Lemma parseCell_Date (cell : Gviz.cell) (s y m d : string) :
  Gviz.v cell = VStr s -> Spec.unformatted cell ->
  startsWith "Date(" s = true -> DataManager.match_Date s = Some (y, m, d) ->
  DataManager.parseCell 0 (Some cell)
  = VStr (Spec.slashed y (padStart 2 "0" (string_of_N (N_of_digits m + 1)))
                       (padStart 2 "0" d)).
Proof.
  intros Hv Hf Hs Hm. unfold DataManager.parseCell, Spec.unformatted in *.
  rewrite Hv. cbn [Nat.eqb]. rewrite Hs, Hm.
  destruct (Gviz.f cell) as [[|a r]|]; [reflexivity|contradiction|reflexivity].
Qed.

(** X13.  A first cell of the export that holds the text [Date(y,m,d)] and
    no formatted text reaches the entry by two conversions, to the slash
    date [y/mm/dd] in [parseGoogleVizResponse] and from there to the dashed
    date in [parseInputSheet].  With a year of four digits, a month below
    99 and a day of at most two digits, the entry gets the same date
    [y-mm-dd] as the text itself would give, the month counted from 1 and
    both padded to two digits; with a year of another length the slash date
    is no date text [parseInputSheet] knows, and stays as it is. *)
Theorem parseCell_date_normalized (cell : Gviz.cell) (s y m d : string) :
  Gviz.v cell = VStr s -> Spec.unformatted cell ->
  startsWith "Date(" s = true -> DataManager.match_Date s = Some (y, m, d) ->
  (N_of_digits m < 99)%N -> (String.length d <= 2)%nat ->
  let month := padStart 2 "0" (string_of_N (N_of_digits m + 1)) in
  let day := padStart 2 "0" d in
  DataManager.normalizeDate (VStr s) = Ok (VStr (DataManager.dashed y month day))
  /\ (String.length y = 4%nat ->
      DataManager.normalizeDate (DataManager.parseCell 0 (Some cell))
      = Ok (VStr (DataManager.dashed y month day)))
  /\ (String.length y <> 4%nat ->
      DataManager.normalizeDate (DataManager.parseCell 0 (Some cell))
      = Ok (VStr (Spec.slashed y month day))).
Proof.
  intros Hv Hf Hs Hmatch Hm Hd month day.
  destruct (match_Date_digits _ _ _ _ Hmatch) as (Dy & Dm & Dd).
  destruct (match_Date_groups _ _ _ _ Hmatch) as (Ny & Nm & Nd).
  assert (Dmonth : all_digits month = true).
  { unfold month. rewrite padStart_digits. apply string_of_N_digits. }
  assert (Dday : all_digits day = true).
  { unfold day. now rewrite padStart_digits. }
  assert (Lmonth : String.length month = 2%nat).
  { unfold month. rewrite padStart_length.
    pose proof (string_of_N_short (N_of_digits m + 1)). lia. }
  assert (Lday : String.length day = 2%nat).
  { unfold day. rewrite padStart_length. lia. }
  split; [|split].
  - unfold DataManager.normalizeDate. rewrite Hs, Hmatch. reflexivity.
  - intros Ly. rewrite (parseCell_Date cell s y m d Hv Hf Hs Hmatch).
    fold month day. unfold DataManager.normalizeDate.
    unfold Spec.slashed at 1. rewrite (digits_not_Date y _ Dy Ny).
    unfold DataManager.match_full_slash, DataManager.d12.
    rewrite (slashed_split y month day Dy Dmonth Dday).
    rewrite Dy, Dmonth, Dday, Ly, Lmonth, Lday. cbn [andb Nat.eqb Nat.leb].
    cbn [DataManager.part nth].
    rewrite !padStart_long by lia. reflexivity.
  - intros Ly. rewrite (parseCell_Date cell s y m d Hv Hf Hs Hmatch).
    fold month day. unfold DataManager.normalizeDate.
    unfold Spec.slashed at 1. rewrite (digits_not_Date y _ Dy Ny).
    unfold DataManager.match_full_slash, DataManager.match_partial_slash.
    rewrite (slashed_split y month day Dy Dmonth Dday).
    apply Nat.eqb_neq in Ly. rewrite Ly, andb_false_r. reflexivity.
Qed.

(** Witness for X13: 8 January 2026, and a year of two digits. *)
Lemma parseCell_date_normalized_witness :
  DataManager.normalizeDate
    (DataManager.parseCell 0 (Some (Gviz.mkCell (VStr "Date(2026,0,8)") None)))
  = Ok (VStr "2026-01-08")
  /\ DataManager.normalizeDate
       (DataManager.parseCell 0 (Some (Gviz.mkCell (VStr "Date(26,0,8)") None)))
     = Ok (VStr "26/01/08").
Proof.
  split.
  - apply (parseCell_date_normalized
             (Gviz.mkCell (VStr "Date(2026,0,8)") None) "Date(2026,0,8)"
             "2026" "0" "8"); try reflexivity; try exact I.
    cbn. lia.
  - apply (parseCell_date_normalized
             (Gviz.mkCell (VStr "Date(26,0,8)") None) "Date(26,0,8)"
             "26" "0" "8"); try reflexivity; try exact I.
    + cbn. lia.
    + cbn. lia.
Defined.

(** *** parseSettingsSheet *)

Lemma settings_step_lookup (h : Host.t) (settings : gmap string setting)
    (row : list value) (k : string) :
  k <> DataManager.proto_key ->
  DataManager.settings_step h settings row !! k
  = if Spec.writes h k row
    then Some (SValue (DataManager.number_or_self (DataManager.cell row 1)))
    else settings !! k.
Proof.
  intros Hk. unfold DataManager.settings_step, Spec.writes.
  destruct (ToBoolean (DataManager.cell row 0) && DataManager.defined (DataManager.cell row 1));
    [|reflexivity].
  cbn [andb].
  destruct (String.eqb_spec (DataManager.ToPropertyKey h (DataManager.cell row 0)) k)
    as [->|Hne].
  - apply String.eqb_neq in Hk. rewrite Hk. apply lookup_insert_eq.
  - destruct (String.eqb _ DataManager.proto_key); [reflexivity|].
    now apply lookup_insert_ne.
Qed.

Lemma settings_loop_lookup (h : Host.t) (rows : list (list value))
    (settings : gmap string setting) (k : string) :
  k <> DataManager.proto_key ->
  fold_left (DataManager.settings_step h) rows settings !! k
  = match last (List.filter (Spec.writes h k) rows) with
    | Some row => Some (SValue (DataManager.number_or_self (DataManager.cell row 1)))
    | None => settings !! k
    end.
Proof.
  intros Hk. revert settings.
  induction rows as [|row rows IH]; intros settings; [reflexivity|].
  cbn [fold_left List.filter]. rewrite IH, (settings_step_lookup h settings row k Hk).
  destruct (Spec.writes h k row); [|reflexivity].
  rewrite last_cons. destruct (last (List.filter (Spec.writes h k) rows)); reflexivity.
Qed.

Lemma settings_loop_proto (h : Host.t) (rows : list (list value))
    (settings : gmap string setting) :
  fold_left (DataManager.settings_step h) rows settings !! DataManager.proto_key
  = settings !! DataManager.proto_key.
Proof.
  revert settings. induction rows as [|row rows IH]; intros settings; [reflexivity|].
  cbn [fold_left]. rewrite IH. unfold DataManager.settings_step.
  destruct (_ && _); [|reflexivity].
  destruct (String.eqb_spec (DataManager.ToPropertyKey h (DataManager.cell row 0))
                            DataManager.proto_key) as [E|E]; [reflexivity|].
  now apply lookup_insert_ne.
Qed.

(** X14.  The settings [parseSettingsSheet] answers for a sheet of two rows
    or more: a property [k] holds what the last row written for [k] gives,
    the number its value cell reads as (0 for a blank cell) or, when it
    reads as no number, the cell as it is; a property no row writes holds the
    default, so the goals are the default goals unless a row is keyed
    [goals]; and there is never a property [__proto__].  A row writes [k]
    when its key is truthy with [k] as its name and its value cell is not
    undefined.  A sheet of fewer than two rows gives the defaults. *)
Theorem parseSettingsSheet_lookup (h : Host.t) (rows : list (list value)) (k : string) :
  ((length rows < 2)%nat ->
   DataManager.parseSettingsSheet h rows
   = DataManager.object_of DataManager.getDefaultSettings)
  /\ ((2 <= length rows)%nat -> k <> DataManager.proto_key ->
      DataManager.parseSettingsSheet h rows !! k
      = match last (List.filter (Spec.writes h k) (tl rows)) with
        | Some row =>
            Some (SValue (DataManager.number_or_self (DataManager.cell row 1)))
        | None => DataManager.object_of DataManager.getDefaultSettings !! k
        end)
  /\ DataManager.parseSettingsSheet h rows !! DataManager.proto_key = None.
Proof.
  unfold DataManager.parseSettingsSheet. split; [|split].
  - intros H. apply Nat.ltb_lt in H. now rewrite H.
  - intros H Hk. apply Nat.ltb_ge in H. rewrite H.
    rewrite lookup_union, (settings_loop_lookup h (tl rows) ∅ k Hk), lookup_empty.
    destruct (last (List.filter (Spec.writes h k) (tl rows))).
    + destruct (_ !! k); reflexivity.
    + destruct (_ !! k); reflexivity.
  - destruct (length rows <? 2)%nat.
    + vm_compute. reflexivity.
    + rewrite lookup_union, settings_loop_proto, lookup_empty.
      vm_compute. reflexivity.
Qed.

(** Witness for X14: the height is written twice, the second time with a
    blank cell; the row of the age has no value cell; no row writes the
    goals. *)
Lemma parseSettingsSheet_lookup_witness :
  let h := Host.mk (fun _ => "0") (fun _ => "0") (fun _ => "Invalid Date") in
  let rows := [[VStr "key"; VStr "value"]; [VStr "height"; VStr "170"];
               [VStr "height"; VStr EmptyString]; [VStr "age"]] in
  DataManager.parseSettingsSheet h rows !! "height" = Some (SValue (VNum (Fin 0)))
  /\ DataManager.parseSettingsSheet h rows !! "age" = Some (SValue (VNum (Fin 30)))
  /\ DataManager.parseSettingsSheet h rows !! "goals"
     = Some (SGoals (default DataManager.no_goals
                       (Settings.goals DataManager.getDefaultSettings))).
Proof.
  intros h rows. split; [|split].
  - destruct (parseSettingsSheet_lookup h rows "height") as (_ & H & _).
    rewrite H; [reflexivity|cbn; lia|discriminate].
  - destruct (parseSettingsSheet_lookup h rows "age") as (_ & H & _).
    rewrite H; [reflexivity|cbn; lia|discriminate].
  - destruct (parseSettingsSheet_lookup h rows "goals") as (_ & H & _).
    rewrite H; [reflexivity|cbn; lia|discriminate].
Defined.

(** *** parseDailyLogSheet and parseWeeklySheet *)

Lemma number_or_null_cases (v : value) :
  Spec.null_or_nonzero (DataManager.number_or_null v).
Proof.
  unfold DataManager.number_or_null, Spec.null_or_nonzero.
  destruct (truthy_num (Number v)) eqn:E; [right; eauto|left; reflexivity].
Qed.

Section NamedRows.

Variables (h : Host.t) (text : value -> bool) (K : string -> Prop).

Hypothesis text_key : forall header, text header = true -> K (DataManager.ToPropertyKey h header).

(** What every property of an entry satisfies. *)
Local Abbreviation good entry :=
  (forall k v, (entry : gmap string value) !! k = Some v -> K k \/ Spec.null_or_nonzero v).

Lemma assign_good (key : string) (stored : value) (entry : gmap string value)
    (plain : bool) :
  good entry -> K key \/ Spec.null_or_nonzero stored ->
  good (DataManager.assign key stored entry plain).1.
Proof.
  intros He Hs k v. unfold DataManager.assign.
  destruct (String.eqb key DataManager.proto_key && plain).
  - destruct stored; apply He.
  - cbn [fst]. destruct (decide (key = k)) as [->|Hne].
    + rewrite lookup_insert_eq. intros [= <-]. exact Hs.
    + rewrite lookup_insert_ne by exact Hne. apply He.
Qed.

Lemma named_cell_good (row : list value) (st : gmap string value * bool * nat)
    (header : value) :
  good st.1.1 -> good (DataManager.named_cell h text row st header).1.1.
Proof.
  destruct st as [[entry plain] index]. cbn [fst]. intros He.
  unfold DataManager.named_cell. cbn [fst]. apply assign_good; [exact He|].
  destruct (text header) eqn:Ht; [left; now apply text_key|right].
  destruct (DataManager.cell row index) as [| | n | [|a r] | t];
    try apply number_or_null_cases; left; reflexivity.
Qed.

Lemma named_cells_good (row : list value) (headers : list value)
    (st : gmap string value * bool * nat) :
  good st.1.1 -> good (fold_left (DataManager.named_cell h text row) headers st).1.1.
Proof.
  revert st. induction headers as [|header headers IH]; intros st Hst; [exact Hst|].
  cbn [fold_left]. apply IH. now apply named_cell_good.
Qed.

Lemma named_rows_good (headers : list value) (rows : list (list value))
    (data : list (gmap string value)) :
  Forall (fun entry => good entry) data ->
  Forall (fun entry => good entry) (DataManager.named_rows h text headers rows data).
Proof.
  revert data. induction rows as [|row rows IH]; intros data Hdata; [exact Hdata|].
  cbn [DataManager.named_rows].
  destruct (negb (ToBoolean (DataManager.cell row 0))); [now apply IH|].
  apply IH. unfold DataManager.push. apply Forall_app. split; [exact Hdata|].
  constructor; [|constructor].
  apply named_cells_good. cbn [fst]. intros k v Hk. rewrite lookup_empty in Hk.
  discriminate.
Qed.

Lemma named_rows_length (headers : list value) (rows : list (list value))
    (data : list (gmap string value)) :
  length (DataManager.named_rows h text headers rows data)
  = (length data
     + length (List.filter (fun row => ToBoolean (DataManager.cell row 0)) rows))%nat.
Proof.
  revert data. induction rows as [|row rows IH]; intros data.
  - cbn. lia.
  - cbn [DataManager.named_rows List.filter].
    destruct (ToBoolean (DataManager.cell row 0)); cbn [negb].
    + rewrite IH. unfold DataManager.push. rewrite length_app. cbn [length]. lia.
    + apply IH.
Qed.

End NamedRows.

(** X15.  [parseDailyLogSheet] and [parseWeeklySheet] answer one entry for
    each data row with a truthy first cell.  In such an entry a property
    other than the texts ([date] and [notes] in the daily log, [date] in the
    weekly sheet) is null or a number that is neither 0 nor NaN: a cell
    holding 0, a blank or a word is read as null, where [parseInputSheet]
    keeps the 0. *)
Theorem named_sheets_numbers (h : Host.t) (rows : list (list value)) :
  let dated := List.filter (fun row => ToBoolean (DataManager.cell row 0)) (tl rows) in
  length (DataManager.parseDailyLogSheet h rows) = length dated
  /\ length (DataManager.parseWeeklySheet h rows) = length dated
  /\ (forall entry k v,
        In entry (DataManager.parseDailyLogSheet h rows) -> entry !! k = Some v ->
        k <> "date" -> k <> "notes" -> Spec.null_or_nonzero v)
  /\ (forall entry k v,
        In entry (DataManager.parseWeeklySheet h rows) -> entry !! k = Some v ->
        k <> "date" -> Spec.null_or_nonzero v).
Proof.
  intros dated. subst dated.
  unfold DataManager.parseDailyLogSheet, DataManager.parseWeeklySheet.
  assert (Hshort : (length rows <? 2)%nat = true ->
                   List.filter (fun row => ToBoolean (DataManager.cell row 0)) (tl rows) = []).
  { intros H. apply Nat.ltb_lt in H. destruct rows as [|r0 [|r1 rows]]; cbn in *;
      [reflexivity..|lia]. }
  destruct (length rows <? 2)%nat eqn:E.
  - rewrite (Hshort eq_refl). repeat split; intros ? ? ? [].
  - split; [apply named_rows_length|]. split; [apply named_rows_length|]. split.
    + intros entry k v Hin Hk Hdate Hnotes.
      pose proof (named_rows_good h
                    (fun header => DataManager.header_is "date" header
                                   || DataManager.header_is "notes" header)
                    (fun k => k = "date" \/ k = "notes")) as G.
      eapply List.Forall_forall in G; [destruct (G k v Hk) as [[?|?]|?]; [congruence..|assumption]| | |exact Hin].
      * intros header Ht. apply orb_true_iff in Ht.
        destruct header as [| | n | s | t]; cbn in Ht; try (destruct Ht; discriminate).
        destruct Ht as [Ht|Ht]; apply String.eqb_eq in Ht; subst; cbn; auto.
      * constructor.
    + intros entry k v Hin Hk Hdate.
      pose proof (named_rows_good h (DataManager.header_is "date")
                    (fun k => k = "date")) as G.
      eapply List.Forall_forall in G; [destruct (G k v Hk) as [?|?]; [congruence|assumption]| | |exact Hin].
      * intros header Ht.
        destruct header as [| | n | s | t]; cbn in Ht; try discriminate.
        apply String.eqb_eq in Ht; subst; reflexivity.
      * constructor.
Qed.

(** Witness for X15: a daily log with a weight of 0. *)
Lemma named_sheets_numbers_witness :
  let h := Host.mk (fun _ => "0") (fun _ => "0") (fun _ => "Invalid Date") in
  let rows := [[VStr "date"; VStr "weight"; VStr "notes"];
               [VStr "1/8"; VStr "0"; VStr "ok"]; [VStr EmptyString; VStr "90"]] in
  length (DataManager.parseDailyLogSheet h rows) = 1%nat
  /\ Spec.null_or_nonzero VNull.
Proof.
  intros h rows.
  destruct (named_sheets_numbers h rows) as (Hlen & _ & Hnum & _).
  split; [exact Hlen|].
  apply (Hnum {[ "date" := VStr "1/8"; "weight" := VNull; "notes" := VStr "ok" ]}
              "weight" VNull); [left; reflexivity|reflexivity|discriminate..].
Defined.

(** *** The two copies of the row parser *)

Lemma Qis0_zero (q : Q) : Qis0 q = true -> (q == 0)%Q.
Proof.
  unfold Qis0. destruct (Qcompare_spec q 0) as [E|E|E]; [trivial|discriminate..].
Qed.

Lemma number_or_null_alike (v : value) :
  ~ Spec.read_differently v -> Legacy.number_or_null v = DataManager.parseNum v.
Proof.
  unfold Legacy.number_or_null, DataManager.parseNum, Spec.read_differently.
  intros H. destruct v as [| | n | [|a r] | [t|]]; cbn [ToBoolean Number];
    try reflexivity.
  - destruct n as [| | |q]; cbn [truthy_num isNaN]; try reflexivity.
    destruct (Qis0 q) eqn:Z; [|reflexivity].
    exfalso. apply H. left. exists q. split; [reflexivity|now apply Qis0_zero].
  - change (negb (String.eqb (String a r) EmptyString)) with true. cbv iota.
    destruct (StringToNumber (String a r)) eqn:E; cbn [isNaN]; try reflexivity.
    exfalso. apply H. right. now split.
  - exfalso. apply H. right. now split.
Qed.

(** X16.  The older copy of the row parser reads a numeric cell by
    [v ? Number(v) : null], the newer one by [parseNum].  The two agree on
    every cell but two kinds: the number 0, which the older copy drops and
    the newer one keeps, and a truthy cell that is no number (a word, an
    invalid date), which the older copy reads as NaN and the newer one as
    null. *)
Theorem legacy_number_or_null_agrees (v : value) :
  Legacy.number_or_null v = DataManager.parseNum v <-> ~ Spec.read_differently v.
Proof.
  split; [|apply number_or_null_alike].
  unfold Legacy.number_or_null, DataManager.parseNum.
  intros E [(q & -> & Hq)|[Ht Hn]].
  - cbn [ToBoolean truthy_num Number isNaN] in E.
    rewrite (Qis0_true q Hq) in E. discriminate E.
  - rewrite Ht, Hn in E. cbn [isNaN] in E.
    destruct v as [| | n | [|a r] | [t|]]; discriminate E.
Qed.

Lemma legacy_normalizeDate_agrees (v : value) :
  ~ Spec.dated_differently v -> Legacy.normalizeDate v = DataManager.normalizeDate v.
Proof.
  intros H. unfold Legacy.normalizeDate, DataManager.normalizeDate.
  destruct v as [| | n | s | t]; try reflexivity.
  destruct (startsWith "Date(" s) eqn:Es; [reflexivity|].
  destruct (DataManager.match_full_slash s) eqn:Ef; [|reflexivity].
  exfalso. apply H. exists s. auto.
Qed.

Lemma legacy_parseRow_agrees (row : list value) :
  Spec.read_alike row -> Legacy.parseRow row = DataManager.parseRow row.
Proof.
  intros (Hd & H1 & H2 & H3 & H4). unfold Legacy.parseRow, DataManager.parseRow.
  rewrite (legacy_normalizeDate_agrees _ Hd).
  apply number_or_null_alike in H1, H2, H3, H4.
  rewrite H1, H2, H3, H4. reflexivity.
Qed.

Lemma legacy_parseRows_agree (rows : list (list value)) (data : list Entry.t) :
  Forall Spec.read_alike rows ->
  Legacy.parseRows rows data = DataManager.parseRows rows data.
Proof.
  intros H. revert data. induction H as [|row rows Hrow _ IH]; intros data;
    [reflexivity|].
  cbn [Legacy.parseRows DataManager.parseRows].
  rewrite (legacy_parseRow_agrees row Hrow).
  destruct (DataManager.parseRow row) as [[entry|]|e]; cbn [bind]; auto.
Qed.

(** X17.  The two copies of [parseInputSheet] answer the same for a sheet
    none of whose data rows has a first cell that is a slash date with a
    year of four digits (the older copy knows no such date and leaves it as
    it is) or, in the columns of weight, waist, steps and calories, a 0 or a
    truthy cell that is no number. *)
Theorem legacy_parseInputSheet_agrees (rows : list (list value)) :
  Forall Spec.read_alike (tl rows) ->
  Legacy.parseInputSheet rows = DataManager.parseInputSheet rows.
Proof.
  intros H. unfold Legacy.parseInputSheet, DataManager.parseInputSheet.
  destruct (length rows <? 2)%nat; [reflexivity|].
  now apply legacy_parseRows_agree.
Qed.

(** Witness for X16: a numeric text is read alike by both copies. *)
Lemma legacy_number_or_null_agrees_witness :
  Legacy.number_or_null (VStr "90") = DataManager.parseNum (VStr "90").
Proof.
  apply legacy_number_or_null_agrees.
  intros [(q & [=] & _)|[_ H]]. vm_compute in H. discriminate H.
Defined.

(** Witness for X17: a sheet with a short slash date, a weight, a blank, a
    null and a numeric text. *)
Lemma legacy_parseInputSheet_agrees_witness :
  Legacy.parseInputSheet
    [[VStr "date"]; [VStr "1/8"; VNum (Fin 100); VStr EmptyString; VNull; VStr "2500"]]
  = DataManager.parseInputSheet
      [[VStr "date"]; [VStr "1/8"; VNum (Fin 100); VStr EmptyString; VNull; VStr "2500"]].
Proof.
  apply legacy_parseInputSheet_agrees. cbn [tl].
  constructor; [|constructor]. unfold Spec.read_alike. cbn.
  split; [intros (s & [= <-] & _ & H); discriminate H|].
  split; [intros [(q & [= <-] & H)|[_ H]]; [inversion H|discriminate H]|].
  split; [intros [(q & [=] & _)|[H _]]; discriminate H|].
  split; [intros [(q & [=] & _)|[H _]]; discriminate H|].
  intros [(q & [=] & _)|[_ H]]. vm_compute in H. discriminate H.
Defined.

(** *** checkDataCompleteness: when there is nothing to warn about *)

Lemma push_not_nil {A : Type} (l : list A) (x : A) : DataManager.push l x <> [].
Proof. unfold DataManager.push. destruct l; discriminate. Qed.

Lemma check_step_today (logs : list Entry.t) (meals : option MealsByDate)
    (today : JSDate.civil) :
  App.check_step logs meals today [] 0 = [] <-> Spec.morning_done (Spec.log_of logs today 0).
Proof.
  unfold App.check_step, Spec.log_of, Spec.morning_done.
  destruct (find _ logs) as [log|]; [|cbn; tauto].
  cbn [Nat.eqb Nat.ltb Nat.leb].
  destruct (truthy (Entry.weight log)), (truthy (Entry.waist log)); cbn;
    split; try tauto; try discriminate; intros [? ?]; discriminate.
Qed.

Lemma check_step_before (logs : list Entry.t) (meals : option MealsByDate)
    (today : JSDate.civil) (i : nat) :
  (0 < i)%nat ->
  App.check_step logs meals today [] i = []
  <-> Spec.day_done (Spec.log_of logs today i) /\ Spec.has_meals meals today i.
Proof.
  intros Hi. unfold App.check_step, Spec.log_of, Spec.day_done, Spec.has_meals.
  apply Nat.ltb_lt in Hi. rewrite Hi.
  assert (Hz : (i =? 0)%nat = false) by (apply Nat.eqb_neq; apply Nat.ltb_lt in Hi; lia).
  rewrite Hz.
  set (dateStr := JSDate.format_YYYY_MM_DD (JSDate.subtract_days i today)).
  destruct (find _ logs) as [log|].
  2:{ split; [intros H; now apply push_not_nil in H|intros [[] _]]. }
  assert (Hm : (match meals with
                | Some m => bool_decide (is_Some (m !! dateStr))
                | None => false
                end) = true
               <-> exists m, meals = Some m /\ is_Some (m !! dateStr)).
  { destruct meals as [m|].
    - rewrite bool_decide_eq_true. split; [eauto|]. now intros (m' & [= <-] & H).
    - split; [discriminate|]. intros (m' & [=] & _). }
  destruct (match meals with
            | Some m => bool_decide (is_Some (m !! dateStr))
            | None => false
            end) eqn:Em;
    destruct (truthy (Entry.weight log)), (truthy (Entry.waist log)),
             (truthy (Entry.calories_intake log));
    destruct (Entry.steps log) as [st|] eqn:Es; cbn;
    split; try discriminate;
    try (intros [(? & ? & ? & ?) ?]; try discriminate; try congruence);
    try (intros _; split; [repeat split; congruence|now apply Hm]).
  all: try (exfalso; match goal with H : ex _ |- _ => apply Hm in H; discriminate H end).
Qed.

(** X18.  The completeness check has nothing to show exactly when the
    reference date has no entry yet or one with weight and waist, and each
    of the two days before has an entry with weight, waist, calories and
    steps (a weight, waist or calorie count of 0 is missing; a step count of
    0 is not) and its meals in the meal file. *)
Theorem checkDataCompleteness_quiet (logs : list Entry.t)
    (meals : option MealsByDate) (today : JSDate.civil) :
  App.checkDataCompleteness logs meals today = []
  <-> Spec.morning_done (Spec.log_of logs today 0)
      /\ (Spec.day_done (Spec.log_of logs today 1) /\ Spec.has_meals meals today 1)
      /\ (Spec.day_done (Spec.log_of logs today 2) /\ Spec.has_meals meals today 2).
Proof.
  rewrite checkDataCompleteness_added.
  rewrite <- (check_step_today logs meals today).
  rewrite <- (check_step_before logs meals today 1) by lia.
  rewrite <- (check_step_before logs meals today 2) by lia.
  split.
  - intros H. apply app_eq_nil in H as [H0 H]. apply app_eq_nil in H as [H1 H2].
    auto.
  - intros (-> & -> & ->). reflexivity.
Qed.

(** Witness for X18: on 10 January 2026, with the two days before logged in
    full and no entry for the day itself. *)
Lemma checkDataCompleteness_quiet_witness :
  let day date := Entry.mk (VStr date) (Some (Fin 100)) (Some (Fin 95))
                           (Some (Fin 0)) (Some (Fin 2500)) None None None
                           (VStr EmptyString) in
  let meals : MealsByDate := {[ "2026-01-09" := ∅; "2026-01-08" := ∅ ]} in
  App.checkDataCompleteness [day "2026-01-08"; day "2026-01-09"] (Some meals)
    (JSDate.mkCivil 2026 1 10) = [].
Proof.
  intros day meals. apply checkDataCompleteness_quiet.
  split; [exact I|].
  split; (split; [repeat split; discriminate|]);
    (exists meals; split; [reflexivity|]; eexists; vm_compute; reflexivity).
Defined.

(** *** Slash dates *)

Lemma d12_parts (s : string) :
  DataManager.d12 s = true ->
  all_digits s = true /\ s <> EmptyString /\ (String.length s <= 2)%nat.
Proof.
  unfold DataManager.d12. intros H.
  apply andb_true_iff in H as [H H2]. apply andb_true_iff in H as [H0 H1].
  apply Nat.leb_le in H1, H2. repeat split; trivial.
  intros ->. cbn in H1. lia.
Qed.

Lemma dashed_split (y m d : string) :
  all_digits y = true -> all_digits m = true -> all_digits d = true ->
  split_on "-" (DataManager.dashed y m d) = [y; m; d].
Proof.
  intros Hy Hm Hd. unfold DataManager.dashed.
  rewrite split_on_app by (apply digits_without; [reflexivity|exact Hy]).
  rewrite split_on_app by (apply digits_without; [reflexivity|exact Hm]).
  rewrite split_on_absent by (apply digits_without; [reflexivity|exact Hd]).
  reflexivity.
Qed.

Lemma read_dashed_padded (y m d : string) :
  all_digits y = true -> all_digits m = true -> all_digits d = true ->
  Spec.read_dashed (DataManager.dashed y (padStart 2 "0" m) (padStart 2 "0" d))
  = [N_of_digits y; N_of_digits m; N_of_digits d].
Proof.
  intros Hy Hm Hd. unfold Spec.read_dashed.
  rewrite dashed_split by (rewrite ?padStart_digits; assumption).
  cbn [map]. now rewrite !padStart_value.
Qed.

(** X19.  A slash date keeps its numbers through the normalization.  The
    text [y/m/d], with a year of four digits and a month and a day of one or
    two digits, becomes a dashed text of 10 characters that reads as the
    year, the month and the day of the slash date; the text [m/d] becomes
    one that reads as the year 2026 with that month and that day, whatever
    the year in which it is parsed. *)
Theorem normalizeDate_slash (y m d : string) :
  DataManager.d12 m = true -> DataManager.d12 d = true ->
  (all_digits y = true -> String.length y = 4%nat ->
   exists w,
     DataManager.normalizeDate (VStr (Spec.slashed y m d)) = Ok (VStr w)
     /\ String.length w = 10%nat
     /\ Spec.read_dashed w = [N_of_digits y; N_of_digits m; N_of_digits d])
  /\ (exists w,
        DataManager.normalizeDate (VStr (String.append m (String "/" d))) = Ok (VStr w)
        /\ String.length w = 10%nat
        /\ Spec.read_dashed w = [2026%N; N_of_digits m; N_of_digits d]).
Proof.
  intros Hm Hd.
  destruct (d12_parts m Hm) as (Dm & Nm & Lm).
  destruct (d12_parts d Hd) as (Dd & Nd & Ld).
  assert (Lpm : String.length (padStart 2 "0" m) = 2%nat)
    by (rewrite padStart_length; lia).
  assert (Lpd : String.length (padStart 2 "0" d) = 2%nat)
    by (rewrite padStart_length; lia).
  split.
  - intros Dy Ly.
    assert (Ny : y <> EmptyString) by (intros ->; discriminate Ly).
    eexists. split; [|split].
    + unfold DataManager.normalizeDate. unfold Spec.slashed at 1.
      rewrite (digits_not_Date y _ Dy Ny).
      unfold DataManager.match_full_slash.
      rewrite (slashed_split y m d Dy Dm Dd), Dy, Ly, Hm, Hd.
      cbn [andb Nat.eqb DataManager.part nth]. reflexivity.
    + unfold DataManager.dashed.
      rewrite length_append. cbn [String.length]. rewrite length_append.
      cbn [String.length]. rewrite Ly, Lpm, Lpd. reflexivity.
    + now apply read_dashed_padded.
  - eexists. split; [|split].
    + unfold DataManager.normalizeDate.
      rewrite (digits_not_Date m _ Dm Nm).
      unfold DataManager.match_full_slash, DataManager.match_partial_slash.
      rewrite split_on_app by (apply digits_without; [reflexivity|exact Dm]).
      rewrite split_on_absent by (apply digits_without; [reflexivity|exact Dd]).
      rewrite Hm, Hd. cbn [andb DataManager.part nth]. reflexivity.
    + unfold DataManager.dashed.
      rewrite length_append. cbn [String.length]. rewrite length_append.
      cbn [String.length]. rewrite Lpm, Lpd. reflexivity.
    + now apply read_dashed_padded.
Qed.

(** Witness for X19: 2026/1/8 and 1/8. *)
Lemma normalizeDate_slash_witness :
  (exists w,
     DataManager.normalizeDate (VStr (Spec.slashed "2026" "1" "8")) = Ok (VStr w)
     /\ String.length w = 10%nat
     /\ Spec.read_dashed w = [N_of_digits "2026"; N_of_digits "1"; N_of_digits "8"])
  /\ (exists w,
        DataManager.normalizeDate (VStr (String.append "1" (String "/" "8")))
        = Ok (VStr w)
        /\ String.length w = 10%nat
        /\ Spec.read_dashed w = [2026%N; N_of_digits "1"; N_of_digits "8"]).
Proof.
  destruct (normalizeDate_slash "2026" "1" "8") as [Hfull Hpartial];
    try reflexivity.
  split; [apply Hfull; reflexivity|exact Hpartial].
Defined.

(** *** From a sheet date to the calorie target of its day *)

Lemma normalizeDate_partial (m d : string) :
  DataManager.d12 m = true -> DataManager.d12 d = true ->
  DataManager.normalizeDate (VStr (String.append m (String "/" d)))
  = Ok (VStr (DataManager.dashed "2026" (padStart 2 "0" m) (padStart 2 "0" d))).
Proof.
  intros Hm Hd.
  destruct (d12_parts m Hm) as (Dm & Nm & Lm).
  destruct (d12_parts d Hd) as (Dd & Nd & Ld).
  unfold DataManager.normalizeDate.
  rewrite (digits_not_Date m _ Dm Nm).
  unfold DataManager.match_full_slash, DataManager.match_partial_slash.
  rewrite split_on_app by (apply digits_without; [reflexivity|exact Dm]).
  rewrite split_on_absent by (apply digits_without; [reflexivity|exact Dd]).
  rewrite Hm, Hd. reflexivity.
Qed.

Lemma two_digits (s : string) :
  all_digits s = true -> String.length s = 2%nat ->
  exists a b, s = String a (String b EmptyString)
              /\ is_digit a = true /\ is_digit b = true
              /\ N_of_digits s = (10 * digit_val a + digit_val b)%N.
Proof.
  destruct s as [|a [|b [|c s]]]; try discriminate. intros H _.
  unfold all_digits in H. cbn in H.
  apply andb_true_iff in H as [Ha H]. apply andb_true_iff in H as [Hb _].
  exists a, b. repeat split; trivial.
Qed.

Lemma parse_iso_dashed (y1 y2 y3 y4 : ascii) (m d : string) :
  forallb is_digit [y1; y2; y3; y4] = true ->
  all_digits m = true -> String.length m = 2%nat ->
  all_digits d = true -> String.length d = 2%nat ->
  (1 <= N_of_digits m <= 12)%N -> (1 <= N_of_digits d <= 31)%N ->
  JSDate.parse_iso_date
    (DataManager.dashed (String y1 (String y2 (String y3 (String y4 EmptyString)))) m d)
  = Some (1000 * JSDate.digit_at y1 + 100 * JSDate.digit_at y2
          + 10 * JSDate.digit_at y3 + JSDate.digit_at y4,
          Z.of_N (N_of_digits m), Z.of_N (N_of_digits d)).
Proof.
  intros Hy Dm Lm Dd Ld Rm Rd.
  destruct (two_digits m Dm Lm) as (m1 & m2 & -> & Hm1 & Hm2 & Em).
  destruct (two_digits d Dd Ld) as (d1 & d2 & -> & Hd1 & Hd2 & Ed).
  rewrite Em, Ed in *. clear Em Ed.
  cbn [forallb] in Hy.
  apply andb_true_iff in Hy as [H1 Hy]. apply andb_true_iff in Hy as [H2 Hy].
  apply andb_true_iff in Hy as [H3 Hy]. apply andb_true_iff in Hy as [H4 _].
  unfold DataManager.dashed.
  change (String y1 (String y2 (String y3 (String y4 EmptyString)))
          +:+ String "-" (String m1 (String m2 EmptyString)
                          +:+ String "-" (String d1 (String d2 EmptyString))))
    with (String y1 (String y2 (String y3 (String y4 (String "-"
            (String m1 (String m2 (String "-" (String d1 (String d2 EmptyString)))))))))).
  unfold JSDate.parse_iso_date. cbn [forallb].
  rewrite H1, H2, H3, H4, Hm1, Hm2, Hd1, Hd2. cbn [andb Ascii.eqb].
  change (Ascii.eqb "-" "-") with true. cbn [andb].
  unfold JSDate.digit_at.
  replace (10 * Z.of_N (digit_val m1) + Z.of_N (digit_val m2))
    with (Z.of_N (10 * digit_val m1 + digit_val m2)) by lia.
  replace (10 * Z.of_N (digit_val d1) + Z.of_N (digit_val d2))
    with (Z.of_N (10 * digit_val d1 + digit_val d2)) by lia.
  replace (1 <=? Z.of_N (10 * digit_val m1 + digit_val m2)) with true
    by (symmetry; apply Z.leb_le; lia).
  replace (Z.of_N (10 * digit_val m1 + digit_val m2) <=? 12) with true
    by (symmetry; apply Z.leb_le; lia).
  replace (1 <=? Z.of_N (10 * digit_val d1 + digit_val d2)) with true
    by (symmetry; apply Z.leb_le; lia).
  replace (Z.of_N (10 * digit_val d1 + digit_val d2) <=? 31) with true
    by (symmetry; apply Z.leb_le; lia).
  reflexivity.
Qed.

(** X20.  From the sheet to the target line of the calorie chart: a row
    dated [m/d] (a month 1 to 12, a day 1 to 31) gets the date of that day
    in 2026, and [getCalorieTargetForDate] gives for that date the goal of
    before the change, 2600 when the goals have none, exactly when the day
    is in January before the 20th, and otherwise the calorie goal, 2700
    when the goals have none. *)
Theorem sheet_date_target (m d : string) (settings : Settings.t) :
  DataManager.d12 m = true -> DataManager.d12 d = true ->
  (1 <= N_of_digits m <= 12)%N -> (1 <= N_of_digits d <= 31)%N ->
  let goals := default DataManager.no_goals (Settings.goals settings) in
  exists w,
    DataManager.normalizeDate (VStr (String.append m (String "/" d))) = Ok (VStr w)
    /\ DataManager.getCalorieTargetForDate w settings
       = if ((N_of_digits m =? 1) && (N_of_digits d <? 20))%N
         then or_default (Goals.calories_before_0120 goals) (Fin 2600)
         else or_default (Goals.calories goals) (Fin 2700).
Proof.
  intros Hm Hd Rm Rd goals.
  destruct (d12_parts m Hm) as (Dm & Nm & Lm).
  destruct (d12_parts d Hd) as (Dd & Nd & Ld).
  eexists. split; [apply (normalizeDate_partial m d Hm Hd)|].
  unfold DataManager.getCalorieTargetForDate.
  rewrite (date_geb_change _ 2026 (Z.of_N (N_of_digits m)) (Z.of_N (N_of_digits d))).
  - fold (default DataManager.no_goals (Settings.goals settings)). fold goals.
    unfold Spec.before_change.
    change (2026 <? 2026) with false. change (2026 =? 2026) with true.
    cbn [orb andb].
    replace (Z.of_N (N_of_digits m) <? 1) with false
      by (symmetry; apply Z.ltb_ge; lia).
    cbn [orb].
    replace (Z.of_N (N_of_digits m) =? 1) with (N_of_digits m =? 1)%N
      by (destruct (N.eqb_spec (N_of_digits m) 1) as [->|];
          [reflexivity|symmetry; apply Z.eqb_neq; lia]).
    replace (Z.of_N (N_of_digits d) <? 20) with (N_of_digits d <? 20)%N
      by (destruct (N.ltb_spec (N_of_digits d) 20);
          [symmetry; apply Z.ltb_lt; lia|symmetry; apply Z.ltb_ge; lia]).
    destruct ((N_of_digits m =? 1)%N && (N_of_digits d <? 20)%N); reflexivity.
  - rewrite (parse_iso_dashed "2" "0" "2" "6");
      rewrite ?padStart_digits, ?padStart_length, ?padStart_value;
      trivial; lia.
Qed.

(** Witness for X20: the rows dated 1/19 and 1/20 under the default
    settings. *)
Lemma sheet_date_target_witness :
  (exists w,
     DataManager.normalizeDate (VStr (String.append "1" (String "/" "19"))) = Ok (VStr w)
     /\ DataManager.getCalorieTargetForDate w DataManager.getDefaultSettings = Fin 2600)
  /\ (exists w,
        DataManager.normalizeDate (VStr (String.append "1" (String "/" "20")))
        = Ok (VStr w)
        /\ DataManager.getCalorieTargetForDate w DataManager.getDefaultSettings
           = Fin 2700).
Proof.
  split.
  - apply (sheet_date_target "1" "19" DataManager.getDefaultSettings);
      try reflexivity; vm_compute; split; discriminate.
  - apply (sheet_date_target "1" "20" DataManager.getDefaultSettings);
      try reflexivity; vm_compute; split; discriminate.
Defined.

(* ===================================================================== *)
(** ** Further properties of the daily insights *)
(* ===================================================================== *)

Ltac split_ifs :=
  repeat match goal with
         | |- context [if ?b then _ else _] => destruct b
         end.

Ltac block_done :=
  unfold Spec.block_within, App.no_card, DataManager.push;
  cbn [App.Block.card App.Block.improvements App.Block.positives app length];
  repeat split; try lia;
  intros card E Hst; try discriminate E;
  injection E as <-; cbn [App.Card.status] in Hst;
  first [discriminate Hst | intros Hnil; discriminate Hnil].

Lemma calories_block_within (h : Host.t) (yesterdayLog : Entry.t) (goals : Goals.t) :
  Spec.block_within 1 (App.calories_block h yesterdayLog goals).
Proof.
  unfold App.calories_block.
  destruct (Entry.calories_intake yesterdayLog) as [n|]; split_ifs; block_done.
Qed.

Lemma steps_block_within (h : Host.t) (yesterdayLog : Entry.t) (settings : Settings.t) :
  Spec.block_within 1 (App.steps_block h yesterdayLog settings).
Proof.
  unfold App.steps_block.
  destruct (Entry.steps yesterdayLog) as [n|]; split_ifs; block_done.
Qed.

Lemma pfc_block_within (h : Host.t) (goals : Goals.t) (yesterdayPfc : option App.Macros.t) :
  Spec.block_within 2 (App.pfc_block h goals yesterdayPfc).
Proof.
  unfold App.pfc_block.
  destruct yesterdayPfc as [m|]; [|block_done].
  cbv zeta. split_ifs; block_done.
Qed.

Lemma weight_block_within (h : Host.t) (yesterdayLog : Entry.t)
    (todayLog : option Entry.t) (allLogs : list Entry.t) (b : App.Block.t) :
  App.weight_block h yesterdayLog todayLog allLogs = Some b -> Spec.block_within 1 b.
Proof.
  unfold App.weight_block. cbv zeta.
  destruct (Entry.weight _) as [w|]; [|intros [= <-]; block_done].
  destruct (truthy_num w); [|intros [= <-]; block_done].
  destruct (App.filter_by _ allLogs) as [others|]; [|discriminate].
  split_ifs; intros [= <-]; block_done.
Qed.

(** The weight against the week as binary64 has it: 100.3 against an
    average of 100 differs by 0.29999999999999716, below 0.3, and the card
    says that the weight is that of the week. *)
Example weight_block_binary64 :
  let h := Host.mk (fun _ => "100.3") (fun _ => "100.3") (fun _ => "Invalid Date") in
  let day date w := Entry.mk (VStr date) (Some w) None None None
                             None None None (VStr EmptyString) in
  let before := day "2026-01-08" (Fin 100) in
  let today := day "2026-01-09" (lit 100.3) in
  App.weight_block h before (Some today) [before; today]
  = Some (App.Block.mk
            (Some (App.Card.mk App.Status.positive
                     "今朝 100.3 kg（週平均と同等）"))
            [] [App.positive_weight]).
Proof. vm_compute. reflexivity. Qed.

Lemma waist_block_within (h : Host.t) (todayLog : option Entry.t)
    (allLogs : list Entry.t) (b : App.Block.t) :
  App.waist_block h todayLog allLogs = Some b -> Spec.block_within 0 b.
Proof.
  unfold App.waist_block.
  destruct todayLog as [todayLog|]; [|intros [= <-]; block_done].
  destruct (Entry.waist todayLog) as [w|]; [|intros [= <-]; block_done].
  destruct (truthy_num w); [|intros [= <-]; block_done].
  destruct (App.find_by _ allLogs) as [[lastWaist|]|]; [| |discriminate];
    cbv zeta; split_ifs; intros [= <-]; block_done.
Qed.

Lemma summary_of_status (positives improvements : list string) :
  (App.Summary.status (App.summary_of positives improvements) = App.Status.positive
   <-> positives <> [] /\ improvements = [])
  /\ (App.Summary.status (App.summary_of positives improvements) = App.Status.warning
      <-> positives = [] /\ improvements <> []).
Proof.
  unfold App.summary_of.
  destruct positives, improvements; cbn; repeat split;
    try congruence; try discriminate; intros [? ?]; congruence.
Qed.

(** X21.  The overall card of [generateInsights] is always there.  It is
    positive ("a wonderful day") exactly when something was listed as good
    and nothing as to improve, and a warning exactly when nothing was listed
    as good and something as to improve.  A negative card always comes with
    an improvement, so the overall card is never positive beside a negative
    card.  At most 5 improvements and 5 good points are listed. *)
Theorem generateInsights_summary (h : Host.t) (yesterdayLog : Entry.t)
    (todayLog : option Entry.t) (allLogs : list Entry.t) (goals : Goals.t)
    (settings : Settings.t) (yesterdayPfc : option App.Macros.t)
    (insights : App.Insights.t) :
  App.generateInsights h yesterdayLog todayLog allLogs goals settings yesterdayPfc
  = Some insights ->
  exists summary,
    App.Insights.summary insights = Some summary
    /\ (App.Summary.status summary = App.Status.positive
        <-> App.Insights.positives insights <> []
            /\ App.Insights.improvements insights = [])
    /\ (App.Summary.status summary = App.Status.warning
        <-> App.Insights.positives insights = []
            /\ App.Insights.improvements insights <> [])
    /\ (forall card, In card (Spec.cards insights) ->
          App.Card.status card = App.Status.negative ->
          App.Insights.improvements insights <> []
          /\ App.Summary.status summary <> App.Status.positive)
    /\ (length (App.Insights.improvements insights) <= 5)%nat
    /\ (length (App.Insights.positives insights) <= 5)%nat.
Proof.
  unfold App.generateInsights.
  destruct (App.weight_block h yesterdayLog todayLog allLogs) as [weight|] eqn:Ew;
    [|discriminate].
  destruct (App.waist_block h todayLog allLogs) as [waist|] eqn:Ea; [|discriminate].
  intros [= <-].
  pose proof (calories_block_within h yesterdayLog goals) as (Nc & Ic & Pc).
  pose proof (steps_block_within h yesterdayLog settings) as (Ns & Is & Ps).
  pose proof (pfc_block_within h goals yesterdayPfc) as (Np & Ip & Pp).
  pose proof (weight_block_within _ _ _ _ _ Ew) as (Nw & Iw & Pw).
  pose proof (waist_block_within _ _ _ _ Ea) as (Na & Ia & Pa).
  set (calories := App.calories_block h yesterdayLog goals) in *.
  set (steps := App.steps_block h yesterdayLog settings) in *.
  set (pfc := App.pfc_block h goals yesterdayPfc) in *.
  cbn [App.Insights.summary App.Insights.improvements App.Insights.positives].
  eexists. split; [reflexivity|].
  destruct (summary_of_status
              (App.Block.positives calories ++ App.Block.positives steps
               ++ App.Block.positives pfc ++ App.Block.positives weight
               ++ App.Block.positives waist)
              (App.Block.improvements calories ++ App.Block.improvements steps
               ++ App.Block.improvements pfc ++ App.Block.improvements weight
               ++ App.Block.improvements waist)) as [Hpos Hwarn].
  split; [exact Hpos|]. split; [exact Hwarn|].
  assert (Hneg : forall card, In card (Spec.cards
             {| App.Insights.summary := Some (App.summary_of
                  (App.Block.positives calories ++ App.Block.positives steps
                   ++ App.Block.positives pfc ++ App.Block.positives weight
                   ++ App.Block.positives waist)
                  (App.Block.improvements calories ++ App.Block.improvements steps
                   ++ App.Block.improvements pfc ++ App.Block.improvements weight
                   ++ App.Block.improvements waist));
                App.Insights.calories := App.Block.card calories;
                App.Insights.steps := App.Block.card steps;
                App.Insights.pfc := App.Block.card pfc;
                App.Insights.weight := App.Block.card weight;
                App.Insights.waist := App.Block.card waist;
                App.Insights.improvements :=
                  App.Block.improvements calories ++ App.Block.improvements steps
                  ++ App.Block.improvements pfc ++ App.Block.improvements weight
                  ++ App.Block.improvements waist;
                App.Insights.positives :=
                  App.Block.positives calories ++ App.Block.positives steps
                  ++ App.Block.positives pfc ++ App.Block.positives weight
                  ++ App.Block.positives waist |}) ->
           App.Card.status card = App.Status.negative ->
           App.Block.improvements calories ++ App.Block.improvements steps
           ++ App.Block.improvements pfc ++ App.Block.improvements weight
           ++ App.Block.improvements waist <> []).
  { unfold Spec.cards.
    cbn [App.Insights.calories App.Insights.steps App.Insights.pfc
         App.Insights.weight App.Insights.waist].
    intros card Hin Hst E.
    apply app_eq_nil in E as [Ec E]. apply app_eq_nil in E as [Es E].
    apply app_eq_nil in E as [Ep E]. apply app_eq_nil in E as [Ew' Ea'].
    destruct (App.Block.card calories) as [c1|] eqn:C1;
      destruct (App.Block.card steps) as [c2|] eqn:C2;
      destruct (App.Block.card pfc) as [c3|] eqn:C3;
      destruct (App.Block.card weight) as [c4|] eqn:C4;
      destruct (App.Block.card waist) as [c5|] eqn:C5;
      cbn in Hin;
      repeat (destruct Hin as [<-|Hin];
              [first [now apply (Nc _ eq_refl Hst) | now apply (Ns _ eq_refl Hst)
                     | now apply (Np _ eq_refl Hst) | now apply (Nw _ eq_refl Hst)
                     | now apply (Na _ eq_refl Hst)]|]);
      contradiction. }
  split.
  - intros card Hin Hst. split; [now apply (Hneg card)|].
    intros Hp. apply Hpos in Hp as [_ Hnil]. now apply (Hneg card Hin Hst).
  - rewrite !length_app. split; lia.
Qed.

(** Witness for X21: a day of 3000 kcal against the goal of 2700 and of
    3000 steps against the target of 10000, both cards negative. *)
Lemma generateInsights_summary_witness :
  let h := Host.mk (fun _ => "0") (fun _ => "0") (fun _ => "Invalid Date") in
  let day := Entry.mk (VStr "2026-01-08") (Some (Fin 100)) None (Some (Fin 3000))
                      (Some (Fin 3000)) None None None (VStr EmptyString) in
  match App.generateInsights h day None [day] DataManager.no_goals
          DataManager.getDefaultSettings None with
  | Some insights =>
      exists summary,
        App.Insights.summary insights = Some summary
        /\ (length (App.Insights.improvements insights) <= 5)%nat
  | None => False
  end.
Proof.
  intros h day.
  destruct (App.generateInsights h day None [day] DataManager.no_goals
              DataManager.getDefaultSettings None) as [insights|] eqn:E.
  - destruct (generateInsights_summary _ _ _ _ _ _ _ _ E)
      as (summary & Hs & _ & _ & _ & Hlen & _).
    exists summary. split; assumption.
  - vm_compute in E. discriminate E.
Defined.

Lemma pfc_block_verdict (h : Host.t) (goals : Goals.t) (p f c gp gf gc : number) :
  truthy_num p = true -> truthy_num f = true -> truthy_num c = true ->
  Goals.protein goals = Some gp -> Goals.fat goals = Some gf ->
  Goals.carbs goals = Some gc ->
  truthy_num gp = true -> truthy_num gf = true -> truthy_num gc = true ->
  exists card,
    App.Block.card (App.pfc_block h goals (Some (App.Macros.mk p f c))) = Some card
    /\ (App.Card.status card = App.Status.warning
        <-> exists v, DataManager.evaluatePFC (Grams.mk (Some p) (Some f) (Some c))
                        (Some goals) = Some v
                      /\ DataManager.Verdict.status v = DataManager.warning)
    /\ (forall v, DataManager.evaluatePFC (Grams.mk (Some p) (Some f) (Some c))
                    (Some goals) = Some v ->
          DataManager.Verdict.status v = DataManager.warning ->
          exists ratios,
            App.Card.text card
            = App.cat [ratios; "（"; DataManager.Verdict.text v; "）"]).
Proof.
  intros Hp Hf Hc Egp Egf Egc Hgp Hgf Hgc.
  unfold App.pfc_block, DataManager.evaluatePFC.
  cbv [App.Macros.protein App.Macros.fat App.Macros.carbs
       Grams.protein Grams.fat Grams.carbs truthy DataManager.num_of].
  rewrite Egp, Egf, Egc. cbv [or_default of_undefined].
  rewrite Hp, Hf, Hc, Hgp, Hgf, Hgc. cbv [negb orb].
  set (pDiff := (p - gp)%js). set (fDiff := (f - gf)%js). set (cDiff := (c - gc)%js).
  destruct (pDiff <? Fin (-20))%js, (fDiff >? Fin 20)%js, (cDiff >? Fin 50)%js;
    cbv [DataManager.push app length Nat.eqb Nat.ltb Nat.leb andb App.Block.card];
    split_ifs;
    (eexists; split; [reflexivity|];
     cbv [App.Card.status App.Card.text DataManager.Verdict.status
          DataManager.Verdict.text]; split;
     [split;
      [intros H; try discriminate H; eexists; split; reflexivity
      |intros (v & [= <-] & Hv); try discriminate Hv; reflexivity]
     |intros v [= <-] Hv; try discriminate Hv; eexists; reflexivity]).
Qed.

(** X22.  On a day whose three gram totals are not 0 and with goals whose
    protein, fat and carbs are there and not 0, the macro card of
    [generateInsights] is a warning exactly when [evaluatePFC] gives a
    warning for the same totals and goals, and the card then shows the text
    of that verdict, the labels of the raised flags, between its brackets. *)
Theorem generateInsights_pfc_warning (h : Host.t) (yesterdayLog : Entry.t)
    (todayLog : option Entry.t) (allLogs : list Entry.t) (goals : Goals.t)
    (settings : Settings.t) (p f c gp gf gc : number) (insights : App.Insights.t) :
  truthy_num p = true -> truthy_num f = true -> truthy_num c = true ->
  Goals.protein goals = Some gp -> Goals.fat goals = Some gf ->
  Goals.carbs goals = Some gc ->
  truthy_num gp = true -> truthy_num gf = true -> truthy_num gc = true ->
  App.generateInsights h yesterdayLog todayLog allLogs goals settings
    (Some (App.Macros.mk p f c)) = Some insights ->
  let verdict := DataManager.evaluatePFC (Grams.mk (Some p) (Some f) (Some c))
                   (Some goals) in
  exists card,
    App.Insights.pfc insights = Some card
    /\ (App.Card.status card = App.Status.warning
        <-> exists v, verdict = Some v
                      /\ DataManager.Verdict.status v = DataManager.warning)
    /\ (forall v, verdict = Some v ->
          DataManager.Verdict.status v = DataManager.warning ->
          exists ratios,
            App.Card.text card
            = App.cat [ratios; "（"; DataManager.Verdict.text v; "）"]).
Proof.
  intros Hp Hf Hc Egp Egf Egc Hgp Hgf Hgc.
  unfold App.generateInsights.
  destruct (App.weight_block h yesterdayLog todayLog allLogs) as [weight|];
    [|discriminate].
  destruct (App.waist_block h todayLog allLogs) as [waist|]; [|discriminate].
  intros E. injection E as <-.
  exact (pfc_block_verdict h goals p f c gp gf gc Hp Hf Hc Egp Egf Egc Hgp Hgf Hgc).
Qed.

(** Witness for X22: 150 g of protein, 90 g of fat and 300 g of carbs
    against the goals 195, 58 and 325. *)
Lemma generateInsights_pfc_warning_witness :
  let h := Host.mk (fun _ => "0") (fun _ => "0") (fun _ => "Invalid Date") in
  let day := Entry.mk (VStr "2026-01-08") (Some (Fin 100)) None None None
                      None None None (VStr EmptyString) in
  match App.generateInsights h day None [day] DataManager.default_goals
          DataManager.getDefaultSettings
          (Some (App.Macros.mk (Fin 150) (Fin 90) (Fin 300))) with
  | Some insights =>
      exists card,
        App.Insights.pfc insights = Some card
        /\ App.Card.status card = App.Status.warning
  | None => False
  end.
Proof.
  intros h day.
  destruct (App.generateInsights h day None [day] DataManager.default_goals
              DataManager.getDefaultSettings
              (Some (App.Macros.mk (Fin 150) (Fin 90) (Fin 300))))
    as [insights|] eqn:E.
  - destruct (generateInsights_pfc_warning h day None [day] DataManager.default_goals
                DataManager.getDefaultSettings (Fin 150) (Fin 90) (Fin 300)
                (Fin 195) (Fin 58) (Fin 325) insights)
      as (card & Hcard & [_ Hwarn] & _); try reflexivity; try exact E.
    exists card. split; [exact Hcard|].
    apply Hwarn. eexists. split; [vm_compute; reflexivity|reflexivity].
  - vm_compute in E. discriminate E.
Defined.
